(** * Smart parking: the slot lease manager of [application.py]

    A shallow embedding of the reservation endpoints of the Flask
    application ([reserve_slot], [my_bookings], [slots_status],
    [hardware_sensor], [esp32_reserve_status]) together with the small
    part of the MongoDB collection interface they call.

    Modelling conventions.
    - A MongoDB document and a Python dict are a [gmap string value];
      a missing key and [None] are kept apart ([d !! k = None] against
      [d !! k = Some VNull]).
    - A collection is the list of its documents in natural (insertion)
      order; [find_one], [update_one] and [find_one_and_update] act on the
      first matching document.
    - A [datetime] is an integer number of microseconds since the epoch,
      a [timedelta] a number of microseconds.  The model keeps a stored
      instant as it was written (the store itself keeps milliseconds).
    - A stored date comes back as a naive [datetime] unless the client was
      built [tz_aware]; the code builds its clients without that option, so
      only a connection string that carries it gives aware dates.  The
      handlers' own [now] is aware, and Python refuses to subtract an aware
      [datetime] from a naive one.
    - An uncaught Python exception ends the request; the store writes
      made before it stay. *)

From Stdlib Require Import ZArith Lia DecimalString.
From Stdlib Require OrderedTypeEx.
From stdpp Require Import gmap strings list fin_maps sorting.

Local Open Scope Z_scope.

(** ** Values and documents *)

Inductive value : Type :=
  | VNull
  | VBool (b : bool)
  | VInt (n : Z)
  | VStr (s : string)
  | VTime (t : Z)
  | VOid (n : N).

#[global] Instance value_eq_dec : EqDecision value.
Proof. solve_decision. Defined.

Abbreviation doc := (gmap string value).

(** [d.get(k)]: a missing key reads as [None]. *)
Definition get (d : doc) (k : string) : value := default VNull (d !! k).

(** [d.get(k, dflt)]. *)
Definition get_or (d : doc) (k : string) (dflt : value) : value :=
  default dflt (d !! k).

(** Python truthiness of the values a document holds. *)
Definition truthy (v : value) : bool :=
  match v with
  | VNull => false
  | VBool b => b
  | VInt n => negb (n =? 0)
  | VStr s => negb (String.eqb s "")
  | VTime _ => true
  | VOid _ => true
  end.

(** ** The collection interface *)

(** An equality filter [{k1: v1, ...}]: a condition [k: None] holds of a
    document whose field [k] is null or missing. *)
Definition cond_holds (d : doc) (c : string * value) : bool :=
  bool_decide (get d c.1 = c.2).

Definition matches (q : list (string * value)) (d : doc) : bool :=
  forallb (cond_holds d) q.

(** [{"$set": u}] writes the fields of [u] in order. *)
Definition apply_set (u : list (string * value)) (d : doc) : doc :=
  foldl (fun acc kv => <[kv.1 := kv.2]> acc) d u.

Definition find_one (q : list (string * value)) (c : list doc) : option doc :=
  List.find (matches q) c.

(** [update_one(q, {"$set": u})]: the new collection and [modified_count]. *)
Fixpoint update_one (q u : list (string * value)) (c : list doc)
  : list doc * Z :=
  match c with
  | [] => ([], 0)
  | d :: c' =>
      if matches q d
      then (apply_set u d :: c', if bool_decide (apply_set u d = d) then 0 else 1)
      else let r := update_one q u c' in (d :: r.1, r.2)
  end.

(** [find_one_and_update(q, {"$set": u}, return_document=AFTER)]. *)
Fixpoint find_one_and_update (q u : list (string * value)) (c : list doc)
  : list doc * option doc :=
  match c with
  | [] => ([], None)
  | d :: c' =>
      if matches q d
      then (apply_set u d :: c', Some (apply_set u d))
      else let r := find_one_and_update q u c' in (d :: r.1, r.2)
  end.

(** *** The order of [sort]

    MongoDB compares values of different types by type first
    (null < numbers < strings < ObjectId < booleans < dates), then inside
    the type; a missing field sorts as null. *)

Definition type_rank (v : value) : Z :=
  match v with
  | VNull => 1
  | VInt _ => 2
  | VStr _ => 3
  | VOid _ => 4
  | VBool _ => 5
  | VTime _ => 6
  end.

Definition value_cmp (v w : value) : comparison :=
  match v, w with
  | VNull, VNull => Eq
  | VInt a, VInt b => a ?= b
  | VStr a, VStr b => String.compare a b
  | VOid a, VOid b => (a ?= b)%N
  | VBool a, VBool b => Bool.compare a b
  | VTime a, VTime b => a ?= b
  | _, _ => type_rank v ?= type_rank w
  end.

Definition value_le (v w : value) : Prop := value_cmp v w ≠ Gt.

#[global] Instance value_le_dec v w : Decision (value_le v w).
Proof. unfold value_le. apply _. Defined.

(** The two directions of [sort(k, dir)].  The store leaves open the order
    among documents whose keys compare equal; the model sorts with a merge
    sort, and no statement below depends on that order. *)
Definition asc_by (k : string) : relation doc :=
  fun a b => value_le (get a k) (get b k).
Definition desc_by (k : string) : relation doc :=
  fun a b => value_le (get b k) (get a k).

#[global] Instance asc_by_dec k a b : Decision (asc_by k a b).
Proof. unfold asc_by. apply _. Defined.
#[global] Instance desc_by_dec k a b : Decision (desc_by k a b).
Proof. unfold desc_by. apply _. Defined.

(** [find(q)] keeps the matching documents in natural order. *)
Definition find (q : list (string * value)) (c : list doc) : list doc :=
  List.filter (matches q) c.

(** The projection [{k: 0}]. *)
Definition project_out (k : string) (c : list doc) : list doc :=
  delete k <$> c.

(** ** The database and the request monad *)

(** The three collections, the counter of fresh ids, and whether the
    client decodes stored dates as aware datetimes ([tz_aware] is false for
    the clients the code builds, unless the connection string sets it). *)
Record db : Type := mkDb {
  users_collection : list doc;
  bookings_collection : list doc;
  slots_collection : list doc;
  next_oid : N;
  tz_aware : bool
}.

Inductive exn : Type :=
  | KeyError (k : string)
  | TypeError.

(** A request handler: it threads the database and ends either with a
    value or with an uncaught exception. *)
Definition M (A : Type) : Type := db -> db * (exn + A).

#[global] Instance M_ret : MRet M := fun _ a s => (s, inr a).
#[global] Instance M_bind : MBind M := fun _ _ f m s =>
  match m s with
  | (s', inr a) => f a s'
  | (s', inl e) => (s', inl e)
  end.

Definition raise {A} (e : exn) : M A := fun s => (s, inl e).

(** [d[k]]. *)
Definition item (d : doc) (k : string) : M value :=
  match d !! k with
  | Some v => mret v
  | None => raise (KeyError k)
  end.

Definition users_find_one (q : list (string * value)) : M (option doc) :=
  fun s => (s, inr (find_one q (users_collection s))).

Definition slots_find (c : list doc -> list doc) : M (list doc) :=
  fun s => (s, inr (c (slots_collection s))).

Definition bookings_find (c : list doc -> list doc) : M (list doc) :=
  fun s => (s, inr (c (bookings_collection s))).

Definition slots_count_documents : M Z :=
  fun s => (s, inr (Z.of_nat (length (slots_collection s)))).

(** The database with its slot collection replaced. *)
Definition set_slots (s : db) (c : list doc) : db :=
  mkDb (users_collection s) (bookings_collection s) c (next_oid s)
       (tz_aware s).

Definition slots_update_one (q u : list (string * value)) : M Z :=
  fun s =>
    let r := update_one q u (slots_collection s) in
    (set_slots s r.1, inr r.2).

Definition slots_find_one_and_update (q u : list (string * value))
  : M (option doc) :=
  fun s =>
    let r := find_one_and_update q u (slots_collection s) in
    (set_slots s r.1, inr r.2).

(** [insert_one] gives the document a fresh [_id]. *)
Definition bookings_insert_one (d : doc) : M unit :=
  fun s =>
    (mkDb (users_collection s)
          (bookings_collection s ++ [<["_id" := VOid (next_oid s)]> d])
          (slots_collection s) (N.succ (next_oid s)) (tz_aware s),
     inr tt).

Definition slots_insert_one (d : doc) : M unit :=
  fun s =>
    (mkDb (users_collection s) (bookings_collection s)
          (slots_collection s ++ [<["_id" := VOid (next_oid s)]> d])
          (N.succ (next_oid s)) (tz_aware s),
     inr tt).

Fixpoint slots_insert_many (ds : list doc) : M unit :=
  match ds with
  | [] => mret tt
  | d :: ds' => slots_insert_one d ;; slots_insert_many ds'
  end.

(** ** Time *)

(** [timedelta(minutes=m)], in microseconds. *)
Definition timedelta_minutes (m : Z) : Z := m * 60 * 1000000.

(** [int(td.total_seconds())]: [total_seconds] divides the microseconds by
    [10**6] and [int] truncates toward zero.  The float in between is the
    correctly rounded quotient, whose integer part is the exact one for
    every span below [2**33] seconds. *)
Definition int_total_seconds (td : Z) : Z := Z.quot td 1000000.

(** ** Rendering *)

(** [str(n)] for an integer. *)
Definition str_int (n : Z) : string := NilZero.string_of_int (Z.to_int n).

(** [f"{n:02d}"]: zeros are added on the left up to width two; a sign
    counts in the width. *)
Definition fmt_02d (n : Z) : string :=
  let s := str_int n in
  if (String.length s <? 2)%nat then "0" +:+ s else s.

(** [f"{minutes:02d}:{seconds:02d}"]. *)
Definition fmt_countdown (minutes seconds : Z) : string :=
  fmt_02d minutes +:+ ":" +:+ fmt_02d seconds.

(** ** Responses *)

(** [jsonify(...), code]: the scalar fields of the JSON object and the
    documents of its one array field ([slots] or [bookings]).  A field
    built with [t.isoformat()] is kept as the instant [VTime t]; only its
    rendering differs. *)
Record response : Type := mkResponse {
  status_code : Z;
  body : doc;
  rows : list doc
}.

Definition jsonify (fields : list (string * value)) (array : list doc)
                   (code : Z) : response :=
  mkResponse code (list_to_map fields) array.

(** ** Startup *)

(** The five documents of [init_slots], [S1] to [S5]. *)
Definition initial_slot (i : Z) : doc :=
  list_to_map [("slot_id", VStr ("S" +:+ str_int i));
               ("available", VBool true);
               ("reserved_by", VNull)].

Definition init_slots : M unit :=
  n ← slots_count_documents;
  if n =? 0
  then slots_insert_many (initial_slot <$> [1; 2; 3; 4; 5])
  else mret tt.

(** ** 5. Reserve slot (staff only) *)

Definition reserve_slot (now : Z) (data : doc) : M response :=
  let staff_id := get data "staff_id" in
  user ← users_find_one [("staff_id", staff_id);
                         ("user_type", VStr "staff");
                         ("is_active", VBool true)];
  match user with
  | None =>
      mret (jsonify [("success", VBool false);
                     ("error", VStr "❌ Staff access only")] [] 403)
  | Some user =>
      email ← item user "email";
      slot ← slots_find_one_and_update
               [("available", VBool true); ("reserved_by", VNull)]
               [("available", VBool false);
                ("reserved_by", staff_id);
                ("staff_email", email);
                ("department", get user "department");
                ("reservation_time", VTime now);
                ("last_updated", VTime now)];
      match slot with
      | None =>
          mret (jsonify [("success", VBool false);
                         ("error", VStr "❌ No slots available")] [] 404)
      | Some slot =>
          let expires_at := now + timedelta_minutes 10 in
          slot_id ← item slot "slot_id";
          bookings_insert_one
            (list_to_map [("staff_id", staff_id);
                          ("staff_email", email);
                          ("department", get user "department");
                          ("slot_id", slot_id);
                          ("reserved_at", VTime now);
                          ("expires_at", VTime expires_at)]);;
          mret (jsonify [("success", VBool true);
                         ("message", VStr "✅ Slot reserved!");
                         ("slot_id", slot_id);
                         ("staff_id", staff_id);
                         ("staff_email", email);
                         ("department", get user "department");
                         ("reserved_at", VTime now);
                         ("expires_at", VTime expires_at);
                         ("duration_minutes", VInt 10);
                         ("auto_refresh", VBool true)] [] 201)
      end
  end.

(** ** 6. My bookings *)

Definition my_bookings (staff_id : string) : M response :=
  bookings ← bookings_find
    (fun c => project_out "_id"
                (take 20 (merge_sort (desc_by "reserved_at")
                            (find [("staff_id", VStr staff_id)] c))));
  mret (jsonify [("success", VBool true);
                 ("staff_id", VStr staff_id);
                 ("total_bookings", VInt (Z.of_nat (length bookings)))]
                bookings 200).

(** ** 7. Slots status with auto-expire *)

(** The [$set] of the auto-release, the same in both status views. *)
Definition release_set : list (string * value) :=
  [("available", VBool true);
   ("reserved_by", VNull);
   ("staff_email", VNull);
   ("department", VNull);
   ("reservation_time", VNull)].

(** [slot["reservation_time"] + timedelta(minutes=10)], reached only when
    the field is truthy; anything but a datetime cannot be added to a
    timedelta.  The sum is naive or aware as the stored date is, which
    matters at the subtraction that follows ([time_until]). *)
Definition expiry_of (slot : doc) : M Z :=
  match get slot "reservation_time" with
  | VTime t => mret (t + timedelta_minutes 10)
  | _ => raise TypeError
  end.

(** [expiry - now].  [now] is aware; [expiry] comes from a stored date,
    which is aware only on a [tz_aware] client: the difference of a naive
    and an aware datetime is a [TypeError]. *)
Definition time_until (expiry now : Z) : M Z :=
  fun s => if tz_aware s then (s, inr (expiry - now)) else (s, inl TypeError).

(** The documents a status view reads: [find({}, {"_id": 0})] sorted by
    [slot_id]. *)
Definition snapshot (c : list doc) : list doc :=
  project_out "_id" (merge_sort (asc_by "slot_id") (find [] c)).

(** The body of the [for slot in slots] loop of [slots_status]; the result
    is the dict [slot] as the loop leaves it. *)
Definition slots_status_slot (now : Z) (slot : doc) : M doc :=
  if truthy (get slot "reservation_time") then
    expiry ← expiry_of slot;
    td ← time_until expiry now;
    let total_seconds := int_total_seconds td in
    if 0 <? total_seconds then
      let minutes := total_seconds `div` 60 in
      let seconds := total_seconds `mod` 60 in
      let slot :=
        <["expires_at" := VTime expiry]>
          (<["status" := VStr "RESERVED"]>
             (<["countdown" := VStr (fmt_countdown minutes seconds)]>
                (<["time_left_sec" := VInt seconds]>
                   (<["time_left_min" := VInt minutes]> slot)))) in
      if negb (truthy (get slot "staff_email")) then
        user ← users_find_one [("staff_id", get slot "reserved_by")];
        match user with
        | Some user =>
            email ← item user "email";
            mret (<["department" := get user "department"]>
                    (<["staff_email" := email]> slot))
        | None => mret slot
        end
      else mret slot
    else
      slot_id ← item slot "slot_id";
      slots_update_one [("slot_id", slot_id)] release_set;;
      mret (delete "department"
              (delete "staff_email"
                 (delete "reserved_by"
                    (delete "reservation_time"
                       (<["status" := VStr "AVAILABLE"]> slot)))))
  else
    mret (<["status" := VStr "AVAILABLE"]> slot).

Definition count_status (s : string) (slots : list doc) : Z :=
  Z.of_nat (length (List.filter
                      (fun d => bool_decide (get d "status" = VStr s)) slots)).

Definition slots_status (now : Z) : M response :=
  slots ← slots_find snapshot;
  slots ← mapM (slots_status_slot now) slots;
  mret (jsonify [("success", VBool true);
                 ("total_slots", VInt (Z.of_nat (length slots)));
                 ("total_available", VInt (count_status "AVAILABLE" slots));
                 ("total_reserved", VInt (count_status "RESERVED" slots));
                 ("timestamp", VTime now);
                 ("auto_refresh", VBool true);
                 ("refresh_interval", VInt 1000)] slots 200).

(** ** 8. Hardware endpoints *)

Definition hardware_sensor (now : Z) (data : doc) : M response :=
  let slot_id := get data "slot_id" in
  let occupied := get_or data "occupied" (VBool false) in
  if negb (truthy slot_id) then
    mret (jsonify [("success", VBool false);
                   ("error", VStr "slot_id required")] [] 400)
  else
    modified_count ← slots_update_one
      [("slot_id", slot_id)]
      [("hardware_occupied", occupied);
       ("last_sensor_update", VTime now)];
    mret (jsonify [("success", VBool true);
                   ("slot_id", slot_id);
                   ("occupied", occupied);
                   ("updated", VBool (0 <? modified_count))] [] 200).

(** [d.update({...})]. *)
Definition dict_update (u : list (string * value)) (d : doc) : doc :=
  foldl (fun acc kv => <[kv.1 := kv.2]> acc) d u.

(** The body of the loop of [esp32_reserve_status]; the result is the
    [esp32_slot] it appends. *)
Definition esp32_slot_of (now : Z) (slot : doc) : M doc :=
  slot_id ← item slot "slot_id";
  let esp32_slot : doc :=
    list_to_map [("slot_id", slot_id);
                 ("available", get_or slot "available" (VBool true));
                 ("hardware_occupied",
                  get_or slot "hardware_occupied" (VBool false))] in
  if truthy (get slot "reservation_time") then
    expiry ← expiry_of slot;
    td ← time_until expiry now;
    let total_seconds := int_total_seconds td in
    if 0 <? total_seconds then
      let minutes := total_seconds `div` 60 in
      let seconds := total_seconds `mod` 60 in
      mret (dict_update
              [("status", VStr "RESERVED");
               ("reserved_by", get slot "reserved_by");
               ("staff_email", get slot "staff_email");
               ("department", get slot "department");
               ("time_left_min", VInt minutes);
               ("time_left_sec", VInt seconds);
               ("countdown", VStr (fmt_countdown minutes seconds));
               ("led_color", VStr "GREEN");
               ("buzzer", VBool false)] esp32_slot)
    else
      slot_id ← item slot "slot_id";
      slots_update_one [("slot_id", slot_id)] release_set;;
      mret (dict_update
              [("status", VStr "AVAILABLE");
               ("led_color", VStr "OFF");
               ("buzzer", VBool false)] esp32_slot)
  else
    mret (dict_update
            [("status", VStr "AVAILABLE");
             ("led_color", VStr "OFF");
             ("buzzer", VBool false)] esp32_slot).

Definition esp32_reserve_status (now : Z) (host : string) : M response :=
  slots ← slots_find snapshot;
  esp32_slots ← mapM (esp32_slot_of now) slots;
  mret (jsonify [("success", VBool true);
                 ("server_ip", VStr host);
                 ("timestamp", VTime now);
                 ("total_slots", VInt (Z.of_nat (length esp32_slots)));
                 ("refresh_rate", VInt 1000)] esp32_slots 200).

(** ** Vocabulary of the statements *)

(** The whole seconds a status view computes for a slot that carries a
    lease start: [int((expiry - now).total_seconds())]. *)
Definition remaining_seconds (now : Z) (slot : doc) : option Z :=
  match get slot "reservation_time" with
  | VTime t => Some (int_total_seconds (t + timedelta_minutes 10 - now))
  | _ => None
  end.

(** The slot carries a lease start and the views take their expired
    branch at [now]. *)
Definition lease_expired (now : Z) (slot : doc) : bool :=
  match remaining_seconds now slot with
  | Some r => negb (0 <? r)
  | None => false
  end.

(** What one status read leaves of a stored slot. *)
Definition release_if_expired (now : Z) (d : doc) : doc :=
  if lease_expired now d then apply_set release_set d else d.

(** The store write of one turn of a status loop. *)
Definition release_step (now : Z) (slot : doc) (s : db) : db :=
  if lease_expired now slot
  then set_slots s (update_one [("slot_id", get slot "slot_id")] release_set
                      (slots_collection s)).1
  else s.

(** Well-formed stores: a slot has a string [slot_id], unique in the pool,
    and its lease start is null, missing or a datetime; a user has an
    [email]. *)
Definition slot_ok (d : doc) : Prop :=
  (exists sid, d !! "slot_id" = Some (VStr sid)) /\
  (get d "reservation_time" = VNull \/
   exists t, get d "reservation_time" = VTime t).

Definition slots_ok (c : list doc) : Prop :=
  Forall slot_ok c /\ NoDup ((fun d => get d "slot_id") <$> c).

Definition users_ok (c : list doc) : Prop :=
  Forall (fun u => is_Some (u !! "email")) c.

Definition db_ok (s : db) : Prop :=
  slots_ok (slots_collection s) /\ users_ok (users_collection s).

(** What [register] guarantees of a staff account: it has a staff id. *)
Definition staff_registered (c : list doc) : Prop :=
  Forall (fun u => get u "user_type" = VStr "staff" ->
                   get u "staff_id" <> VNull) c.

(** The slot-record invariant. *)
Definition lease_inv (d : doc) : Prop :=
  get d "available" = VBool false <->
  (get d "reserved_by" <> VNull /\ get d "reservation_time" <> VNull).

(** Decimal digits. *)
Definition digit (n : Z) : Ascii.ascii :=
  Ascii.ascii_of_nat (48 + Z.to_nat n).

Definition two_digits (n : Z) : string :=
  String (digit (n `div` 10)) (String (digit (n `mod` 10)) "").

(** The entry of the human status feed for the slot document [x]. *)
Definition status_row_spec (now : Z) (x e : doc) : Prop :=
  e !! "slot_id" = x !! "slot_id" /\
  match remaining_seconds now x with
  | Some r =>
      if 0 <? r
      then e !! "status" = Some (VStr "RESERVED") /\
           e !! "countdown" =
             Some (VStr (fmt_countdown (r `div` 60) (r `mod` 60))) /\
           e !! "time_left_min" = Some (VInt (r `div` 60)) /\
           e !! "time_left_sec" = Some (VInt (r `mod` 60))
      else e !! "status" = Some (VStr "AVAILABLE") /\
           e !! "countdown" = x !! "countdown"
  | None => e !! "status" = Some (VStr "AVAILABLE")
  end.

(** The entry of the hardware signal feed for the slot document [x]. *)
Definition signal_row_spec (now : Z) (x e : doc) : Prop :=
  e !! "slot_id" = x !! "slot_id" /\
  e !! "available" = Some (get_or x "available" (VBool true)) /\
  e !! "hardware_occupied" =
    Some (get_or x "hardware_occupied" (VBool false)) /\
  e !! "buzzer" = Some (VBool false) /\
  match remaining_seconds now x with
  | Some r =>
      if 0 <? r
      then e !! "status" = Some (VStr "RESERVED") /\
           e !! "led_color" = Some (VStr "GREEN") /\
           e !! "countdown" =
             Some (VStr (fmt_countdown (r `div` 60) (r `mod` 60))) /\
           e !! "time_left_min" = Some (VInt (r `div` 60)) /\
           e !! "time_left_sec" = Some (VInt (r `mod` 60))
      else e !! "status" = Some (VStr "AVAILABLE") /\
           e !! "led_color" = Some (VStr "OFF") /\
           e !! "countdown" = None
  | None => e !! "status" = Some (VStr "AVAILABLE") /\
            e !! "led_color" = Some (VStr "OFF")
  end.

(** The slots a loop over the documents [L] releases: those whose id is the
    id of an expired document of [L]. *)
Definition released_by (now : Z) (L : list doc) (d : doc) : bool :=
  existsb (fun x => lease_expired now x &&
                    bool_decide (get d "slot_id" = get x "slot_id")) L.

(** The stored slot [d] after that loop. *)
Definition release_where (now : Z) (L : list doc) (d : doc) : doc :=
  if released_by now L d then apply_set release_set d else d.

(** [e] is an entry of the response [r] for the slot of document [d]. *)
Definition row_of (r : response) (d e : doc) : Prop :=
  e ∈ rows r /\ e !! "slot_id" = d !! "slot_id".

(** Boolean checkers for [slot_ok] and [db_ok], to decide them on concrete
    stores. *)
Definition slot_okb (d : doc) : bool :=
  match d !! "slot_id" with
  | Some (VStr _) =>
      match get d "reservation_time" with
      | VNull | VTime _ => true
      | _ => false
      end
  | _ => false
  end.

Definition db_okb (s : db) : bool :=
  forallb slot_okb (slots_collection s) &&
  bool_decide (NoDup ((fun d => get d "slot_id") <$> slots_collection s)) &&
  forallb (fun u => bool_decide (is_Some (u !! "email"))) (users_collection s).

(** *** Sample data: one registered staff account and the pool of five *)

Definition staff_cse101 : doc :=
  list_to_map [("email", VStr "cse101@campus.edu");
               ("user_type", VStr "staff");
               ("staff_id", VStr "cse101");
               ("student_id", VNull);
               ("department", VStr "CSE");
               ("is_active", VBool true)].

Definition fresh_db : db := mkDb [staff_cse101] [] [] 0 false.

(** The same store over a connection whose string sets [tz_aware]. *)
Definition aware (s : db) : db :=
  mkDb (users_collection s) (bookings_collection s) (slots_collection s)
       (next_oid s) true.
Definition pool : db := (init_slots fresh_db).1.
Definition reserve_request : doc := {[ "staff_id" := VStr "cse101" ]}.
Definition pool_reserved : db := (reserve_slot 0 reserve_request pool).1.
Definition slot_S1 (s : db) : doc := default ∅ (head (slots_collection s)).

(** The filter and the update of the allocation. *)
Definition free_slot_query : list (string * value) :=
  [("available", VBool true); ("reserved_by", VNull)].

Definition staff_query (staff_id : value) : list (string * value) :=
  [("staff_id", staff_id); ("user_type", VStr "staff"); ("is_active", VBool true)].

(** The response a client gets; an uncaught exception is a 500. *)
Definition response_of (x : db * (exn + response)) : response :=
  match x.2 with
  | inr r => r
  | inl _ => jsonify [] [] 500
  end.

(** The pool after five allocations: no free slot is left. *)
Definition pool_full : db :=
  foldl (fun s t => (reserve_slot t reserve_request s).1) pool [0; 1; 2; 3; 4].

(** The [$set] of a sensor report. *)
Definition sensor_set (occupied : value) (now : Z) : list (string * value) :=
  [("hardware_occupied", occupied); ("last_sensor_update", VTime now)].

Definition sensor_request (slot_id : string) (occupied : bool) : doc :=
  list_to_map [("slot_id", VStr slot_id); ("occupied", VBool occupied)].

(** A ledger of 25 bookings on a [tz_aware] connection: every 700 seconds
    a status read releases the expired lease and the staff member reserves
    again. *)
Definition reserve_after_release (s : db) (t : Z) : db :=
  (reserve_slot t reserve_request (slots_status t s).1).1.

Definition busy_ledger : db :=
  foldl reserve_after_release (aware pool)
        ((fun k => k * 700000000) <$> seqZ 0 25).

(** The [$set] of an allocation. *)
Definition reserve_set (staff_id email dept : value) (now : Z)
  : list (string * value) :=
  [("available", VBool false); ("reserved_by", staff_id);
   ("staff_email", email); ("department", dept);
   ("reservation_time", VTime now); ("last_updated", VTime now)].

(** The free slots of a pool, as the allocation sees them. *)
Definition free_slots (c : list doc) : list doc :=
  List.filter (matches free_slot_query) c.

(** The status codes of a run of allocation requests, one per instant. *)
Fixpoint reserve_codes (data : doc) (ts : list Z) (s : db) : list Z :=
  match ts with
  | [] => []
  | t :: ts' =>
      status_code (response_of (reserve_slot t data s))
        :: reserve_codes data ts' (reserve_slot t data s).1
  end.

(** The slot carries a lease that the views report as running at [now]. *)
Definition lease_active (now : Z) (slot : doc) : bool :=
  match remaining_seconds now slot with
  | Some r => 0 <? r
  | None => false
  end.

(** * Accounts, sign-in and the rosters

    The rest of [application.py]: the two JSON rosters and their helpers,
    the validators, [register], [forgot_password], [reset_password],
    [login], the listings and the lookup endpoints, and the module-level
    start.

    Modelling conventions.
    - A request field is a [value]: JSON arrays and objects in a request
      are outside the model.
    - A [str] is a [string] of code points below 256; [strip], [lower],
      [isdigit] and [split] are the methods of Python on those.
    - A roster file is missing, unreadable, or holds departments in file
      order, each a dict from id to record; a file of another shape is
      outside the model.  Whether files can be written is one flag of the
      world.
    - [generate_password_hash], [check_password_hash] and [str] of an
      ObjectId are parameters; the salt the first one draws is an input of
      the handler. *)

(** ** Python strings

    A [str] is a [string] whose characters are the code points below 256. *)

Definition ord (c : Ascii.ascii) : N := Ascii.N_of_ascii c.

(** [c.isspace()]. *)
Definition isspace (c : Ascii.ascii) : bool :=
  ((9 <=? ord c) && (ord c <=? 13) || (28 <=? ord c) && (ord c <=? 32) ||
   (ord c =? 133) || (ord c =? 160))%N.

(** [c.isdigit()]: the decimal digits and the superscripts two, three and
    one. *)
Definition isdigit (c : Ascii.ascii) : bool :=
  ((48 <=? ord c) && (ord c <=? 57) ||
   (ord c =? 178) || (ord c =? 179) || (ord c =? 185))%N.

(** [c.lower()]. *)
Definition lower_char (c : Ascii.ascii) : Ascii.ascii :=
  if ((65 <=? ord c) && (ord c <=? 90) ||
      (192 <=? ord c) && (ord c <=? 222) && negb (ord c =? 215))%N
  then Ascii.ascii_of_N (ord c + 32)
  else c.

Fixpoint lower (s : string) : string :=
  match s with
  | EmptyString => EmptyString
  | String c s' => String (lower_char c) (lower s')
  end.

Fixpoint lstrip (s : string) : string :=
  match s with
  | EmptyString => EmptyString
  | String c s' => if isspace c then lstrip s' else s
  end.

Fixpoint rstrip (s : string) : string :=
  match s with
  | EmptyString => EmptyString
  | String c s' =>
      match rstrip s' with
      | EmptyString => if isspace c then EmptyString else String c EmptyString
      | t => String c t
      end
  end.

(** [s.strip()]. *)
Definition strip (s : string) : string := rstrip (lstrip s).

(** [s.isdigit()]. *)
Definition str_isdigit (s : string) : bool :=
  negb (String.eqb s "") && forallb isdigit (String.list_ascii_of_string s).

(** [s.split(sep)] for a separator of one character. *)
Fixpoint split_char (sep : Ascii.ascii) (s : string) : list string :=
  match s with
  | EmptyString => [EmptyString]
  | String c s' =>
      if Ascii.eqb c sep then EmptyString :: split_char sep s'
      else match split_char sep s' with
           | h :: t => String c h :: t
           | [] => [String c EmptyString]
           end
  end.

(** [c in s] for a character [c]. *)
Definition contains_char (c : Ascii.ascii) (s : string) : bool :=
  existsb (Ascii.eqb c) (String.list_ascii_of_string s).

(** The characters [@] and [.]. *)
Definition at_sign : Ascii.ascii := Ascii.ascii_of_nat 64.
Definition full_stop : Ascii.ascii := Ascii.ascii_of_nat 46.

(** ** Validation functions *)

Definition validate_email (email : string) : bool :=
  if String.eqb email "" || (String.length email <? 7)%nat
     || (99 <? String.length email)%nat
  then false
  else match split_char at_sign email with
       | [_; domain] => contains_char full_stop domain
       | _ => false
       end.

(** [len] of anything but a string of the request is a [TypeError]. *)
Definition validate_password (password : value) : exn + bool :=
  match password with
  | VStr p => inr ((String.length p =? 6)%nat && str_isdigit p)
  | _ => inl TypeError
  end.

(** ** The two JSON files and the world of a request

    [staff_database.json] and [student_database.json] hold a dict from
    department to a dict from id to a record dict; the departments are kept
    in the order of the file, which is the order [.items()] walks. *)

Inductive roster : Type := Staff | Student.

Inductive json_file : Type :=
  | FileMissing
  | FileCorrupt
  | FileContent (departments : list (string * gmap string doc)).

Record world : Type := mkWorld {
  store : db;
  staff_database_json : json_file;
  student_database_json : json_file;
  fs_writable : bool
}.

Definition file_of (k : roster) (w : world) : json_file :=
  match k with
  | Staff => staff_database_json w
  | Student => student_database_json w
  end.

Definition set_file (k : roster) (f : json_file) (w : world) : world :=
  match k with
  | Staff => mkWorld (store w) f (student_database_json w) (fs_writable w)
  | Student => mkWorld (store w) (staff_database_json w) f (fs_writable w)
  end.

Definition set_store (w : world) (s : db) : world :=
  mkWorld s (staff_database_json w) (student_database_json w) (fs_writable w).

(** The exceptions of the handlers outside the reservation part. *)
Inductive py_exn : Type :=
  | Py (e : exn)
  | AttributeError
  | OSError.

Definition W (A : Type) : Type := world -> world * (py_exn + A).

#[global] Instance W_ret : MRet W := fun _ a w => (w, inr a).
#[global] Instance W_bind : MBind W := fun _ _ f m w =>
  match m w with
  | (w', inr a) => f a w'
  | (w', inl e) => (w', inl e)
  end.

Definition throw {A} (e : py_exn) : W A := fun w => (w, inl e).

(** A database call inside a handler. *)
Definition lift {A} (m : M A) : W A := fun w =>
  match m (store w) with
  | (s', inr a) => (set_store w s', inr a)
  | (s', inl e) => (set_store w s', inl (Py e))
  end.

Definition lift_pure {A} (x : exn + A) : W A := fun w =>
  match x with
  | inr a => (w, inr a)
  | inl e => (w, inl (Py e))
  end.

(** The file written when none is found. *)
Definition default_database (k : roster) : list (string * gmap string doc) :=
  match k with
  | Staff => [("CSE", {[ "cse101" := {[ "registered" := VBool false ]} ]});
              ("ECE", {[ "ece101" := {[ "registered" := VBool false ]} ]})]
  | Student => [("CSE", {[ "cse21001" := {[ "registered" := VBool false ]} ]});
                ("ECE", {[ "ece21001" := {[ "registered" := VBool false ]} ]})]
  end.

(** [load_staff_database] and [load_student_database]: a missing file is
    created with the default content (the write can fail, and that failure
    is not caught); any other failure to read gives the empty dict. *)
Definition load_database (k : roster) : W (list (string * gmap string doc)) :=
  fun w =>
    match file_of k w with
    | FileContent d => (w, inr d)
    | FileMissing =>
        if fs_writable w
        then (set_file k (FileContent (default_database k)) w,
              inr (default_database k))
        else (w, inl OSError)
    | FileCorrupt => (w, inr [])
    end.

(** [save_staff_database] and [save_student_database]. *)
Definition save_database (k : roster) (data : list (string * gmap string doc))
  : W bool :=
  fun w =>
    if fs_writable w
    then (set_file k (FileContent data) w, inr true)
    else (w, inr false).

Definition load_staff_database := load_database Staff.
Definition save_staff_database := save_database Staff.
Definition load_student_database := load_database Student.
Definition save_student_database := save_database Student.

(** The loop [for department, staff_list in db.items()] of [check_staff_id]
    and [check_student_id]: (exists, department, is_registered). *)
Fixpoint check_in (id_lower : string) (d : list (string * gmap string doc))
  : bool * value * value :=
  match d with
  | [] => (false, VNull, VBool false)
  | (department, id_list) :: d' =>
      match id_list !! id_lower with
      | Some record =>
          (true, VStr department, get_or record "registered" (VBool false))
      | None => check_in id_lower d'
      end
  end.

Definition check_id (k : roster) (id : string) : W (bool * value * value) :=
  d ← load_database k;
  mret (check_in (lower id) d).

Definition check_staff_id := check_id Staff.
Definition check_student_id := check_id Student.

(** The loop of [mark_staff_registered] and [mark_student_registered]: the
    dict after the assignment, when the id is found. *)
Fixpoint mark_in (id_lower : string) (d : list (string * gmap string doc))
  : option (list (string * gmap string doc)) :=
  match d with
  | [] => None
  | (department, id_list) :: d' =>
      match id_list !! id_lower with
      | Some record =>
          Some ((department,
                 <[id_lower := <["registered" := VBool true]> record]> id_list)
                  :: d')
      | None =>
          match mark_in id_lower d' with
          | Some d'' => Some ((department, id_list) :: d'')
          | None => None
          end
      end
  end.

Definition mark_registered (k : roster) (id : string) : W bool :=
  d ← load_database k;
  match mark_in (lower id) d with
  | Some d' => save_database k d'
  | None => mret false
  end.

Definition mark_staff_registered := mark_registered Staff.
Definition mark_student_registered := mark_registered Student.

(** ** Writes to the users collection *)

Definition set_users (s : db) (c : list doc) : db :=
  mkDb c (bookings_collection s) (slots_collection s) (next_oid s)
       (tz_aware s).

(** [insert_one(d).inserted_id]. *)
Definition users_insert_one (d : doc) : M N :=
  fun s =>
    (mkDb (users_collection s ++ [<["_id" := VOid (next_oid s)]> d])
          (bookings_collection s) (slots_collection s) (N.succ (next_oid s))
          (tz_aware s),
     inr (next_oid s)).

Definition users_update_one (q u : list (string * value)) : M Z :=
  fun s =>
    let r := update_one q u (users_collection s) in
    (set_users s r.1, inr r.2).

Definition users_find (c : list doc -> list doc) : M (list doc) :=
  fun s => (s, inr (c (users_collection s))).

(** [v.strip()] for a value of the request: anything but a string has no
    such method. *)
Definition str_strip (v : value) : W string :=
  match v with
  | VStr s => mret (strip s)
  | _ => throw AttributeError
  end.

(** ** The authentication endpoints

    [generate_password_hash] and [check_password_hash] are the library's;
    the first draws a salt, which is an input here.  [str_oid] is [str] of
    an ObjectId. *)

Section Auth.

Variable generate_password_hash : string -> string -> string.
Variable check_password_hash : string -> string -> bool.
Variable str_oid : N -> string.

(** The branch of [register] for one kind of account, up to the id checks:
    either the 400 it answers or the department found. *)
Definition verify_id (k : roster) (label : string) (user_id_input : string)
  : W (response + value) :=
  if String.eqb user_id_input "" then
    mret (inl (jsonify [("success", VBool false);
                        ("error", VStr ("❌ " +:+ label +:+ " ID required"))]
                       [] 400))
  else
    r ← check_id k user_id_input;
    let '(found, dept, is_registered) := r in
    if negb found then
      mret (inl (jsonify
                   [("success", VBool false);
                    ("error", VStr ("❌ " +:+ label +:+ " ID '" +:+ user_id_input
                                    +:+ "' not found in database"))] [] 400))
    else if truthy is_registered then
      mret (inl (jsonify
                   [("success", VBool false);
                    ("error", VStr ("❌ " +:+ label +:+ " ID '" +:+ user_id_input
                                    +:+ "' is already registered"))] [] 400))
    else mret (inr dept).

(** The document [user_data] that [register] stores. *)
Definition user_data (now : Z) (salt : string) (k : roster)
    (email password : string) (user_type : value) (final_user_id : string)
    (department : value) : doc :=
  list_to_map
    [("email", VStr email);
     ("password", VStr (generate_password_hash salt password));
     ("user_type", user_type);
     ("staff_id", match k with Staff => VStr final_user_id | Student => VNull end);
     ("student_id", match k with Student => VStr final_user_id | Staff => VNull end);
     ("department", department);
     ("created_at", VTime now);
     ("is_active", VBool true)].

(** The rest of [register] once the id is accepted. *)
Definition create_user (now : Z) (salt : string) (k : roster)
    (email password : string) (user_type : value) (final_user_id : string)
    (department : value) : W response :=
  user_id ← lift (users_insert_one
                    (user_data now salt k email password user_type
                               final_user_id department));
  _ ← mark_registered k final_user_id;
  mret (jsonify [("success", VBool true);
                 ("message", VStr "✅ Registration successful!");
                 ("user_id", VStr (str_oid user_id));
                 ("user_type", user_type);
                 ("staff_id",
                  match k with Staff => VStr final_user_id | Student => VNull end);
                 ("student_id",
                  match k with Student => VStr final_user_id | Staff => VNull end);
                 ("department", department);
                 ("email", VStr email)] [] 201).

Definition register (now : Z) (salt : string) (data : doc) : W response :=
  email ← str_strip (get_or data "email" (VStr ""));
  let password := get_or data "password" (VStr "") in
  let confirm_password := get_or data "confirm_password" (VStr "") in
  let user_type := get data "user_type" in
  staff_part ← str_strip (get_or data "staff_id" (VStr ""));
  user_id_input ← (if String.eqb staff_part ""
                   then str_strip (get_or data "student_id" (VStr ""))
                   else mret staff_part);
  if negb (validate_email email) then
    mret (jsonify [("success", VBool false);
                   ("error", VStr "❌ Invalid email format")] [] 400)
  else
    valid ← lift_pure (validate_password password);
    if negb valid then
      mret (jsonify [("success", VBool false);
                     ("error", VStr "❌ Password must be 6 digits numeric")]
                    [] 400)
    else if negb (bool_decide (password = confirm_password)) then
      mret (jsonify [("success", VBool false);
                     ("error", VStr "❌ Passwords don't match")] [] 400)
    else
      existing ← lift (users_find_one [("email", VStr email)]);
      match existing with
      | Some _ =>
          mret (jsonify [("success", VBool false);
                         ("error", VStr "❌ Email already registered")] [] 400)
      | None =>
          let p := match password with VStr p => p | _ => "" end in
          if bool_decide (user_type = VStr "staff") then
            v ← verify_id Staff "Staff" user_id_input;
            match v with
            | inl r => mret r
            | inr dept => create_user now salt Staff email p user_type
                            user_id_input dept
            end
          else if bool_decide (user_type = VStr "student") then
            v ← verify_id Student "Student" user_id_input;
            match v with
            | inl r => mret r
            | inr dept => create_user now salt Student email p user_type
                            user_id_input dept
            end
          else
            mret (jsonify [("success", VBool false);
                           ("error", VStr "❌ Invalid user type")] [] 400)
      end.

Definition forgot_password (data : doc) : W response :=
  email ← str_strip (get_or data "email" (VStr ""));
  if negb (validate_email email) then
    mret (jsonify [("success", VBool false);
                   ("error", VStr "❌ Invalid email")] [] 400)
  else
    user ← lift (users_find_one [("email", VStr email);
                                 ("is_active", VBool true)]);
    match user with
    | None =>
        mret (jsonify [("success", VBool false);
                       ("error", VStr "❌ Email not found")] [] 404)
    | Some _ =>
        mret (jsonify
                [("success", VBool true);
                 ("message", VStr "✅ Instructions sent to your email!");
                 ("email", VStr email);
                 ("instruction",
                  VStr "Check your email and choose a 6-digit number as your new password")]
                [] 200)
    end.

Definition reset_password (salt : string) (data : doc) : W response :=
  email ← str_strip (get_or data "email" (VStr ""));
  let new_password := get_or data "new_password" (VStr "") in
  if negb (validate_email email) then
    mret (jsonify [("success", VBool false);
                   ("error", VStr "❌ Invalid email")] [] 400)
  else
    valid ← lift_pure (validate_password new_password);
    if negb valid then
      mret (jsonify [("success", VBool false);
                     ("error", VStr "❌ New password must be 6 digits")] [] 400)
    else
      let p := match new_password with VStr p => p | _ => "" end in
      modified_count ← lift (users_update_one
                               [("email", VStr email); ("is_active", VBool true)]
                               [("password",
                                 VStr (generate_password_hash salt p))]);
      if modified_count =? 0 then
        mret (jsonify [("success", VBool false);
                       ("error", VStr "❌ User not found")] [] 404)
      else
        mret (jsonify
                [("success", VBool true);
                 ("message",
                  VStr "✅ Password reset successful! You can now login with your new password.");
                 ("email", VStr email)] [] 200).

(** [check_password_hash(user["password"], password)] on a stored hash that
    [generate_password_hash] made: a password that is not a string has no
    [encode]. *)
Definition check_hash (pwhash password : value) : W bool :=
  match pwhash, password with
  | VStr h, VStr p => mret (check_password_hash h p)
  | _, _ => throw AttributeError
  end.

(** [str(user["_id"])]. *)
Definition str_id (v : value) : W string :=
  match v with
  | VOid n => mret (str_oid n)
  | _ => throw (Py TypeError)
  end.

(** The nested object [user] of the answer is its one row. *)
Definition login (now : Z) (data : doc) : W response :=
  email ← str_strip (get_or data "email" (VStr ""));
  let password := get data "password" in
  user ← lift (users_find_one [("email", VStr email);
                               ("is_active", VBool true)]);
  match user with
  | None =>
      mret (jsonify [("success", VBool false);
                     ("error", VStr "❌ Invalid email/password")] [] 401)
  | Some user =>
      pwhash ← lift (item user "password");
      ok ← check_hash pwhash password;
      if negb ok then
        mret (jsonify [("success", VBool false);
                       ("error", VStr "❌ Invalid email/password")] [] 401)
      else
        oid ← lift (item user "_id");
        id ← str_id oid;
        let token := "jwt_" +:+ id +:+ "_" +:+ str_int (int_total_seconds now) in
        user_email ← lift (item user "email");
        user_type ← lift (item user "user_type");
        username ← (match user_email with
                    | VStr e => mret (hd "" (split_char at_sign e))
                    | _ => throw AttributeError
                    end);
        mret (jsonify [("success", VBool true);
                       ("message", VStr "✅ Login successful");
                       ("token", VStr token)]
                      [list_to_map [("email", user_email);
                                    ("user_type", user_type);
                                    ("staff_id", get user "staff_id");
                                    ("student_id", get user "student_id");
                                    ("department", get user "department");
                                    ("username", VStr username)]] 200)
  end.

End Auth.

(** ** 9 to 13. Views of the registered accounts *)

(** [find(q, {"_id": 0, "password": 0}).sort("created_at", -1)]. *)
Definition list_users (q : list (string * value)) (c : list doc) : list doc :=
  project_out "password"
    (project_out "_id" (merge_sort (desc_by "created_at") (find q c))).

Definition staff_list : M response :=
  staff_users ← users_find
    (list_users [("user_type", VStr "staff"); ("is_active", VBool true)]);
  mret (jsonify [("success", VBool true);
                 ("total_staff", VInt (Z.of_nat (length staff_users)));
                 ("source", VStr "MongoDB users_collection")] staff_users 200).

Definition student_list : M response :=
  student_users ← users_find
    (list_users [("user_type", VStr "student"); ("is_active", VBool true)]);
  mret (jsonify [("success", VBool true);
                 ("total_students", VInt (Z.of_nat (length student_users)));
                 ("source", VStr "MongoDB users_collection")] student_users 200).

Definition count_type (t : string) (users : list doc) : Z :=
  Z.of_nat (length (List.filter
                      (fun u => bool_decide (get u "user_type" = VStr t)) users)).

Definition all_users : M response :=
  all_users_list ← users_find (list_users [("is_active", VBool true)]);
  mret (jsonify [("success", VBool true);
                 ("total_users", VInt (Z.of_nat (length all_users_list)));
                 ("total_staff", VInt (count_type "staff" all_users_list));
                 ("total_students", VInt (count_type "student" all_users_list));
                 ("source", VStr "MongoDB users_collection")]
                all_users_list 200).

(** [check_staff] and [check_student]. *)
Definition check_endpoint (k : roster) (label key : string) (id : string)
  : W response :=
  r ← check_id k id;
  let '(found, department, is_registered) := r in
  if negb found then
    mret (jsonify [("success", VBool false);
                   ("exists", VBool false);
                   ("message", VStr (label +:+ " ID '" +:+ id
                                     +:+ "' not found in database"))] [] 404)
  else
    mret (jsonify [("success", VBool true);
                   ("exists", VBool true);
                   (key, VStr id);
                   ("department", department);
                   ("registered", is_registered);
                   ("message",
                    VStr (if truthy is_registered then "Already registered"
                          else "Available for registration"))] [] 200).

Definition check_staff := check_endpoint Staff "Staff" "staff_id".
Definition check_student := check_endpoint Student "Student" "student_id".

(** Startup: the module-level calls. *)
Definition startup : W unit :=
  lift init_slots;;
  load_staff_database;;
  load_student_database;;
  mret tt.

(** The content a present file is read as. *)
Definition content (k : roster) (w : world) : list (string * gmap string doc) :=
  match file_of k w with
  | FileContent d => d
  | _ => []
  end.

Definition files_present (w : world) : Prop :=
  staff_database_json w <> FileMissing /\ student_database_json w <> FileMissing.

Definition type_name (k : roster) : string :=
  match k with Staff => "staff" | Student => "student" end.

(** The text fields of a registration request, stripped. *)
Definition stripped (v : value) : option string :=
  match v with
  | VStr s => Some (strip s)
  | _ => None
  end.

Definition request_id (data : doc) : option string :=
  match stripped (get_or data "staff_id" (VStr "")) with
  | Some s => if String.eqb s ""
              then stripped (get_or data "student_id" (VStr ""))
              else Some s
  | None => None
  end.

Definition other (k : roster) : roster :=
  match k with Staff => Student | Student => Staff end.

(** What [register] guarantees of every account it stores. *)
Definition emails (c : list doc) : list value := (fun u => get u "email") <$> c.

Definition account_ok (u : doc) : Prop :=
  (exists e, u !! "email" = Some (VStr e) /\ validate_email e = true) /\
  (exists h, u !! "password" = Some (VStr h)) /\
  (exists n, u !! "_id" = Some (VOid n)) /\
  (exists k id,
     id <> "" /\ u !! "user_type" = Some (VStr (type_name k)) /\
     u !! "staff_id" =
       Some (match k with Staff => VStr id | Student => VNull end) /\
     u !! "student_id" =
       Some (match k with Student => VStr id | Staff => VNull end)) /\
  u !! "is_active" = Some (VBool true).

Definition accounts_ok (c : list doc) : Prop :=
  Forall account_ok c /\ NoDup (emails c).

(** A toy hash for concrete runs. *)
Definition toy_hash (salt password : string) : string :=
  salt +:+ "$" +:+ password.
Definition toy_check (pwhash password : string) : bool :=
  match split_char (Ascii.ascii_of_nat 36) pwhash with
  | [_; p] => String.eqb p password
  | _ => false
  end.
Definition toy_oid (n : N) : string := str_int (Z.of_N n).

Definition campus : world :=
  mkWorld pool (FileContent (default_database Staff))
          (FileContent (default_database Student)) true.

Definition register_request (email password kind id : string) : doc :=
  list_to_map [("email", VStr email); ("password", VStr password);
               ("confirm_password", VStr password);
               ("user_type", VStr kind);
               ((kind +:+ "_id")%string, VStr id)].

(** The world after the first start on an empty store and no files, and
    after one registration there. *)
Definition first_day : world :=
  (startup (mkWorld (mkDb [] [] [] 0 false) FileMissing FileMissing true)).1.

Definition enrolment_request : doc :=
  register_request " ece101@campus.edu " "123456" "staff" "ECE101".

(** The response of a handler run; an uncaught exception is a 500. *)
Definition answer (x : world * (py_exn + response)) : response :=
  match x.2 with
  | inr r => r
  | inl _ => jsonify [] [] 500
  end.

Definition enrolled : world :=
  (register toy_hash toy_oid 5 "salt" enrolment_request first_day).1.
Definition enrolled_response : response :=
  answer (register toy_hash toy_oid 5 "salt" enrolment_request first_day).

(** The same world with files that cannot be written. *)
Definition locked (w : world) : world :=
  mkWorld (store w) (staff_database_json w) (student_database_json w) false.

Definition login_request (email password : string) : doc :=
  list_to_map [("email", VStr email); ("password", VStr password)].

Definition reset_request (email new_password : string) : doc :=
  list_to_map [("email", VStr email); ("new_password", VStr new_password)].

(** The rows a listing with filter [q] shows of the accounts [c]. *)
Definition listing_of (q : list (string * value)) (c rows : list doc) : Prop :=
  StronglySorted (desc_by "created_at") rows /\
  Forall (fun row => row !! "password" = None /\ row !! "_id" = None) rows /\
  rows ≡ₚ (fun u => delete "password" (delete "_id" u)) <$> find q c.

(** The lookup endpoint of a roster. *)
Definition check_of (k : roster) : string -> W response :=
  match k with Staff => check_staff | Student => check_student end.

(** * Properties *)

(** ** The sort order is a total preorder *)

Lemma string_compare_lt_trans (a b c : string) :
  String.compare a b = Lt -> String.compare b c = Lt ->
  String.compare a c = Lt.
Proof.
  intros H1 H2.
  apply OrderedTypeEx.String_as_OT.cmp_lt.
  apply (OrderedTypeEx.String_as_OT.lt_trans a b c);
    by apply OrderedTypeEx.String_as_OT.cmp_lt.
Qed.

Lemma string_compare_le_trans (a b c : string) :
  String.compare a b <> Gt -> String.compare b c <> Gt ->
  String.compare a c <> Gt.
Proof.
  intros H1 H2.
  destruct (String.compare a b) eqn:E1; [| |done].
  - apply String.compare_eq_iff in E1. by subst.
  - destruct (String.compare b c) eqn:E2; [| |done].
    + apply String.compare_eq_iff in E2. subst. by rewrite E1.
    + by rewrite (string_compare_lt_trans a b c).
Qed.

Lemma value_cmp_antisym (v w : value) :
  value_cmp v w = CompOpp (value_cmp w v).
Proof.
  destruct v, w; simpl; try done.
  - by destruct b, b0.
  - apply Z.compare_antisym.
  - apply String.compare_antisym.
  - apply Z.compare_antisym.
  - apply N.compare_antisym.
Qed.

#[global] Instance value_le_total : Total value_le.
Proof.
  intros v w. unfold value_le. rewrite (value_cmp_antisym w v).
  destruct (value_cmp v w); simpl; auto.
Qed.

#[global] Instance value_le_trans : Transitive value_le.
Proof.
  intros u v w. unfold value_le.
  destruct u, v, w; simpl; try done;
    try (rewrite ?Z.compare_gt_iff, ?N.compare_gt_iff; lia).
  - by destruct b, b0, b1.
  - apply string_compare_le_trans.
Qed.

#[global] Instance desc_by_total k : Total (desc_by k).
Proof. intros a b. unfold desc_by. destruct (total value_le (get a k) (get b k)); auto. Qed.

#[global] Instance desc_by_trans k : Transitive (desc_by k).
Proof. intros a b c. unfold desc_by. intros ??. by etrans. Qed.

#[global] Instance asc_by_total k : Total (asc_by k).
Proof. intros a b. unfold asc_by. apply (total value_le). Qed.

#[global] Instance asc_by_trans k : Transitive (asc_by k).
Proof. intros a b c. unfold asc_by. intros ??. by etrans. Qed.

(** ** Rendering, the request monad and one turn of a status loop *)

Lemma fmt_02d_two_digits (n : Z) : 0 <= n < 100 -> fmt_02d n = two_digits n.
Proof.
  intros Hn.
  assert (forallb (fun k => bool_decide (fmt_02d k = two_digits k)) (seqZ 0 100) = true) as Hall
    by (vm_compute; reflexivity).
  rewrite forallb_forall in Hall.
  specialize (Hall n). rewrite bool_decide_eq_true in Hall. apply Hall.
  apply list_elem_of_In, elem_of_seqZ. lia.
Qed.

Lemma run_bind {A B} (m : M A) (f : A -> M B) (s : db) :
  (m ≫= f) s = match m s with
               | (s', inr a) => f a s'
               | (s', inl e) => (s', inl e)
               end.
Proof. reflexivity. Qed.

Lemma run_ret {A} (a : A) (s : db) : (mret a : M A) s = (s, inr a).
Proof. reflexivity. Qed.

Lemma set_slots_same (s : db) : set_slots s (slots_collection s) = s.
Proof. by destruct s. Qed.

Lemma find_one_elem (q : list (string * value)) (c : list doc) (d : doc) :
  find_one q c = Some d -> d ∈ c /\ matches q d = true.
Proof.
  unfold find_one. intros H. apply find_some in H as [H1 H2].
  split; [by apply list_elem_of_In|done].
Qed.

Lemma time_until_aware (expiry now : Z) (s : db) :
  tz_aware s = true -> time_until expiry now s = (s, inr (expiry - now)).
Proof. unfold time_until. by intros ->. Qed.

Lemma time_until_naive (expiry now : Z) (s : db) :
  tz_aware s = false -> time_until expiry now s = (s, inl TypeError).
Proof. unfold time_until. by intros ->. Qed.

Lemma status_slot_run (now : Z) (x : doc) (s : db) :
  tz_aware s = true ->
  slot_ok x -> users_ok (users_collection s) ->
  exists e, slots_status_slot now x s = (release_step now x s, inr e) /\
            status_row_spec now x e.
Proof.
  intros Haware [[sid Hsid] Hrt] Hu.
  unfold slots_status_slot, release_step, lease_expired, status_row_spec, remaining_seconds, expiry_of.
  destruct Hrt as [Hrt|[t Hrt]]; rewrite Hrt; simpl.
  - eexists; split; [reflexivity|]. by simplify_map_eq.
  - rewrite run_bind, run_ret, run_bind, (time_until_aware _ _ _ Haware).
    destruct (0 <? int_total_seconds (t + timedelta_minutes 10 - now)) eqn:E; simpl.
    + match goal with |- context [if ?b then _ else _] => destruct b eqn:Eb end.
      * rewrite run_bind. unfold users_find_one at 1.
        match goal with |- context [find_one ?q ?c] => destruct (find_one q c) as [u|] eqn:Ef end.
        -- apply find_one_elem in Ef as [Hin _].
           unfold users_ok in Hu. rewrite Forall_forall in Hu.
           destruct (Hu u Hin) as [em Hem].
           unfold item. rewrite Hem. rewrite run_bind, !run_ret.
           eexists; split; [reflexivity|]. by simplify_map_eq.
        -- rewrite run_ret. eexists; split; [reflexivity|]. by simplify_map_eq.
      * rewrite run_ret. eexists; split; [reflexivity|]. by simplify_map_eq.
    + unfold item. rewrite Hsid. rewrite run_bind, run_ret.
      unfold get. rewrite Hsid. simpl.
      eexists; split; [reflexivity|]. by simplify_map_eq.
Qed.

Lemma signal_slot_run (now : Z) (x : doc) (s : db) :
  tz_aware s = true ->
  slot_ok x ->
  exists e, esp32_slot_of now x s = (release_step now x s, inr e) /\
            signal_row_spec now x e.
Proof.
  intros Haware [[sid Hsid] Hrt].
  unfold esp32_slot_of, release_step, lease_expired, signal_row_spec, remaining_seconds, expiry_of.
  unfold item. rewrite Hsid. rewrite run_bind, run_ret.
  destruct Hrt as [Hrt|[t Hrt]]; rewrite Hrt; simpl.
  - eexists; split; [reflexivity|]. unfold dict_update; simpl. by simplify_map_eq.
  - rewrite run_bind, run_ret, run_bind, (time_until_aware _ _ _ Haware).
    destruct (0 <? int_total_seconds (t + timedelta_minutes 10 - now)) eqn:E; simpl.
    + eexists; split; [reflexivity|]. unfold dict_update; simpl. by simplify_map_eq.
    + rewrite run_bind, run_ret.
      unfold get. rewrite Hsid. simpl.
      eexists; split; [reflexivity|]. unfold dict_update; simpl. by simplify_map_eq.
Qed.

(** ** The auto-release and the two status loops *)

Ltac decide_keys :=
  first [ by repeat constructor
        | rewrite !not_elem_of_cons; repeat split; first [done | apply not_elem_of_nil] ].

Lemma release_lookup (d : doc) (k : string) :
  apply_set release_set d !! k =
    if bool_decide (k = "available") then Some (VBool true)
    else if bool_decide (k ∈ ["reserved_by"; "staff_email"; "department"; "reservation_time"])
         then Some VNull else d !! k.
Proof.
  unfold apply_set, release_set; simpl.
  destruct (decide (k = "available")) as [->|H1].
  { rewrite bool_decide_eq_true_2 by done. by simplify_map_eq. }
  rewrite (bool_decide_eq_false_2 _ H1).
  destruct (decide (k ∈ ["reserved_by"; "staff_email"; "department";
                         "reservation_time"])) as [Hk|Hk].
  - rewrite (bool_decide_eq_true_2 _ Hk).
    repeat (apply elem_of_cons in Hk as [->|Hk]; [by simplify_map_eq|]).
    by apply elem_of_nil in Hk.
  - rewrite (bool_decide_eq_false_2 _ Hk).
    rewrite !lookup_insert_ne; [done|..]. all: intros <-; first [by apply H1 | apply Hk; decide_keys].
Qed.

Lemma release_get (d : doc) (k : string) :
  k ∉ ["available"; "reserved_by"; "staff_email"; "department"; "reservation_time"] ->
  get (apply_set release_set d) k = get d k.
Proof.
  intros Hk. unfold get. rewrite release_lookup.
  apply not_elem_of_cons in Hk as [H1 Hk].
  by rewrite (bool_decide_eq_false_2 _ H1), (bool_decide_eq_false_2 _ Hk).
Qed.

Lemma release_idemp (d : doc) :
  apply_set release_set (apply_set release_set d) = apply_set release_set d.
Proof.
  apply map_eq. intros k. rewrite !release_lookup.
  destruct (bool_decide (k = "available")); [done|].
  by destruct (bool_decide (k ∈ ["reserved_by"; "staff_email"; "department"; "reservation_time"])).
Qed.

Lemma release_reservation_time (d : doc) :
  get (apply_set release_set d) "reservation_time" = VNull.
Proof. unfold get. by rewrite release_lookup. Qed.

Lemma matches_slot_id (v : value) (d : doc) :
  matches [("slot_id", v)] d = bool_decide (get d "slot_id" = v).
Proof. unfold matches, cond_holds; simpl. by rewrite andb_true_r. Qed.

Lemma update_one_by_id (v : value) (u : list (string * value)) (c : list doc) :
  NoDup ((fun d => get d "slot_id") <$> c) ->
  (update_one [("slot_id", v)] u c).1 =
    (fun d => if bool_decide (get d "slot_id" = v) then apply_set u d else d) <$> c.
Proof.
  induction c as [|d c IH]; [done|].
  rewrite !fmap_cons, NoDup_cons. intros [Hd Hc].
  cbn [update_one]. rewrite matches_slot_id.
  destruct (bool_decide (get d "slot_id" = v)) eqn:E; simpl; f_equal.
  - apply bool_decide_eq_true in E. symmetry. etrans; [|apply list_fmap_id]. apply list_fmap_ext.
    intros i x Hx. simpl. rewrite bool_decide_eq_false_2; [done|].
    intros Hv. apply Hd. rewrite E, <- Hv.
    apply list_elem_of_fmap. exists x. split; [done|]. by eapply list_elem_of_lookup_2.
  - by apply IH.
Qed.

Lemma lease_expired_release (now : Z) (d : doc) :
  lease_expired now (apply_set release_set d) = false.
Proof.
  unfold lease_expired, remaining_seconds. by rewrite release_reservation_time.
Qed.

Lemma release_if_expired_id (now : Z) (d : doc) :
  get (release_if_expired now d) "slot_id" = get d "slot_id".
Proof.
  unfold release_if_expired. destruct (lease_expired now d); [|done].
  apply release_get. decide_keys.
Qed.

Lemma release_if_expired_ids (now : Z) (c : list doc) :
  (fun d => get d "slot_id") <$> (release_if_expired now <$> c) =
  (fun d => get d "slot_id") <$> c.
Proof.
  rewrite <- list_fmap_compose. apply list_fmap_ext.
  intros i x _. simpl. apply release_if_expired_id.
Qed.

Lemma slot_ok_release_if_expired (now : Z) (d : doc) :
  slot_ok d -> slot_ok (release_if_expired now d).
Proof.
  intros [[sid Hsid] Hrt]. unfold release_if_expired.
  destruct (lease_expired now d); [|by split; eauto].
  split.
  - exists sid. rewrite release_lookup. simpl. done.
  - left. apply release_reservation_time.
Qed.

Lemma slots_ok_release (now : Z) (c : list doc) :
  slots_ok c -> slots_ok (release_if_expired now <$> c).
Proof.
  intros [Hall Hnd]. split.
  - rewrite Forall_fmap. eapply Forall_impl; [done|].
    intros d. apply slot_ok_release_if_expired.
  - by rewrite release_if_expired_ids.
Qed.

(** A loop [for x in l] whose every turn ends normally. *)
Lemma mapM_run {A B} (f : A -> M B) (T : A -> db -> db) (R : A -> B -> Prop)
    (I : db -> Prop) (l : list A) (s : db) :
  I s ->
  (forall x σ, x ∈ l -> I σ ->
     I (T x σ) /\ exists y, f x σ = (T x σ, inr y) /\ R x y) ->
  exists ys, mapM f l s = (foldl (fun σ x => T x σ) s l, inr ys) /\
             Forall2 R l ys /\ I (foldl (fun σ x => T x σ) s l).
Proof.
  revert s. induction l as [|x l IH]; intros s Hs Hstep.
  - exists []. by repeat split.
  - destruct (Hstep x s) as [HI [y [Hy HR]]]; [by left|done|].
    destruct (IH (T x s)) as [ys [Hys [HF HI']]]; [done| |].
    { intros x' σ Hx'. apply Hstep. by right. }
    exists (y :: ys). split; [|split; [by constructor|done]].
    cbn [mapM foldl]. rewrite run_bind, Hy, run_bind.
    change ((fix go (l0 : list A) : M (list B) :=
               match l0 with
               | [] => mret []
               | x0 :: l1 => f x0 ≫= λ y0, go l1 ≫= λ k, mret (y0 :: k)
               end) l) with (mapM f l).
    by rewrite Hys.
Qed.

(** A loop whose turns keep a property of the store, however they end. *)
Lemma mapM_preserves {A B} (f : A -> M B) (I : db -> Prop) (l : list A) (s : db) :
  I s -> (forall x σ, I σ -> I (f x σ).1) -> I (mapM f l s).1.
Proof.
  revert s. induction l as [|x l IH]; intros s Hs Hstep; [done|].
  cbn [mapM]. rewrite run_bind.
  pose proof (Hstep x s Hs) as H1. destruct (f x s) as [s1 [e|y]]; [done|].
  rewrite run_bind.
  change ((fix go (l0 : list A) : M (list B) :=
             match l0 with
             | [] => mret []
             | x0 :: l1 => f x0 ≫= λ y0, go l1 ≫= λ k, mret (y0 :: k)
             end) l) with (mapM f l).
  specialize (IH s1 H1 Hstep).
  by destruct (mapM f l s1) as [s2 [e|ys]].
Qed.

Lemma release_where_id (now : Z) (L : list doc) (d : doc) :
  get (release_where now L d) "slot_id" = get d "slot_id".
Proof.
  unfold release_where. destruct (released_by now L d); [|done].
  apply release_get. decide_keys.
Qed.

Lemma release_step_slots (now : Z) (x : doc) (s : db) :
  NoDup ((fun d => get d "slot_id") <$> slots_collection s) ->
  release_step now x s =
    set_slots s (release_where now [x] <$> slots_collection s).
Proof.
  intros Hnd. unfold release_step.
  destruct (lease_expired now x) eqn:E.
  - f_equal. rewrite update_one_by_id by done.
    apply list_fmap_ext. intros i d _. unfold release_where, released_by.
    simpl. by rewrite E, orb_false_r.
  - rewrite <- (set_slots_same s) at 1. f_equal.
    symmetry. etrans; [|apply list_fmap_id]. apply list_fmap_ext.
    intros i d _. unfold release_where, released_by. simpl. by rewrite E.
Qed.

Lemma fold_release (now : Z) (L : list doc) (s : db) :
  NoDup ((fun d => get d "slot_id") <$> slots_collection s) ->
  foldl (fun σ x => release_step now x σ) s L =
    set_slots s (release_where now L <$> slots_collection s).
Proof.
  revert s. induction L as [|x L IH]; intros s Hnd.
  - simpl. rewrite <- (set_slots_same s) at 1. f_equal.
    symmetry. etrans; [|apply list_fmap_id]. by apply list_fmap_ext.
  - cbn [foldl]. rewrite (release_step_slots now x s Hnd).
    rewrite IH.
    + unfold set_slots; simpl. f_equal.
      rewrite <- list_fmap_compose. apply list_fmap_ext.
      intros i d _. simpl.
      unfold release_where at 1. unfold released_by. 
      rewrite release_where_id. fold (released_by now L d).
      unfold release_where, released_by. simpl.
      destruct (lease_expired now x && bool_decide (get d "slot_id" = get x "slot_id")); simpl.
      * fold (released_by now L d). destruct (released_by now L d); [|done].
        apply release_idemp.
      * done.
    + simpl. rewrite <- list_fmap_compose.
      erewrite list_fmap_ext; [exact Hnd|].
      intros i d _. simpl. apply release_where_id.
Qed.

Lemma find_all (c : list doc) : find [] c = c.
Proof.
  unfold find. induction c as [|d c IH]; [done|]. simpl. by rewrite IH.
Qed.

Lemma elem_of_snapshot (x : doc) (c : list doc) :
  x ∈ snapshot c <-> exists d, d ∈ c /\ x = delete "_id" d.
Proof.
  unfold snapshot, project_out. rewrite list_elem_of_fmap, find_all.
  split; intros [d [H1 H2]]; exists d.
  - split; [|done]. by rewrite merge_sort_Permutation in H2.
  - split; [done|]. by rewrite merge_sort_Permutation.
Qed.

Lemma get_delete_id (d : doc) (k : string) :
  k <> "_id" -> get (delete "_id" d) k = get d k.
Proof. intros Hk. unfold get. by rewrite lookup_delete_ne. Qed.

Lemma lease_expired_delete_id (now : Z) (d : doc) :
  lease_expired now (delete "_id" d) = lease_expired now d.
Proof. unfold lease_expired, remaining_seconds. by rewrite get_delete_id. Qed.

Lemma slot_ok_delete_id (d : doc) : slot_ok d -> slot_ok (delete "_id" d).
Proof.
  intros [[sid Hsid] Hrt]. split.
  - exists sid. by rewrite lookup_delete_ne.
  - by rewrite get_delete_id.
Qed.

Lemma same_id_same_slot (c : list doc) (d d' : doc) :
  NoDup ((fun d => get d "slot_id") <$> c) ->
  d ∈ c -> d' ∈ c -> get d "slot_id" = get d' "slot_id" -> d = d'.
Proof.
  intros Hnd Hd Hd' Hid.
  apply list_elem_of_lookup in Hd as [i Hi].
  apply list_elem_of_lookup in Hd' as [j Hj].
  assert (i = j) as ->; [|congruence].
  eapply NoDup_lookup; [exact Hnd| |].
  - rewrite list_lookup_fmap, Hi. reflexivity.
  - rewrite list_lookup_fmap, Hj. simpl. by rewrite Hid.
Qed.

Lemma released_by_snapshot (now : Z) (c : list doc) (d : doc) :
  NoDup ((fun d => get d "slot_id") <$> c) -> d ∈ c ->
  released_by now (snapshot c) d = lease_expired now d.
Proof.
  intros Hnd Hd. unfold released_by.
  destruct (lease_expired now d) eqn:E.
  - apply existsb_exists. exists (delete "_id" d). split.
    + apply list_elem_of_In, elem_of_snapshot. eauto.
    + rewrite lease_expired_delete_id, E, get_delete_id by done.
      by rewrite bool_decide_eq_true_2.
  - apply not_true_is_false. intros H.
    apply existsb_exists in H as [x [Hx Hb]].
    apply list_elem_of_In, elem_of_snapshot in Hx as [d' [Hd' ->]].
    apply andb_true_iff in Hb as [He Hid].
    apply bool_decide_eq_true in Hid.
    rewrite get_delete_id in Hid by done.
    rewrite lease_expired_delete_id in He.
    assert (d = d') as <- by (by eapply same_id_same_slot).
    congruence.
Qed.

Lemma release_snapshot (now : Z) (c : list doc) :
  NoDup ((fun d => get d "slot_id") <$> c) ->
  release_where now (snapshot c) <$> c = release_if_expired now <$> c.
Proof.
  intros Hnd. apply list_fmap_ext. intros i d Hi.
  unfold release_where, release_if_expired.
  rewrite released_by_snapshot; [done|done|].
  by eapply list_elem_of_lookup_2.
Qed.

Lemma release_step_users (now : Z) (x : doc) (s : db) :
  users_collection (release_step now x s) = users_collection s.
Proof. unfold release_step. by destruct (lease_expired now x). Qed.

Lemma release_step_aware (now : Z) (x : doc) (s : db) :
  tz_aware (release_step now x s) = tz_aware s.
Proof. unfold release_step. by destruct (lease_expired now x). Qed.

Lemma slots_status_run (now : Z) (s : db) :
  tz_aware s = true -> db_ok s ->
  exists r,
    slots_status now s =
      (set_slots s (release_if_expired now <$> slots_collection s), inr r) /\
    status_code r = 200 /\
    Forall2 (status_row_spec now) (snapshot (slots_collection s)) (rows r).
Proof.
  intros Haware [[Hok Hnd] Hu].
  destruct (mapM_run (slots_status_slot now) (release_step now)
              (status_row_spec now)
              (fun σ => users_ok (users_collection σ) /\ tz_aware σ = true)
              (snapshot (slots_collection s)) s (conj Hu Haware))
    as [ys [Hrun [HF _]]].
  { intros x σ Hx [Hσ Hσa].
    split; [by rewrite release_step_users, release_step_aware|].
    apply status_slot_run; [done| |done].
    apply elem_of_snapshot in Hx as [d [Hd ->]].
    apply slot_ok_delete_id. rewrite Forall_forall in Hok. by apply Hok. }
  eexists. split.
  { unfold slots_status. rewrite run_bind. unfold slots_find at 1.
    rewrite run_bind, Hrun, run_ret.
    rewrite fold_release by done. rewrite release_snapshot by done.
    reflexivity. }
  split; [done|exact HF].
Qed.

Lemma esp32_reserve_status_run (now : Z) (host : string) (s : db) :
  tz_aware s = true -> slots_ok (slots_collection s) ->
  exists r,
    esp32_reserve_status now host s =
      (set_slots s (release_if_expired now <$> slots_collection s), inr r) /\
    status_code r = 200 /\
    Forall2 (signal_row_spec now) (snapshot (slots_collection s)) (rows r).
Proof.
  intros Haware [Hok Hnd].
  destruct (mapM_run (esp32_slot_of now) (release_step now)
              (signal_row_spec now) (fun σ => tz_aware σ = true)
              (snapshot (slots_collection s)) s Haware) as [ys [Hrun [HF _]]].
  { intros x σ Hx Hσa. split; [by rewrite release_step_aware|].
    apply signal_slot_run; [done|].
    apply elem_of_snapshot in Hx as [d [Hd ->]].
    apply slot_ok_delete_id. rewrite Forall_forall in Hok. by apply Hok. }
  eexists. split.
  { unfold esp32_reserve_status. rewrite run_bind. unfold slots_find at 1.
    rewrite run_bind, Hrun, run_ret.
    rewrite fold_release by done. rewrite release_snapshot by done.
    reflexivity. }
  split; [done|exact HF].
Qed.

(** ** Lease expiry as the status views decide it *)

Lemma int_total_seconds_pos (td : Z) :
  (0 <? int_total_seconds td) = true <-> 1000000 <= td.
Proof.
  unfold int_total_seconds. rewrite Z.ltb_lt.
  pose proof (Z.quot_rem' td 1000000) as Hqr.
  destruct (Z_lt_le_dec td 0) as [Hneg|Hpos].
  - pose proof (Z.rem_bound_pos_neg td 1000000 ltac:(lia) ltac:(lia)). lia.
  - pose proof (Z.rem_bound_pos td 1000000 Hpos ltac:(lia)). lia.
Qed.

Lemma rows_of_slot (R : doc -> doc -> Prop) (c ys : list doc) (d : doc) :
  (forall x e, R x e -> e !! "slot_id" = x !! "slot_id") ->
  slots_ok c -> d ∈ c -> Forall2 R (snapshot c) ys ->
  (exists e, e ∈ ys /\ e !! "slot_id" = d !! "slot_id") /\
  (forall e, e ∈ ys -> e !! "slot_id" = d !! "slot_id" -> R (delete "_id" d) e).
Proof.
  intros HR [Hok Hnd] Hd HF. split.
  - assert (delete "_id" d ∈ snapshot c) as Hx by (apply elem_of_snapshot; eauto).
    apply list_elem_of_lookup in Hx as [i Hi].
    destruct (Forall2_lookup_l _ _ _ _ _ HF Hi) as [e [He HRe]].
    exists e. split; [by eapply list_elem_of_lookup_2|].
    rewrite (HR _ _ HRe). by rewrite lookup_delete_ne.
  - intros e He Hid.
    apply list_elem_of_lookup in He as [i Hi].
    destruct (Forall2_lookup_r _ _ _ _ _ HF Hi) as [x [Hx HRe]].
    apply list_elem_of_lookup_2 in Hx.
    apply elem_of_snapshot in Hx as [d' [Hd' ->]].
    assert (d' = d) as ->; [|done].
    eapply same_id_same_slot; [exact Hnd|done|done|].
    pose proof (HR _ _ HRe) as Hid'. rewrite lookup_delete_ne in Hid' by done.
    unfold get. congruence.
Qed.

Lemma status_row_id (now : Z) (x e : doc) :
  status_row_spec now x e -> e !! "slot_id" = x !! "slot_id".
Proof. by intros [? _]. Qed.

Lemma signal_row_id (now : Z) (x e : doc) :
  signal_row_spec now x e -> e !! "slot_id" = x !! "slot_id".
Proof. by intros [? _]. Qed.

Lemma remaining_seconds_delete_id (now : Z) (d : doc) :
  remaining_seconds now (delete "_id" d) = remaining_seconds now d.
Proof. unfold remaining_seconds. by rewrite get_delete_id. Qed.

Lemma db_okb_sound (s : db) : db_okb s = true -> db_ok s.
Proof.
  unfold db_okb. rewrite !andb_true_iff, !forallb_forall.
  intros [[Hs Hnd] Hu]. apply bool_decide_eq_true in Hnd.
  split; [split; [|done]|].
  - apply Forall_forall. intros d Hd. apply list_elem_of_In in Hd.
    specialize (Hs d Hd). unfold slot_okb in Hs. unfold slot_ok.
    destruct (d !! "slot_id") as [[| | |sid| |]|]; try done.
    split; [by eexists|].
    destruct (get d "reservation_time"); try done; eauto.
  - apply Forall_forall. intros u Hu'. apply list_elem_of_In in Hu'.
    specialize (Hu u Hu'). by apply bool_decide_eq_true in Hu.
Qed.

Ltac by_computation := refine (bool_decide_unpack _ _); vm_compute; exact I.

(** *** The views over naive dates *)

(** A loop in which some turn raises [e] and no turn before it changes the
    store or raises anything else ends in [e] with the store as it was. *)
Lemma mapM_raises {A B} (f : A -> M B) (e : exn) (l : list A) (s : db) :
  (forall x, x ∈ l -> f x s = (s, inl e) \/ exists y, f x s = (s, inr y)) ->
  (exists x, x ∈ l /\ f x s = (s, inl e)) ->
  mapM f l s = (s, inl e).
Proof.
  induction l as [|x l IH]; intros Hall [x0 [Hin Hx0]].
  { by apply elem_of_nil in Hin. }
  cbn [mapM]. rewrite run_bind.
  destruct (Hall x) as [Hx|[y Hy]]; [by left|by rewrite Hx|].
  rewrite Hy, run_bind.
  change ((fix go (l0 : list A) : M (list B) :=
             match l0 with
             | [] => mret []
             | x1 :: l1 => f x1 ≫= λ y0, go l1 ≫= λ k, mret (y0 :: k)
             end) l) with (mapM f l).
  rewrite IH; [done| |].
  - intros x' Hx'. apply Hall. by right.
  - apply elem_of_cons in Hin as [->|Hin]; [congruence|]. by exists x0.
Qed.

Lemma status_slot_naive (now : Z) (x : doc) (s : db) :
  tz_aware s = false ->
  slots_status_slot now x s =
    if truthy (get x "reservation_time")
    then (s, inl TypeError)
    else (s, inr (<["status" := VStr "AVAILABLE"]> x)).
Proof.
  intros Hnaive. unfold slots_status_slot.
  destruct (truthy (get x "reservation_time")); [|done].
  rewrite run_bind. unfold expiry_of.
  destruct (get x "reservation_time"); try done.
  by rewrite run_ret, run_bind, (time_until_naive _ _ _ Hnaive).
Qed.

Lemma signal_slot_naive (now : Z) (x : doc) (s : db) :
  tz_aware s = false -> is_Some (x !! "slot_id") ->
  esp32_slot_of now x s = (s, inl TypeError) \/
  exists e, esp32_slot_of now x s = (s, inr e).
Proof.
  intros Hnaive [v Hv]. unfold esp32_slot_of.
  unfold item. rewrite Hv, run_bind, run_ret.
  destruct (truthy (get x "reservation_time")); [|by right; eexists].
  left. rewrite run_bind. unfold expiry_of.
  destruct (get x "reservation_time"); try done.
  by rewrite run_ret, run_bind, (time_until_naive _ _ _ Hnaive).
Qed.

Lemma signal_slot_naive_lease (now : Z) (x : doc) (s : db) :
  tz_aware s = false -> is_Some (x !! "slot_id") ->
  truthy (get x "reservation_time") = true ->
  esp32_slot_of now x s = (s, inl TypeError).
Proof.
  intros Hnaive [v Hv] Hrt. unfold esp32_slot_of.
  unfold item. rewrite Hv, run_bind, run_ret, Hrt.
  rewrite run_bind. unfold expiry_of.
  destruct (get x "reservation_time"); try done.
  by rewrite run_ret, run_bind, (time_until_naive _ _ _ Hnaive).
Qed.

Lemma slots_status_naive (now : Z) (s : db) (d : doc) :
  tz_aware s = false -> d ∈ slots_collection s ->
  truthy (get d "reservation_time") = true ->
  slots_status now s = (s, inl TypeError).
Proof.
  intros Hnaive Hd Hrt. unfold slots_status. rewrite run_bind.
  unfold slots_find at 1. rewrite run_bind.
  rewrite (mapM_raises (slots_status_slot now) TypeError); [done| |].
  - intros x _. rewrite (status_slot_naive now x s Hnaive).
    destruct (truthy (get x "reservation_time")); [by left|right; by eexists].
  - exists (delete "_id" d). split; [apply elem_of_snapshot; by exists d|].
    rewrite (status_slot_naive now _ s Hnaive).
    by rewrite get_delete_id, Hrt.
Qed.

Lemma esp32_reserve_status_naive (now : Z) (host : string) (s : db) (d : doc) :
  tz_aware s = false -> Forall slot_ok (slots_collection s) ->
  d ∈ slots_collection s -> truthy (get d "reservation_time") = true ->
  esp32_reserve_status now host s = (s, inl TypeError).
Proof.
  intros Hnaive Hok Hd Hrt. unfold esp32_reserve_status. rewrite run_bind.
  unfold slots_find at 1. rewrite run_bind.
  assert (forall x, x ∈ snapshot (slots_collection s) ->
                    is_Some (x !! "slot_id")) as Hids.
  { intros x Hx. apply elem_of_snapshot in Hx as [d0 [Hd0 ->]].
    rewrite Forall_forall in Hok. destruct (Hok d0 Hd0) as [[sid Hsid] _].
    exists (VStr sid). by rewrite lookup_delete_ne. }
  rewrite (mapM_raises (esp32_slot_of now) TypeError); [done| |].
  - intros x Hx. by apply signal_slot_naive, Hids.
  - exists (delete "_id" d).
    assert (delete "_id" d ∈ snapshot (slots_collection s)) as Hx
      by (apply elem_of_snapshot; by exists d).
    split; [done|]. apply signal_slot_naive_lease; [done|by apply Hids|].
    by rewrite get_delete_id.
Qed.

Lemma signal_slot_naive_same (now : Z) (x : doc) (s : db) :
  tz_aware s = false -> (esp32_slot_of now x s).1 = s.
Proof.
  intros Hnaive. unfold esp32_slot_of. unfold item.
  destruct (x !! "slot_id") as [v|]; [|done]. rewrite run_bind, run_ret.
  destruct (truthy (get x "reservation_time")); [|done].
  rewrite run_bind. unfold expiry_of.
  destruct (get x "reservation_time"); try done.
  by rewrite run_ret, run_bind, (time_until_naive _ _ _ Hnaive).
Qed.

(** Over naive dates a status read writes nothing, however it ends. *)
Lemma slots_status_naive_same (now : Z) (s : db) :
  tz_aware s = false -> (slots_status now s).1 = s.
Proof.
  intros Hnaive. unfold slots_status. rewrite run_bind.
  unfold slots_find at 1. rewrite run_bind.
  pose proof (mapM_preserves (slots_status_slot now) (fun σ => σ = s)
                (snapshot (slots_collection s)) s eq_refl) as H.
  destruct (mapM (slots_status_slot now) (snapshot (slots_collection s)) s)
    as [s1 [e|ys]]; apply H; intros x σ ->;
    rewrite (status_slot_naive now x s Hnaive); by destruct (truthy _).
Qed.

Lemma esp32_reserve_status_naive_same (now : Z) (host : string) (s : db) :
  tz_aware s = false -> (esp32_reserve_status now host s).1 = s.
Proof.
  intros Hnaive. unfold esp32_reserve_status. rewrite run_bind.
  unfold slots_find at 1. rewrite run_bind.
  pose proof (mapM_preserves (esp32_slot_of now) (fun σ => σ = s)
                (snapshot (slots_collection s)) s eq_refl) as H.
  destruct (mapM (esp32_slot_of now) (snapshot (slots_collection s)) s)
    as [s1 [e|ys]]; apply H; intros x σ ->;
    by apply signal_slot_naive_same.
Qed.

(** C1.  Over the connection the code builds, where stored dates come back
    naive, the expiry evaluation of the read paths does not run: for a
    store that holds a slot with a lease start [T], both status views end
    in a [TypeError] at [expiry - now], whatever [now] is, and leave the
    store as it was; no entry, RESERVED or AVAILABLE, is reported. *)
Theorem lease_evaluation_raises_on_naive_dates
    (T now : Z) (host : string) (s : db) (d : doc) :
  tz_aware s = false -> slots_ok (slots_collection s) ->
  d ∈ slots_collection s -> get d "reservation_time" = VTime T ->
  slots_status now s = (s, inl TypeError) /\
  esp32_reserve_status now host s = (s, inl TypeError).
Proof.
  intros Hnaive [Hok _] Hd HT. split.
  - apply (slots_status_naive now s d); [done|done|by rewrite HT].
  - apply (esp32_reserve_status_naive now host s d); [done|done|done|].
    by rewrite HT.
Qed.

Lemma lease_evaluation_raises_on_naive_dates_witness :
  slots_status 1000000 pool_reserved = (pool_reserved, inl TypeError) /\
  esp32_reserve_status 1000000 "esp32" pool_reserved
    = (pool_reserved, inl TypeError).
Proof.
  apply (lease_evaluation_raises_on_naive_dates 0 1000000 "esp32"
           pool_reserved (slot_S1 pool_reserved)).
  - reflexivity.
  - apply db_okb_sound. vm_compute. reflexivity.
  - by_computation.
  - vm_compute. reflexivity.
Defined.

(** Over a [tz_aware] connection the views do evaluate the lease, on the
    whole seconds left of the ten minutes: for a stored slot whose lease
    start is [T] the entry is RESERVED at every [now] up to
    [T + 10min - 1s], and AVAILABLE at every later [now]. *)
Theorem lease_active_while_a_second_remains
    (T now : Z) (host : string) (s : db) (d : doc) :
  tz_aware s = true ->
  db_ok s -> d ∈ slots_collection s ->
  get d "reservation_time" = VTime T ->
  exists s' r r',
    slots_status now s = (s', inr r) /\
    esp32_reserve_status now host s = (s', inr r') /\
    (exists e, row_of r d e) /\ (exists e, row_of r' d e) /\
    (now <= T + timedelta_minutes 10 - 1000000 ->
       forall e, row_of r d e \/ row_of r' d e ->
                 e !! "status" = Some (VStr "RESERVED")) /\
    (T + timedelta_minutes 10 - 1000000 < now ->
       forall e, row_of r d e \/ row_of r' d e ->
                 e !! "status" = Some (VStr "AVAILABLE")).
Proof.
  intros Haware Hok Hd HT.
  destruct (slots_status_run now s Haware Hok) as [r [Hr [_ HF]]].
  destruct (esp32_reserve_status_run now host s Haware (proj1 Hok))
    as [r' [Hr' [_ HF']]].
  destruct (rows_of_slot _ _ _ d (status_row_id now) (proj1 Hok) Hd HF) as [Hex Hall].
  destruct (rows_of_slot _ _ _ d (signal_row_id now) (proj1 Hok) Hd HF') as [Hex' Hall'].
  eexists _, r, r'. do 4 (split; [done|]).
  assert (remaining_seconds now (delete "_id" d) =
          Some (int_total_seconds (T + timedelta_minutes 10 - now))) as Hrem.
  { rewrite remaining_seconds_delete_id. unfold remaining_seconds. by rewrite HT. }
  split; intros Hnow e [[He Hid]|[He Hid]].
  - destruct (Hall e He Hid) as [_ H]. rewrite Hrem in H.
    rewrite (proj2 (int_total_seconds_pos _)) in H by lia. tauto.
  - destruct (Hall' e He Hid) as (_ & _ & _ & _ & H). rewrite Hrem in H.
    rewrite (proj2 (int_total_seconds_pos _)) in H by lia. tauto.
  - destruct (Hall e He Hid) as [_ H]. rewrite Hrem in H.
    destruct (0 <? _) eqn:E in H; [|tauto].
    apply int_total_seconds_pos in E. lia.
  - destruct (Hall' e He Hid) as (_ & _ & _ & _ & H). rewrite Hrem in H.
    destruct (0 <? _) eqn:E in H; [|tauto].
    apply int_total_seconds_pos in E. lia.
Qed.

Lemma lease_active_while_a_second_remains_witness :
  exists s' r r',
    slots_status 599000000 (aware pool_reserved) = (s', inr r) /\
    esp32_reserve_status 599000000 "esp32" (aware pool_reserved)
      = (s', inr r') /\
    (exists e, row_of r (slot_S1 pool_reserved) e) /\
    (exists e, row_of r' (slot_S1 pool_reserved) e) /\
    (599000000 <= 0 + timedelta_minutes 10 - 1000000 ->
       forall e, row_of r (slot_S1 pool_reserved) e \/
                 row_of r' (slot_S1 pool_reserved) e ->
                 e !! "status" = Some (VStr "RESERVED")) /\
    (0 + timedelta_minutes 10 - 1000000 < 599000000 ->
       forall e, row_of r (slot_S1 pool_reserved) e \/
                 row_of r' (slot_S1 pool_reserved) e ->
                 e !! "status" = Some (VStr "AVAILABLE")).
Proof.
  apply (lease_active_while_a_second_remains 0 599000000 "esp32"
           (aware pool_reserved) (slot_S1 pool_reserved)).
  - reflexivity.
  - apply db_okb_sound. vm_compute. reflexivity.
  - by_computation.
  - vm_compute. reflexivity.
Defined.

(** ** Allocation, the booking ledger and the slot invariant *)

Lemma matches_free_slot (d : doc) :
  matches free_slot_query d = true <->
  get d "available" = VBool true /\ get d "reserved_by" = VNull.
Proof.
  unfold matches, free_slot_query, cond_holds; simpl.
  rewrite andb_true_r, andb_true_iff, !bool_decide_eq_true. done.
Qed.

Lemma find_one_and_update_none (q u : list (string * value)) (c : list doc) :
  (forall d, d ∈ c -> matches q d = false) ->
  find_one_and_update q u c = (c, None).
Proof.
  induction c as [|d c IH]; intros H; [done|].
  cbn [find_one_and_update]. rewrite (H d) by left.
  rewrite IH; [done|]. intros d' Hd'. apply H. by right.
Qed.

Lemma find_one_and_update_some (q u : list (string * value)) (c c' : list doc)
    (d' : doc) :
  find_one_and_update q u c = (c', Some d') ->
  exists i d, c !! i = Some d /\ matches q d = true /\
              d' = apply_set u d /\ c' = <[i := d']> c.
Proof.
  revert c'. induction c as [|d c IH]; intros c' H; [done|].
  cbn [find_one_and_update] in H.
  destruct (matches q d) eqn:E.
  - inversion H; subst. by exists 0%nat, d.
  - destruct (find_one_and_update q u c) as [c1 o] eqn:E1. simpl in H.
    inversion H; subst.
    destruct (IH c1 eq_refl) as (i & d0 & H1 & H2 & H3 & H4).
    exists (S i), d0. simpl. by rewrite H4.
Qed.

Lemma find_one_and_update_Forall (P : doc -> Prop) (q u : list (string * value))
    (c : list doc) :
  Forall P c -> (forall d, P d -> matches q d = true -> P (apply_set u d)) ->
  Forall P (find_one_and_update q u c).1.
Proof.
  intros Hc Hu. induction Hc as [|d c Hd Hc IH]; [done|].
  cbn [find_one_and_update]. destruct (matches q d) eqn:E; simpl.
  - constructor; [by apply Hu|done].
  - by constructor.
Qed.

Lemma update_one_Forall (P : doc -> Prop) (q u : list (string * value))
    (c : list doc) :
  Forall P c -> (forall d, P d -> P (apply_set u d)) ->
  Forall P (update_one q u c).1.
Proof.
  intros Hc Hu. induction Hc as [|d c Hd Hc IH]; [done|].
  cbn [update_one]. destruct (matches q d) eqn:E; simpl.
  - constructor; [by apply Hu|done].
  - by constructor.
Qed.

(** C2.  When [reserve_slot] is called by a verified staff identity (the
    user lookup finds an account, which has an email) and no slot has
    [available = true] and [reserved_by] null, the answer is the 404
    "No slots available"; the database is returned as it was: no slot is
    modified and no booking is appended. *)
Theorem reserve_slot_no_slot_available
    (now : Z) (data : doc) (s : db) (user : doc) (email : value) :
  find_one (staff_query (get data "staff_id")) (users_collection s) = Some user ->
  user !! "email" = Some email ->
  (forall d, d ∈ slots_collection s ->
             ~ (get d "available" = VBool true /\ get d "reserved_by" = VNull)) ->
  reserve_slot now data s =
    (s, inr (jsonify [("success", VBool false);
                      ("error", VStr "❌ No slots available")] [] 404)).
Proof.
  intros Hu He Hnone. unfold reserve_slot.
  rewrite run_bind. unfold users_find_one at 1.
  fold (staff_query (get data "staff_id")). rewrite Hu.
  unfold item. rewrite He. rewrite run_bind, run_ret, run_bind.
  unfold slots_find_one_and_update at 1. fold free_slot_query.
  rewrite find_one_and_update_none.
  - simpl. by rewrite set_slots_same, run_ret.
  - intros d Hd. apply not_true_is_false. intros Hm.
    apply matches_free_slot in Hm. by apply (Hnone d).
Qed.

Lemma reserve_slot_no_slot_available_witness :
  reserve_slot 5 reserve_request pool_full =
    (pool_full, inr (jsonify [("success", VBool false);
                              ("error", VStr "❌ No slots available")] [] 404)).
Proof.
  apply (reserve_slot_no_slot_available 5 reserve_request pool_full
           staff_cse101 (VStr "cse101@campus.edu")).
  - vm_compute. reflexivity.
  - vm_compute. reflexivity.
  - apply Forall_forall. by_computation.
Defined.

Lemma item_run (d : doc) (k : string) (s : db) :
  item d k s = match d !! k with
               | Some v => (s, inr v)
               | None => (s, inl (KeyError k))
               end.
Proof. unfold item. by destruct (d !! k). Qed.

(** C7.  Every allocation that answers 201 appends exactly one booking;
    its [reserved_at] is the lease start [now] written into the slot as
    [reservation_time], and its [expires_at] is [now] plus ten minutes, the
    same two instants the response carries. *)
Theorem booking_expires_ten_minutes_after_lease_start
    (now : Z) (data : doc) (s s' : db) (r : response) :
  reserve_slot now data s = (s', inr r) -> status_code r = 201 ->
  exists b slot,
    bookings_collection s' = bookings_collection s ++ [b] /\
    b !! "reserved_at" = Some (VTime now) /\
    b !! "expires_at" = Some (VTime (now + 10 * 60 * 1000000)) /\
    slot ∈ slots_collection s' /\
    slot !! "slot_id" = b !! "slot_id" /\
    slot !! "reservation_time" = Some (VTime now) /\
    body r !! "reserved_at" = b !! "reserved_at" /\
    body r !! "expires_at" = b !! "expires_at".
Proof.
  unfold reserve_slot. rewrite run_bind. unfold users_find_one at 1.
  destruct (find_one _ (users_collection s)) as [user|]; [|by intros [= <- <-]].
  rewrite run_bind, item_run.
  destruct (user !! "email") as [email|]; [|done].
  rewrite run_bind.
  unfold slots_find_one_and_update at 1.
  destruct (find_one_and_update _ _ (slots_collection s)) as [c' [slot|]] eqn:E;
    simpl; [|by intros [= <- <-]].
  apply find_one_and_update_some in E as (i & d & Hi & Hm & -> & ->).
  rewrite run_bind, item_run.
  assert (apply_set
            [("available", VBool false); ("reserved_by", get data "staff_id");
             ("staff_email", email); ("department", get user "department");
             ("reservation_time", VTime now); ("last_updated", VTime now)] d
            !! "slot_id" = d !! "slot_id") as Hid.
  { unfold apply_set; simpl. by simplify_map_eq. }
  rewrite Hid.
  destruct (d !! "slot_id") as [sid|] eqn:Hsid; [|done].
  rewrite run_bind. unfold bookings_insert_one at 1.
  rewrite run_ret. intros [= <- <-] _. simpl.
  eexists _, _. split; [reflexivity|].
  split; [by simplify_map_eq|]. split; [by simplify_map_eq|].
  split.
  { apply list_elem_of_lookup. exists i. apply list_lookup_insert_eq.
    by eapply lookup_lt_Some. }
  split; [by simplify_map_eq|].
  split; [by simplify_map_eq|].
  split; by simplify_map_eq.
Qed.

Lemma booking_expires_ten_minutes_after_lease_start_witness :
  exists b slot,
    bookings_collection pool_reserved = bookings_collection pool ++ [b] /\
    b !! "reserved_at" = Some (VTime 0) /\
    b !! "expires_at" = Some (VTime (0 + 10 * 60 * 1000000)) /\
    slot ∈ slots_collection pool_reserved /\
    slot !! "slot_id" = b !! "slot_id" /\
    slot !! "reservation_time" = Some (VTime 0) /\
    body (response_of (reserve_slot 0 reserve_request pool)) !! "reserved_at"
      = b !! "reserved_at" /\
    body (response_of (reserve_slot 0 reserve_request pool)) !! "expires_at"
      = b !! "expires_at".
Proof.
  apply (booking_expires_ten_minutes_after_lease_start 0 reserve_request pool).
  - vm_compute. reflexivity.
  - vm_compute. reflexivity.
Defined.

(** Where one turn of a status loop leaves the store: untouched, or after
    one auto-release. *)
Lemma status_slot_state (now : Z) (x : doc) (σ : db) :
  (slots_status_slot now x σ).1 = σ \/
  exists v, (slots_status_slot now x σ).1 =
            set_slots σ (update_one [("slot_id", v)] release_set
                           (slots_collection σ)).1.
Proof.
  unfold slots_status_slot.
  destruct (truthy (get x "reservation_time")); [|by left].
  rewrite run_bind. unfold expiry_of.
  destruct (get x "reservation_time"); try by left.
  rewrite run_ret, run_bind. unfold time_until.
  destruct (tz_aware σ); [|by left].
  destruct (0 <? _).
  - match goal with |- context [if ?b then _ else _] => destruct b end;
      [|by left].
    rewrite run_bind. unfold users_find_one at 1.
    match goal with |- context [find_one ?q ?c] => destruct (find_one q c) as [u|] end;
      [|by left].
    rewrite run_bind, item_run. destruct (u !! "email"); by left.
  - rewrite run_bind, item_run.
    destruct (x !! "slot_id") as [v|]; [|by left].
    right. by exists v.
Qed.

Lemma signal_slot_state (now : Z) (x : doc) (σ : db) :
  (esp32_slot_of now x σ).1 = σ \/
  exists v, (esp32_slot_of now x σ).1 =
            set_slots σ (update_one [("slot_id", v)] release_set
                           (slots_collection σ)).1.
Proof.
  unfold esp32_slot_of. rewrite run_bind, item_run.
  destruct (x !! "slot_id") as [v|]; [|by left].
  destruct (truthy (get x "reservation_time")); [|by left].
  rewrite run_bind. unfold expiry_of.
  destruct (get x "reservation_time"); try by left.
  rewrite run_ret, run_bind. unfold time_until.
  destruct (tz_aware σ); [|by left].
  destruct (0 <? _); [by left|].
  rewrite run_bind, item_run.
  destruct (x !! "slot_id") as [v'|]; [|by left].
  right. by exists v'.
Qed.

(** A property of the store that an auto-release keeps is kept by a whole
    status read, however the read ends. *)
Lemma slots_status_keeps (I : db -> Prop) (now : Z) (s : db) :
  (forall σ v, I σ -> I (set_slots σ (update_one [("slot_id", v)] release_set
                                        (slots_collection σ)).1)) ->
  I s -> I (slots_status now s).1.
Proof.
  intros Hrel Hs. unfold slots_status. rewrite run_bind. unfold slots_find at 1.
  rewrite run_bind.
  pose proof (mapM_preserves (slots_status_slot now) I
                (snapshot (slots_collection s)) s Hs) as H.
  destruct (mapM (slots_status_slot now) (snapshot (slots_collection s)) s)
    as [s1 [e|ys]]; apply H; intros x σ Hσ;
    destruct (status_slot_state now x σ) as [->|[v ->]]; auto.
Qed.

Lemma esp32_reserve_status_keeps (I : db -> Prop) (now : Z) (host : string)
    (s : db) :
  (forall σ v, I σ -> I (set_slots σ (update_one [("slot_id", v)] release_set
                                        (slots_collection σ)).1)) ->
  I s -> I (esp32_reserve_status now host s).1.
Proof.
  intros Hrel Hs. unfold esp32_reserve_status. rewrite run_bind.
  unfold slots_find at 1. rewrite run_bind.
  pose proof (mapM_preserves (esp32_slot_of now) I
                (snapshot (slots_collection s)) s Hs) as H.
  destruct (mapM (esp32_slot_of now) (snapshot (slots_collection s)) s)
    as [s1 [e|ys]]; apply H; intros x σ Hσ;
    destruct (signal_slot_state now x σ) as [->|[v ->]]; auto.
Qed.

Lemma lease_inv_release (d : doc) : lease_inv (apply_set release_set d).
Proof.
  unfold lease_inv, get. rewrite !release_lookup. simpl.
  split; [done|]. by intros [? _].
Qed.

Lemma lease_inv_reserve (staff_id email dept : value) (now : Z) (d : doc) :
  staff_id <> VNull ->
  lease_inv (apply_set [("available", VBool false); ("reserved_by", staff_id);
                        ("staff_email", email); ("department", dept);
                        ("reservation_time", VTime now);
                        ("last_updated", VTime now)] d).
Proof.
  intros Hid. unfold lease_inv, get, apply_set; simpl.
  by simplify_map_eq.
Qed.

Lemma lease_inv_sensor (occupied : value) (now : Z) (d : doc) :
  lease_inv d ->
  lease_inv (apply_set [("hardware_occupied", occupied);
                        ("last_sensor_update", VTime now)] d).
Proof.
  unfold lease_inv, get, apply_set; simpl. by simplify_map_eq.
Qed.

Lemma lease_inv_initial (i : Z) (n : N) :
  lease_inv (<["_id" := VOid n]> (initial_slot i)).
Proof.
  unfold lease_inv, get, initial_slot; simpl. simplify_map_eq.
  split; [done|]. by intros [? _].
Qed.

Lemma staff_query_id (staff_id : value) (c : list doc) (user : doc) :
  staff_registered c ->
  find_one (staff_query staff_id) c = Some user -> staff_id <> VNull.
Proof.
  intros Hreg Hf. apply find_one_elem in Hf as [Hin Hm].
  unfold staff_registered in Hreg. rewrite Forall_forall in Hreg.
  specialize (Hreg user Hin).
  unfold matches, staff_query, cond_holds in Hm; simpl in Hm.
  rewrite !andb_true_iff, !bool_decide_eq_true in Hm.
  destruct Hm as (H1 & H2 & _). rewrite <- H1. by apply Hreg.
Qed.

(** C3.  The slot invariant, [available = false] iff [reserved_by] and
    [reservation_time] are both non-null, holds of the five slots
    [init_slots] creates, and each operation that writes a slot keeps it:
    the allocation (for staff accounts that carry their staff id, as
    [register] creates them), the auto-release of either status view, and
    the sensor update. *)
Theorem lease_invariant_kept :
  (forall s, slots_collection s = [] ->
     Forall lease_inv (slots_collection (init_slots s).1) /\
     length (slots_collection (init_slots s).1) = 5%nat) /\
  (forall now data s,
     staff_registered (users_collection s) ->
     Forall lease_inv (slots_collection s) ->
     Forall lease_inv (slots_collection (reserve_slot now data s).1)) /\
  (forall now s,
     Forall lease_inv (slots_collection s) ->
     Forall lease_inv (slots_collection (slots_status now s).1)) /\
  (forall now host s,
     Forall lease_inv (slots_collection s) ->
     Forall lease_inv (slots_collection (esp32_reserve_status now host s).1)) /\
  (forall now data s,
     Forall lease_inv (slots_collection s) ->
     Forall lease_inv (slots_collection (hardware_sensor now data s).1)).
Proof.
  repeat split.
  - unfold init_slots. rewrite run_bind. unfold slots_count_documents at 1.
    rewrite H. simpl. rewrite H. simpl.
    repeat (constructor; [apply lease_inv_initial|]). constructor.
  - unfold init_slots. rewrite run_bind. unfold slots_count_documents at 1.
    rewrite H. simpl. by rewrite H.
  - intros now data s Hreg Hinv. unfold reserve_slot.
    rewrite run_bind. unfold users_find_one at 1.
    fold (staff_query (get data "staff_id")).
    destruct (find_one _ (users_collection s)) as [user|] eqn:Hu; [|done].
    pose proof (staff_query_id _ _ _ Hreg Hu) as Hid.
    rewrite run_bind, item_run.
    destruct (user !! "email") as [email|]; [|done].
    rewrite run_bind. unfold slots_find_one_and_update at 1.
    pose proof (find_one_and_update_Forall lease_inv
                  [("available", VBool true); ("reserved_by", VNull)]
                  [("available", VBool false); ("reserved_by", get data "staff_id");
                   ("staff_email", email); ("department", get user "department");
                   ("reservation_time", VTime now); ("last_updated", VTime now)]
                  (slots_collection s) Hinv) as Hc.
    destruct (find_one_and_update _ _ (slots_collection s)) as [c' [slot|]];
      simpl in *.
    + rewrite run_bind, item_run.
      destruct (slot !! "slot_id"); simpl; apply Hc; intros; by apply lease_inv_reserve.
    + apply Hc. intros; by apply lease_inv_reserve.
  - intros now s Hinv.
    apply (slots_status_keeps (fun σ => Forall lease_inv (slots_collection σ)));
      [|done].
    intros σ v Hσ. simpl. apply update_one_Forall; [done|].
    intros; apply lease_inv_release.
  - intros now host s Hinv.
    apply (esp32_reserve_status_keeps
             (fun σ => Forall lease_inv (slots_collection σ))); [|done].
    intros σ v Hσ. simpl. apply update_one_Forall; [done|].
    intros; apply lease_inv_release.
  - intros now data s Hinv. unfold hardware_sensor.
    destruct (negb (truthy (get data "slot_id"))); [done|].
    rewrite run_bind. unfold slots_update_one at 1. simpl.
    apply update_one_Forall; [done|]. intros d. apply lease_inv_sensor.
Qed.

Lemma lease_invariant_kept_witness :
  Forall lease_inv (slots_collection pool) /\
  Forall lease_inv (slots_collection pool_reserved) /\
  Forall lease_inv (slots_collection (slots_status 600000000 pool_reserved).1) /\
  Forall lease_inv
    (slots_collection (esp32_reserve_status 600000000 "esp32" pool_reserved).1) /\
  Forall lease_inv
    (slots_collection
       (hardware_sensor 1 {[ "slot_id" := VStr "S1" ]} pool_reserved).1).
Proof.
  destruct lease_invariant_kept as (Hinit & Hres & Hst & Hesp & Hsen).
  assert (Forall lease_inv (slots_collection pool)) as Hpool.
  { apply (Hinit fresh_db). reflexivity. }
  assert (Forall lease_inv (slots_collection pool_reserved)) as Hreserved.
  { apply (Hres 0 reserve_request pool); [|exact Hpool].
    unfold staff_registered. by_computation. }
  repeat split.
  - exact Hpool.
  - exact Hreserved.
  - apply Hst, Hreserved.
  - apply Hesp, Hreserved.
  - apply Hsen, Hreserved.
Defined.

(** ** Sensor ingest *)

Lemma update_one_none (q u : list (string * value)) (c : list doc) :
  (forall d, d ∈ c -> matches q d = false) -> update_one q u c = (c, 0).
Proof.
  induction c as [|d c IH]; intros H; [done|].
  cbn [update_one]. rewrite (H d) by left.
  rewrite IH; [done|]. intros d' Hd'. apply H. by right.
Qed.

Lemma update_one_frame (q u : list (string * value)) (c : list doc) :
  Forall2 (fun x x' => x' = x \/ (matches q x = true /\ x' = apply_set u x))
          c (update_one q u c).1.
Proof.
  induction c as [|d c IH]; [constructor|].
  cbn [update_one]. destruct (matches q d) eqn:E; simpl.
  - constructor; [by right|]. apply Forall2_same_length_lookup_2; [done|].
    intros i x y Hx Hy. left. congruence.
  - constructor; [by left|done].
Qed.

Lemma update_one_hit (q u : list (string * value)) (c : list doc) (d : doc) :
  d ∈ c -> matches q d = true ->
  exists d0, d0 ∈ c /\ matches q d0 = true /\
             apply_set u d0 ∈ (update_one q u c).1.
Proof.
  induction c as [|x c IH]; intros Hd Hm; [by apply elem_of_nil in Hd|].
  cbn [update_one]. destruct (matches q x) eqn:E; simpl.
  - exists x. split; [by left|]. split; [done|by left].
  - apply elem_of_cons in Hd as [->|Hd]; [congruence|].
    destruct (IH Hd Hm) as (d0 & H1 & H2 & H3).
    exists d0. split; [by right|]. split; [done|by right].
Qed.

(** C4 (amended).  A sensor update naming a slot id that no stored slot
    has is acknowledged: the answer is 200 with [success = true] and
    [updated = false], and the database is unchanged.  The only client
    error of the endpoint is the 400 for a missing (falsy) [slot_id]. *)
Theorem sensor_update_unknown_slot_acknowledged (now : Z) (data : doc) (s : db) :
  (forall d, d ∈ slots_collection s -> get d "slot_id" <> get data "slot_id") ->
  hardware_sensor now data s =
    (s, inr (if truthy (get data "slot_id")
             then jsonify [("success", VBool true);
                           ("slot_id", get data "slot_id");
                           ("occupied", get_or data "occupied" (VBool false));
                           ("updated", VBool false)] [] 200
             else jsonify [("success", VBool false);
                           ("error", VStr "slot_id required")] [] 400)).
Proof.
  intros Hno. unfold hardware_sensor.
  destruct (truthy (get data "slot_id")); simpl; [|done].
  rewrite run_bind. unfold slots_update_one at 1.
  rewrite update_one_none.
  - simpl. by rewrite set_slots_same, run_ret.
  - intros d Hd. rewrite matches_slot_id. apply bool_decide_eq_false_2.
    by apply Hno.
Qed.

Lemma sensor_update_unknown_slot_acknowledged_witness :
  hardware_sensor 1 (sensor_request "S9" true) pool =
    (pool, inr (if truthy (get (sensor_request "S9" true) "slot_id")
                then jsonify [("success", VBool true);
                              ("slot_id", get (sensor_request "S9" true) "slot_id");
                              ("occupied", get_or (sensor_request "S9" true)
                                             "occupied" (VBool false));
                              ("updated", VBool false)] [] 200
                else jsonify [("success", VBool false);
                              ("error", VStr "slot_id required")] [] 400)).
Proof.
  apply (sensor_update_unknown_slot_acknowledged 1 (sensor_request "S9" true) pool).
  apply Forall_forall. by_computation.
Defined.

(** C4 as stated fails: the update for the unknown slot [S9] is answered
    with status 200, not with a client error. *)
Lemma sensor_update_unknown_slot_counterexample :
  ~ (forall (now : Z) (data : doc) (s : db),
       truthy (get data "slot_id") = true ->
       (forall d, d ∈ slots_collection s ->
                  get d "slot_id" <> get data "slot_id") ->
       400 <= status_code (response_of (hardware_sensor now data s)) < 500).
Proof.
  intros H.
  specialize (H 1 (sensor_request "S9" true) pool eq_refl).
  assert (status_code
            (response_of (hardware_sensor 1 (sensor_request "S9" true) pool))
          = 200) as Hcode by (vm_compute; reflexivity).
  rewrite Hcode in H.
  assert (400 <= 200 < 500) as Habs; [|lia].
  apply H. apply Forall_forall. by_computation.
Qed.

(** C6.  A sensor update on an existing slot answers 200, leaves users and
    bookings alone, and changes the slot collection only at the keys
    [hardware_occupied] and [last_sensor_update] of a slot with the named
    id: every other key of every slot, and every slot with another id, is
    as before; the named slot ends with both keys overwritten. *)
Theorem sensor_update_frame (now : Z) (data : doc) (s : db) (d : doc) :
  truthy (get data "slot_id") = true ->
  d ∈ slots_collection s -> get d "slot_id" = get data "slot_id" ->
  exists s' r,
    hardware_sensor now data s = (s', inr r) /\ status_code r = 200 /\
    users_collection s' = users_collection s /\
    bookings_collection s' = bookings_collection s /\
    Forall2 (fun x x' =>
               (forall k, k <> "hardware_occupied" -> k <> "last_sensor_update" ->
                          x' !! k = x !! k) /\
               (get x "slot_id" <> get data "slot_id" -> x' = x))
            (slots_collection s) (slots_collection s') /\
    exists x x', x ∈ slots_collection s /\ x' ∈ slots_collection s' /\
                 get x "slot_id" = get data "slot_id" /\
                 x' = <["last_sensor_update" := VTime now]>
                        (<["hardware_occupied" :=
                             get_or data "occupied" (VBool false)]> x).
Proof.
  intros Ht Hd Hid. unfold hardware_sensor. rewrite Ht. simpl.
  rewrite run_bind. unfold slots_update_one at 1. rewrite run_ret.
  eexists _, _. split; [reflexivity|]. split; [done|].
  split; [done|]. split; [done|]. simpl. split.
  - eapply Forall2_impl; [apply update_one_frame|].
    intros x x' [->|[Hm ->]].
    + by split.
    + split.
      * intros k H1 H2. unfold apply_set; simpl. by rewrite !lookup_insert_ne.
      * intros Hne. rewrite matches_slot_id in Hm.
        by apply bool_decide_eq_true in Hm.
  - destruct (update_one_hit [("slot_id", get data "slot_id")]
                (sensor_set (get_or data "occupied" (VBool false)) now)
                (slots_collection s) d Hd) as (x & Hx & Hm & Hx').
    { rewrite matches_slot_id. by apply bool_decide_eq_true. }
    exists x, (apply_set (sensor_set (get_or data "occupied" (VBool false)) now) x).
    split; [done|]. split; [exact Hx'|].
    rewrite matches_slot_id in Hm. apply bool_decide_eq_true in Hm. by split.
Qed.

Lemma sensor_update_frame_witness :
  exists s' r,
    hardware_sensor 1 (sensor_request "S1" true) pool_reserved = (s', inr r) /\
    status_code r = 200 /\
    users_collection s' = users_collection pool_reserved /\
    bookings_collection s' = bookings_collection pool_reserved /\
    Forall2 (fun x x' =>
               (forall k, k <> "hardware_occupied" -> k <> "last_sensor_update" ->
                          x' !! k = x !! k) /\
               (get x "slot_id" <> get (sensor_request "S1" true) "slot_id" ->
                x' = x))
            (slots_collection pool_reserved) (slots_collection s') /\
    exists x x', x ∈ slots_collection pool_reserved /\
                 x' ∈ slots_collection s' /\
                 get x "slot_id" = get (sensor_request "S1" true) "slot_id" /\
                 x' = <["last_sensor_update" := VTime 1]>
                        (<["hardware_occupied" :=
                             get_or (sensor_request "S1" true) "occupied"
                               (VBool false)]> x).
Proof.
  apply (sensor_update_frame 1 (sensor_request "S1" true) pool_reserved
           (slot_S1 pool_reserved)).
  - vm_compute. reflexivity.
  - by_computation.
  - vm_compute. reflexivity.
Defined.

(** ** Idempotent release, the signal feed, the countdown and the history *)

Lemma db_ok_after_status (now : Z) (s : db) :
  db_ok s -> db_ok (set_slots s (release_if_expired now <$> slots_collection s)).
Proof. intros [Hs Hu]. split; [by apply slots_ok_release|done]. Qed.

Lemma lease_expired_truthy (now : Z) (d : doc) :
  lease_expired now d = true -> truthy (get d "reservation_time") = true.
Proof.
  unfold lease_expired, remaining_seconds.
  by destruct (get d "reservation_time").
Qed.

(** C5.  Over the connection the code builds, where stored dates come back
    naive, a status read never releases an expired lease: for a stored slot
    whose lease has expired, two status reads in a row both end in a
    [TypeError] at [expiry - now], neither answers AVAILABLE, and the store
    after them is the store before them, the slot still in it as it was. *)
Theorem expired_lease_not_released_on_naive_dates
    (now1 now2 : Z) (s : db) (d : doc) :
  tz_aware s = false -> d ∈ slots_collection s ->
  lease_expired now1 d = true ->
  slots_status now1 s = (s, inl TypeError) /\
  slots_status now2 (slots_status now1 s).1 = (s, inl TypeError) /\
  d ∈ slots_collection (slots_status now2 (slots_status now1 s).1).1.
Proof.
  intros Hnaive Hd Hexp. apply lease_expired_truthy in Hexp.
  rewrite (slots_status_naive now1 s d Hnaive Hd Hexp). cbn [fst].
  rewrite (slots_status_naive now2 s d Hnaive Hd Hexp). by repeat split.
Qed.

Lemma expired_lease_not_released_on_naive_dates_witness :
  slots_status 601000000 pool_reserved = (pool_reserved, inl TypeError) /\
  slots_status 602000000 (slots_status 601000000 pool_reserved).1
    = (pool_reserved, inl TypeError) /\
  slot_S1 pool_reserved ∈
    slots_collection
      (slots_status 602000000 (slots_status 601000000 pool_reserved).1).1.
Proof.
  apply (expired_lease_not_released_on_naive_dates 601000000 602000000
           pool_reserved (slot_S1 pool_reserved)).
  - reflexivity.
  - by_computation.
  - vm_compute. reflexivity.
Defined.

(** Over a [tz_aware] connection the release is idempotent: for a stored
    slot whose lease is expired at the first read, two status reads in a
    row both answer, the entry of the slot is AVAILABLE in both responses,
    the stored slot is the same document after the second read as after
    the first, and the turn of the second read's loop for that slot writes
    nothing to the store. *)
Theorem auto_release_idempotent (now1 now2 : Z) (s : db) (d : doc) :
  tz_aware s = true ->
  db_ok s -> d ∈ slots_collection s -> lease_expired now1 d = true ->
  exists s1 r1 s2 r2 d1,
    slots_status now1 s = (s1, inr r1) /\
    slots_status now2 s1 = (s2, inr r2) /\
    (exists e, row_of r1 d e) /\ (exists e, row_of r2 d e) /\
    (forall e, row_of r1 d e \/ row_of r2 d e ->
               e !! "status" = Some (VStr "AVAILABLE")) /\
    d1 ∈ slots_collection s1 /\ d1 !! "slot_id" = d !! "slot_id" /\
    d1 ∈ slots_collection s2 /\
    (forall σ, (slots_status_slot now2 (delete "_id" d1) σ).1 = σ).
Proof.
  intros Haware Hok Hd Hexp.
  destruct (slots_status_run now1 s Haware Hok) as [r1 [Hr1 [_ HF1]]].
  pose proof (db_ok_after_status now1 s Hok) as Hok1.
  destruct (slots_status_run now2
              (set_slots s (release_if_expired now1 <$> slots_collection s))
              Haware Hok1) as [r2 [Hr2 [_ HF2]]].
  set (d1 := apply_set release_set d).
  assert (d1 ∈ release_if_expired now1 <$> slots_collection s) as Hd1.
  { apply list_elem_of_fmap. exists d. split; [|done].
    unfold release_if_expired. by rewrite Hexp. }
  assert (d1 !! "slot_id" = d !! "slot_id") as Hid1.
  { unfold d1. by rewrite release_lookup. }
  destruct (rows_of_slot _ _ _ d (status_row_id now1) (proj1 Hok) Hd HF1)
    as [Hex1 Hall1].
  destruct (rows_of_slot _ _ _ d1 (status_row_id now2) (proj1 Hok1) Hd1 HF2)
    as [Hex2 Hall2].
  eexists _, r1, _, r2, d1.
  split; [exact Hr1|]. split; [exact Hr2|].
  split; [exact Hex1|].
  split. { destruct Hex2 as [e [He Hid]]. exists e. split; [done|congruence]. }
  split.
  { intros e [[He Hid]|[He Hid]].
    - destruct (Hall1 e He Hid) as [_ H].
      unfold lease_expired in Hexp. rewrite <- remaining_seconds_delete_id in Hexp.
      destruct (remaining_seconds now1 (delete "_id" d)) as [r|]; [|done].
      destruct (0 <? r); [done|tauto].
    - destruct (Hall2 e He ltac:(congruence)) as [_ H].
      rewrite remaining_seconds_delete_id in H.
      unfold remaining_seconds, d1 in H.
      by rewrite release_reservation_time in H. }
  split; [exact Hd1|]. split; [exact Hid1|].
  split.
  { simpl. apply list_elem_of_fmap. exists d1. split; [|exact Hd1].
    unfold release_if_expired, d1. by rewrite lease_expired_release. }
  intros σ. unfold slots_status_slot.
  rewrite get_delete_id by done. unfold d1.
  by rewrite release_reservation_time.
Qed.

Lemma auto_release_idempotent_witness :
  exists s1 r1 s2 r2 d1,
    slots_status 600000000 (aware pool_reserved) = (s1, inr r1) /\
    slots_status 600001000 s1 = (s2, inr r2) /\
    (exists e, row_of r1 (slot_S1 pool_reserved) e) /\
    (exists e, row_of r2 (slot_S1 pool_reserved) e) /\
    (forall e, row_of r1 (slot_S1 pool_reserved) e \/
               row_of r2 (slot_S1 pool_reserved) e ->
               e !! "status" = Some (VStr "AVAILABLE")) /\
    d1 ∈ slots_collection s1 /\
    d1 !! "slot_id" = slot_S1 pool_reserved !! "slot_id" /\
    d1 ∈ slots_collection s2 /\
    (forall σ, (slots_status_slot 600001000 (delete "_id" d1) σ).1 = σ).
Proof.
  apply (auto_release_idempotent 600000000 600001000 (aware pool_reserved)
           (slot_S1 pool_reserved)).
  - reflexivity.
  - apply db_okb_sound. vm_compute. reflexivity.
  - by_computation.
  - vm_compute. reflexivity.
Defined.

(** C10.  In the hardware signal feed, where the read gets as far as seeing
    a lease expired (the client hands back aware dates), the entry of a
    slot whose lease is seen expired, and whose stored [available] is
    false, has status AVAILABLE and led_color OFF and still
    [available = false], while the store after the read holds the slot with
    [available = true]. *)
Theorem signal_feed_expired_entry_still_unavailable
    (now : Z) (host : string) (s : db) (d : doc) :
  tz_aware s = true ->
  slots_ok (slots_collection s) -> d ∈ slots_collection s ->
  lease_expired now d = true -> d !! "available" = Some (VBool false) ->
  exists s' r,
    esp32_reserve_status now host s = (s', inr r) /\
    (exists e, row_of r d e) /\
    (forall e, row_of r d e ->
               e !! "status" = Some (VStr "AVAILABLE") /\
               e !! "led_color" = Some (VStr "OFF") /\
               e !! "available" = Some (VBool false)) /\
    exists d', d' ∈ slots_collection s' /\
               d' !! "slot_id" = d !! "slot_id" /\
               d' !! "available" = Some (VBool true).
Proof.
  intros Haware Hok Hd Hexp Hav.
  destruct (esp32_reserve_status_run now host s Haware Hok) as [r [Hr [_ HF]]].
  destruct (rows_of_slot _ _ _ d (signal_row_id now) Hok Hd HF) as [Hex Hall].
  eexists _, r. split; [exact Hr|]. split; [exact Hex|]. split.
  - intros e [He Hid].
    destruct (Hall e He Hid) as (_ & Ha & _ & _ & H).
    unfold lease_expired in Hexp. rewrite <- remaining_seconds_delete_id in Hexp.
    destruct (remaining_seconds now (delete "_id" d)) as [n|]; [|done].
    destruct (0 <? n); [done|].
    destruct H as (H1 & H2 & _). split; [done|]. split; [done|].
    rewrite Ha. unfold get_or. by rewrite lookup_delete_ne, Hav.
  - exists (apply_set release_set d). split; [|by rewrite !release_lookup].
    simpl. apply list_elem_of_fmap. exists d. split; [|done].
    unfold release_if_expired. by rewrite Hexp.
Qed.

Lemma signal_feed_expired_entry_still_unavailable_witness :
  exists s' r,
    esp32_reserve_status 600000000 "esp32" (aware pool_reserved)
      = (s', inr r) /\
    (exists e, row_of r (slot_S1 pool_reserved) e) /\
    (forall e, row_of r (slot_S1 pool_reserved) e ->
               e !! "status" = Some (VStr "AVAILABLE") /\
               e !! "led_color" = Some (VStr "OFF") /\
               e !! "available" = Some (VBool false)) /\
    exists d', d' ∈ slots_collection s' /\
               d' !! "slot_id" = slot_S1 pool_reserved !! "slot_id" /\
               d' !! "available" = Some (VBool true).
Proof.
  apply (signal_feed_expired_entry_still_unavailable 600000000 "esp32"
           (aware pool_reserved) (slot_S1 pool_reserved)).
  - reflexivity.
  - apply db_okb_sound. vm_compute. reflexivity.
  - by_computation.
  - vm_compute. reflexivity.
  - vm_compute. reflexivity.
Defined.

Lemma fmt_countdown_digits (r : Z) :
  0 <= r < 6000 ->
  fmt_countdown (r `div` 60) (r `mod` 60) =
    two_digits (r `div` 60) +:+ ":" +:+ two_digits (r `mod` 60).
Proof.
  intros Hr. unfold fmt_countdown.
  pose proof (Z.mod_pos_bound r 60 ltac:(lia)).
  assert (0 <= r `div` 60 < 100).
  { split; [apply Z.div_pos; lia|]. apply Z.div_lt_upper_bound; lia. }
  rewrite !fmt_02d_two_digits; [done|lia|lia].
Qed.

(** C8.  For a remaining duration [r] (whole seconds, below 100 minutes)
    of a stored lease, the countdown is the two decimal digits of
    [r // 60], a colon, and the two decimal digits of [r % 60]; 125 seconds
    render as 02:05 and the rendering of 0 is 00:00.  Where the views
    evaluate the lease (aware dates) both put the countdown, with
    [time_left_min] and [time_left_sec], in the RESERVED entry when
    [r > 0], and report the slot AVAILABLE (not active) when [r = 0], the
    hardware entry then carrying no countdown; over naive dates both views
    end in a [TypeError] before any rendering, so a lease with nothing
    left is reported active by neither. *)
Theorem countdown_rendering
    (r T now : Z) (host : string) (s : db) (d : doc) :
  0 <= r < 6000 ->
  db_ok s -> d ∈ slots_collection s ->
  get d "reservation_time" = VTime T ->
  int_total_seconds (T + timedelta_minutes 10 - now) = r ->
  fmt_countdown (r `div` 60) (r `mod` 60) =
    two_digits (r `div` 60) +:+ ":" +:+ two_digits (r `mod` 60) /\
  (tz_aware s = true ->
   exists s' rs rh,
     slots_status now s = (s', inr rs) /\
     esp32_reserve_status now host s = (s', inr rh) /\
     (exists e, row_of rs d e) /\ (exists e, row_of rh d e) /\
     forall e, row_of rs d e \/ row_of rh d e ->
       if 0 <? r
       then e !! "status" = Some (VStr "RESERVED") /\
            e !! "time_left_min" = Some (VInt (r `div` 60)) /\
            e !! "time_left_sec" = Some (VInt (r `mod` 60)) /\
            e !! "countdown" =
              Some (VStr (two_digits (r `div` 60) +:+ ":" +:+
                          two_digits (r `mod` 60)))
       else e !! "status" = Some (VStr "AVAILABLE") /\
            (row_of rh d e -> e !! "countdown" = None)) /\
  (tz_aware s = false ->
   slots_status now s = (s, inl TypeError) /\
   esp32_reserve_status now host s = (s, inl TypeError)) /\
  fmt_countdown (125 `div` 60) (125 `mod` 60) = "02:05" /\
  fmt_countdown (0 `div` 60) (0 `mod` 60) = "00:00".
Proof.
  intros Hr Hok Hd HT Hrem. split; [by apply fmt_countdown_digits|].
  split; [|split; [|split; vm_compute; reflexivity]]; last first.
  { intros Hnaive. split.
    - apply (slots_status_naive now s d); [done|done|by rewrite HT].
    - apply (esp32_reserve_status_naive now host s d);
        [done|by destruct Hok as [[? _] _]|done|by rewrite HT]. }
  intros Haware.
  destruct (slots_status_run now s Haware Hok) as [rs [Hrs [_ HF]]].
  destruct (esp32_reserve_status_run now host s Haware (proj1 Hok))
    as [rh [Hrh [_ HF']]].
  destruct (rows_of_slot _ _ _ d (status_row_id now) (proj1 Hok) Hd HF) as [Hex Hall].
  destruct (rows_of_slot _ _ _ d (signal_row_id now) (proj1 Hok) Hd HF') as [Hex' Hall'].
  eexists _, rs, rh. do 4 (split; [done|]).
  assert (remaining_seconds now (delete "_id" d) = Some r) as Hrs'.
  { rewrite remaining_seconds_delete_id. unfold remaining_seconds.
    by rewrite HT, Hrem. }
  assert (forall e, row_of rh d e ->
            if 0 <? r then True else e !! "countdown" = None) as Hnone.
  { intros e [He Hid]. destruct (Hall' e He Hid) as (_ & _ & _ & _ & H).
    rewrite Hrs' in H. destruct (0 <? r); [done|tauto]. }
  intros e [[He Hid]|[He Hid]].
  - destruct (Hall e He Hid) as [_ H]. rewrite Hrs' in H.
    specialize (Hnone e).
    destruct (0 <? r); [|tauto].
    rewrite <- fmt_countdown_digits by done. tauto.
  - destruct (Hall' e He Hid) as (_ & _ & _ & _ & H). rewrite Hrs' in H.
    destruct (0 <? r); [|tauto].
    rewrite <- fmt_countdown_digits by done. tauto.
Qed.

Lemma countdown_rendering_witness :
  fmt_countdown (125 `div` 60) (125 `mod` 60) =
    two_digits (125 `div` 60) +:+ ":" +:+ two_digits (125 `mod` 60) /\
  (tz_aware (aware pool_reserved) = true ->
   exists s' rs rh,
     slots_status 475000000 (aware pool_reserved) = (s', inr rs) /\
     esp32_reserve_status 475000000 "esp32" (aware pool_reserved)
       = (s', inr rh) /\
     (exists e, row_of rs (slot_S1 pool_reserved) e) /\
     (exists e, row_of rh (slot_S1 pool_reserved) e) /\
     forall e, row_of rs (slot_S1 pool_reserved) e \/
               row_of rh (slot_S1 pool_reserved) e ->
       if 0 <? 125
       then e !! "status" = Some (VStr "RESERVED") /\
            e !! "time_left_min" = Some (VInt (125 `div` 60)) /\
            e !! "time_left_sec" = Some (VInt (125 `mod` 60)) /\
            e !! "countdown" =
              Some (VStr (two_digits (125 `div` 60) +:+ ":" +:+
                          two_digits (125 `mod` 60)))
       else e !! "status" = Some (VStr "AVAILABLE") /\
            (row_of rh (slot_S1 pool_reserved) e ->
             e !! "countdown" = None)) /\
  (tz_aware (aware pool_reserved) = false ->
   slots_status 475000000 (aware pool_reserved)
     = (aware pool_reserved, inl TypeError) /\
   esp32_reserve_status 475000000 "esp32" (aware pool_reserved)
     = (aware pool_reserved, inl TypeError)) /\
  fmt_countdown (125 `div` 60) (125 `mod` 60) = "02:05" /\
  fmt_countdown (0 `div` 60) (0 `mod` 60) = "00:00".
Proof.
  apply (countdown_rendering 125 0 475000000 "esp32" (aware pool_reserved)
           (slot_S1 pool_reserved)).
  - lia.
  - apply db_okb_sound. vm_compute. reflexivity.
  - by_computation.
  - vm_compute. reflexivity.
  - vm_compute. reflexivity.
Defined.

Lemma StronglySorted_before {A} (R : relation A) (l : list A) (i j : nat) (x y : A) :
  StronglySorted R l -> (i < j)%nat -> l !! i = Some x -> l !! j = Some y -> R x y.
Proof.
  intros Hs. revert i j. induction Hs as [|a l Hs IH Ha]; intros i j Hij Hi Hj; [done|].
  destruct j as [|j]; [lia|]. simpl in Hj.
  destruct i as [|i]; simpl in Hi.
  - inversion Hi; subst. rewrite Forall_forall in Ha. apply Ha.
    by eapply list_elem_of_lookup_2.
  - apply (IH i j); [lia|done|done].
Qed.

Lemma StronglySorted_project (k : string) (R : relation doc) (l : list doc) :
  (forall a b, R a b -> R (delete k a) (delete k b)) ->
  StronglySorted R l -> StronglySorted R (project_out k l).
Proof.
  intros HR Hs. induction Hs as [|a l Hs IH Ha]; [constructor|].
  unfold project_out in *. rewrite fmap_cons. constructor; [done|].
  rewrite Forall_fmap. eapply Forall_impl; [exact Ha|]. intros b. apply HR.
Qed.

Lemma matches_staff_id (staff_id : string) (d : doc) :
  matches [("staff_id", VStr staff_id)] d = true <->
  get d "staff_id" = VStr staff_id.
Proof.
  unfold matches, cond_holds; simpl. by rewrite andb_true_r, bool_decide_eq_true.
Qed.

Lemma value_le_time (a b : Z) : value_le (VTime a) (VTime b) <-> a <= b.
Proof. unfold value_le; simpl. by rewrite Z.compare_gt_iff, Z.nlt_ge. Qed.

(** C9.  [my_bookings] answers 200 with at most 20 entries, sorted newest
    first by [reserved_at]; every entry is a stored booking of the requester
    without its [_id]; a booking of the requester that is left out is no
    newer than any entry returned, and then exactly 20 are returned; the
    database is returned unchanged. *)
Theorem my_bookings_history (staff_id : string) (s : db) :
  exists r,
    my_bookings staff_id s = (s, inr r) /\ status_code r = 200 /\
    (length (rows r) <= 20)%nat /\
    StronglySorted (desc_by "reserved_at") (rows r) /\
    (forall i j ei ej ti tj,
       (i < j)%nat -> rows r !! i = Some ei -> rows r !! j = Some ej ->
       get ei "reserved_at" = VTime ti -> get ej "reserved_at" = VTime tj ->
       tj <= ti) /\
    Forall (fun e => e !! "_id" = None /\
                     exists b, b ∈ bookings_collection s /\
                               get b "staff_id" = VStr staff_id /\
                               e = delete "_id" b) (rows r) /\
    (forall b, b ∈ bookings_collection s -> get b "staff_id" = VStr staff_id ->
       delete "_id" b ∈ rows r \/
       (length (rows r) = 20%nat /\
        Forall (fun e => value_le (get b "reserved_at") (get e "reserved_at"))
               (rows r))).
Proof.
  set (q := [("staff_id", VStr staff_id)]).
  set (sorted := merge_sort (desc_by "reserved_at") (find q (bookings_collection s))).
  assert (StronglySorted (desc_by "reserved_at") sorted) as Hsorted
    by (apply StronglySorted_merge_sort; apply _).
  assert (forall b, b ∈ sorted <->
                    b ∈ bookings_collection s /\ get b "staff_id" = VStr staff_id)
    as Hmem.
  { intros b. unfold sorted. rewrite merge_sort_Permutation.
    unfold find. rewrite list_elem_of_In, filter_In, <- list_elem_of_In.
    unfold q. by rewrite matches_staff_id. }
  assert (StronglySorted (desc_by "reserved_at")
            (project_out "_id" (take 20 sorted))) as Hrows.
  { apply StronglySorted_project.
    - intros a b. unfold desc_by. by rewrite !get_delete_id.
    - apply (StronglySorted_app_1_l _ _ (drop 20 sorted)).
      by rewrite take_drop. }
  exists (jsonify [("success", VBool true); ("staff_id", VStr staff_id);
                   ("total_bookings",
                    VInt (Z.of_nat (length (project_out "_id" (take 20 sorted)))))]
                  (project_out "_id" (take 20 sorted)) 200).
  split; [reflexivity|]. split; [done|]. simpl.
  split. { unfold project_out. rewrite length_fmap, length_take. lia. }
  split; [exact Hrows|].
  split.
  { intros i j ei ej ti tj Hij Hi Hj Hti Htj.
    pose proof (StronglySorted_before _ _ _ _ _ _ Hrows Hij Hi Hj) as H.
    unfold desc_by in H. rewrite Hti, Htj in H. by apply value_le_time. }
  split.
  { unfold project_out. rewrite Forall_fmap. apply Forall_forall.
    intros b Hb. simpl. split; [apply lookup_delete_eq|].
    apply elem_of_take in Hb as (i & Hi & _).
    apply list_elem_of_lookup_2, Hmem in Hi as [H1 H2]. by exists b. }
  intros b Hb Hid.
  assert (b ∈ take 20 sorted ++ drop 20 sorted) as Hin
    by (rewrite take_drop; by apply Hmem).
  apply elem_of_app in Hin as [Hin|Hin].
  - left. unfold project_out. apply list_elem_of_fmap. by exists b.
  - right. split.
    + unfold project_out. rewrite length_fmap. apply length_take_le.
      destruct (decide (20 <= length sorted)%nat) as [|Hlt]; [done|].
      rewrite drop_ge in Hin by lia. by apply elem_of_nil in Hin.
    + unfold project_out. rewrite Forall_fmap. apply Forall_forall.
      intros x Hx. simpl. rewrite get_delete_id by done.
      assert (desc_by "reserved_at" x b) as H; [|exact H].
      apply (StronglySorted_app_1_elem_of _ (take 20 sorted) (drop 20 sorted));
        [by rewrite take_drop|done|done].
Qed.

Example my_bookings_caps_at_twenty :
  length (bookings_collection busy_ledger) = 25%nat /\
  (fun e => get e "reserved_at") <$>
    rows (response_of (my_bookings "cse101" busy_ledger)) =
  (fun k => VTime (k * 700000000)) <$> reverse (seqZ 5 20).
Proof. split; vm_compute; reflexivity. Qed.

(** ** The scenario of the pool of five

    With five free slots, an allocation for the staff member succeeds on
    [S1] with [expires_at = reserved_at + 10min]; over aware dates a status
    read nine minutes later shows [S1] RESERVED with countdown 01:00; a
    read at ten minutes shows it AVAILABLE, and the next allocation gets
    [S1] again. *)
Example scenario_pool_of_five :
  let reserved := reserve_slot 0 reserve_request (aware pool) in
  let at_nine := slots_status (timedelta_minutes 9) reserved.1 in
  let at_ten := slots_status (timedelta_minutes 10) reserved.1 in
  let again := reserve_slot (timedelta_minutes 10) reserve_request at_ten.1 in
  status_code (response_of reserved) = 201 /\
  body (response_of reserved) !! "slot_id" = Some (VStr "S1") /\
  body (response_of reserved) !! "expires_at" =
    Some (VTime (0 + timedelta_minutes 10)) /\
  (fun e => (get e "slot_id", get e "status", get e "countdown")) <$>
    take 1 (rows (response_of at_nine)) =
    [(VStr "S1", VStr "RESERVED", VStr "01:00")] /\
  (fun e => (get e "slot_id", get e "status")) <$>
    take 1 (rows (response_of at_ten)) =
    [(VStr "S1", VStr "AVAILABLE")] /\
  body (response_of again) !! "slot_id" = Some (VStr "S1").
Proof. repeat split; vm_compute; reflexivity. Qed.

(** ** Allocation: outcomes, effect on the pool, and what every endpoint keeps *)

Lemma find_one_and_update_first (q u : list (string * value)) (c : list doc)
    (d : doc) (pre post : list doc) :
  c = pre ++ d :: post -> Forall (fun x => matches q x = false) pre ->
  matches q d = true ->
  find_one_and_update q u c = (pre ++ apply_set u d :: post, Some (apply_set u d)).
Proof.
  intros -> Hpre Hd. induction Hpre as [|x pre Hx Hpre IH]; simpl.
  - by rewrite Hd.
  - by rewrite Hx, IH.
Qed.

Lemma first_match_split (q : list (string * value)) (c : list doc) :
  existsb (matches q) c = true ->
  exists pre d post, c = pre ++ d :: post /\
                     Forall (fun x => matches q x = false) pre /\
                     matches q d = true.
Proof.
  induction c as [|x c IH]; [done|]. simpl.
  destruct (matches q x) eqn:E; simpl.
  - intros _. by exists [], x, c.
  - intros H. destruct (IH H) as (pre & d & post & -> & Hpre & Hd).
    exists (x :: pre), d, post. split; [done|]. split; [by constructor|done].
Qed.

Lemma no_match_existsb (q : list (string * value)) (c : list doc) :
  existsb (matches q) c = false -> forall d, d ∈ c -> matches q d = false.
Proof.
  intros H d Hd. apply not_true_is_false. intros Hm.
  assert (existsb (matches q) c = true); [|congruence].
  apply existsb_exists. exists d. split; [by apply list_elem_of_In|done].
Qed.

Lemma reserve_set_lookup (staff_id email dept : value) (now : Z) (d : doc)
    (k : string) :
  k ∉ ["available"; "reserved_by"; "staff_email"; "department";
       "reservation_time"; "last_updated"] ->
  apply_set (reserve_set staff_id email dept now) d !! k = d !! k.
Proof.
  intros Hk. unfold apply_set, reserve_set; simpl.
  rewrite !lookup_insert_ne; [done|..]; intros <-; apply Hk; decide_keys.
Qed.

(** The allocation, when a staff account is found and a slot is free. *)
Lemma reserve_slot_success (now : Z) (data : doc) (s : db) (user : doc)
    (email sid : value) (pre post : list doc) (d : doc) :
  find_one (staff_query (get data "staff_id")) (users_collection s) = Some user ->
  user !! "email" = Some email ->
  slots_collection s = pre ++ d :: post ->
  Forall (fun x => matches free_slot_query x = false) pre ->
  matches free_slot_query d = true ->
  d !! "slot_id" = Some sid ->
  exists r,
    reserve_slot now data s =
      (mkDb (users_collection s)
            (bookings_collection s ++
               [<["_id" := VOid (next_oid s)]>
                  (list_to_map [("staff_id", get data "staff_id");
                                ("staff_email", email);
                                ("department", get user "department");
                                ("slot_id", sid);
                                ("reserved_at", VTime now);
                                ("expires_at", VTime (now + timedelta_minutes 10))])])
            (pre ++ apply_set (reserve_set (get data "staff_id") email
                                 (get user "department") now) d :: post)
            (N.succ (next_oid s)) (tz_aware s),
       inr r) /\
    status_code r = 201 /\
    body r !! "slot_id" = Some sid /\
    body r !! "staff_id" = Some (get data "staff_id").
Proof.
  intros Hu He Hc Hpre Hd Hsid. unfold reserve_slot.
  rewrite run_bind. unfold users_find_one at 1.
  fold (staff_query (get data "staff_id")). rewrite Hu.
  rewrite run_bind, item_run, He, run_bind.
  unfold slots_find_one_and_update at 1. fold free_slot_query.
  fold (reserve_set (get data "staff_id") email (get user "department") now).
  rewrite (find_one_and_update_first _ _ _ d pre post Hc Hpre Hd).
  cbn [fst snd]. rewrite run_bind, item_run.
  rewrite reserve_set_lookup by decide_keys. rewrite Hsid.
  rewrite run_bind. unfold bookings_insert_one at 1. rewrite run_ret.
  eexists. split; [reflexivity|]. cbn [status_code body jsonify].
  split; [done|]. split; by simplify_map_eq.
Qed.

Lemma find_one_and_update_split (q u : list (string * value)) (c c' : list doc)
    (d' : doc) :
  find_one_and_update q u c = (c', Some d') ->
  exists pre d post, c = pre ++ d :: post /\
                     Forall (fun x => matches q x = false) pre /\
                     matches q d = true /\
                     d' = apply_set u d /\ c' = pre ++ d' :: post.
Proof.
  revert c'. induction c as [|x c IH]; intros c' H; [done|].
  cbn [find_one_and_update] in H. destruct (matches q x) eqn:E.
  - inversion H; subst. by exists [], x, c.
  - destruct (find_one_and_update q u c) as [c1 o] eqn:E1. simpl in H.
    inversion H; subst.
    destruct (IH c1 eq_refl) as (pre & d & post & -> & Hpre & Hd & -> & ->).
    exists (x :: pre), d, post. repeat split; try done. by constructor.
Qed.

Lemma find_one_and_update_ids (q u : list (string * value)) (c : list doc) :
  (forall d, get (apply_set u d) "slot_id" = get d "slot_id") ->
  (fun d => get d "slot_id") <$> (find_one_and_update q u c).1 =
  (fun d => get d "slot_id") <$> c.
Proof.
  intros Hu. induction c as [|x c IH]; [done|].
  cbn [find_one_and_update]. destruct (matches q x); cbn [fst snd]; rewrite !fmap_cons.
  - by rewrite Hu.
  - by rewrite IH.
Qed.

Lemma update_one_ids (q u : list (string * value)) (c : list doc) :
  (forall d, get (apply_set u d) "slot_id" = get d "slot_id") ->
  (fun d => get d "slot_id") <$> (update_one q u c).1 =
  (fun d => get d "slot_id") <$> c.
Proof.
  intros Hu. induction c as [|x c IH]; [done|].
  cbn [update_one]. destruct (matches q x); cbn [fst snd]; rewrite !fmap_cons.
  - by rewrite Hu.
  - by rewrite IH.
Qed.

Lemma reserve_set_id (staff_id email dept : value) (now : Z) (d : doc) :
  get (apply_set (reserve_set staff_id email dept now) d) "slot_id" =
  get d "slot_id".
Proof. unfold get. by rewrite reserve_set_lookup by decide_keys. Qed.

Lemma slot_ok_reserve (staff_id email dept : value) (now : Z) (d : doc) :
  slot_ok d -> slot_ok (apply_set (reserve_set staff_id email dept now) d).
Proof.
  intros [[sid Hsid] _]. split.
  - exists sid. by rewrite reserve_set_lookup by decide_keys.
  - right. exists now. unfold get, apply_set, reserve_set; simpl.
    by simplify_map_eq.
Qed.

Lemma sensor_set_lookup (occupied : value) (now : Z) (d : doc) (k : string) :
  k <> "hardware_occupied" -> k <> "last_sensor_update" ->
  apply_set (sensor_set occupied now) d !! k = d !! k.
Proof.
  intros H1 H2. unfold apply_set, sensor_set; simpl.
  by rewrite !lookup_insert_ne.
Qed.

Lemma sensor_set_id (occupied : value) (now : Z) (d : doc) :
  get (apply_set (sensor_set occupied now) d) "slot_id" = get d "slot_id".
Proof. unfold get. by rewrite sensor_set_lookup. Qed.

Lemma slot_ok_sensor (occupied : value) (now : Z) (d : doc) :
  slot_ok d -> slot_ok (apply_set (sensor_set occupied now) d).
Proof.
  intros [[sid Hsid] Hrt]. unfold slot_ok, get.
  rewrite !sensor_set_lookup by done. split; [by exists sid|done].
Qed.

(** Where an allocation request leaves the store. *)
Lemma reserve_slot_state (now : Z) (data : doc) (s : db) :
  users_collection (reserve_slot now data s).1 = users_collection s /\
  (slots_collection (reserve_slot now data s).1 = slots_collection s \/
   exists email dept,
     slots_collection (reserve_slot now data s).1 =
     (find_one_and_update free_slot_query
        (reserve_set (get data "staff_id") email dept now)
        (slots_collection s)).1) /\
  (bookings_collection (reserve_slot now data s).1 = bookings_collection s \/
   exists b r, bookings_collection (reserve_slot now data s).1 =
               bookings_collection s ++ [b] /\
               (reserve_slot now data s).2 = inr r /\ status_code r = 201).
Proof.
  destruct (reserve_slot now data s) as [s' o] eqn:Hx. cbn [fst snd].
  revert Hx. unfold reserve_slot. rewrite run_bind. unfold users_find_one at 1.
  destruct (find_one _ (users_collection s)) as [user|];
    [|intros [= <- <-]; split; [done|split; by left]].
  rewrite run_bind, item_run.
  destruct (user !! "email") as [email|];
    [|intros [= <- <-]; split; [done|split; by left]].
  rewrite run_bind. unfold slots_find_one_and_update at 1.
  fold free_slot_query.
  fold (reserve_set (get data "staff_id") email (get user "department") now).
  destruct (find_one_and_update _ _ (slots_collection s)) as [c' [slot|]] eqn:E;
    cbn [fst snd].
  - rewrite run_bind, item_run.
    destruct (slot !! "slot_id") as [sid|].
    + rewrite run_bind. unfold bookings_insert_one at 1. rewrite run_ret.
      intros [= <- <-].
      cbn [users_collection slots_collection bookings_collection set_slots].
      split; [done|]. split.
      * right. exists email, (get user "department"). by rewrite E.
      * right. by eexists _, _.
    + intros [= <- <-].
      cbn [users_collection slots_collection bookings_collection set_slots].
      split; [done|]. split; [|by left].
      right. exists email, (get user "department"). by rewrite E.
  - rewrite run_ret. intros [= <- <-].
    cbn [users_collection slots_collection bookings_collection set_slots].
    split; [done|]. split; [|by left].
    right. exists email, (get user "department"). by rewrite E.
Qed.

Lemma reserve_slot_db_ok (now : Z) (data : doc) (s : db) :
  db_ok s -> db_ok (reserve_slot now data s).1.
Proof.
  intros [[Hs Hnd] Hu].
  destruct (reserve_slot_state now data s) as (Husers & Hslots & _).
  split; [|unfold users_ok; by rewrite Husers].
  destruct Hslots as [->|(email & dept & ->)]; [done|]. split.
  - apply find_one_and_update_Forall; [done|].
    intros d Hd _. by apply slot_ok_reserve.
  - rewrite find_one_and_update_ids; [done|]. intros d. apply reserve_set_id.
Qed.

Lemma db_ok_one_release (σ : db) (v : value) :
  db_ok σ ->
  db_ok (set_slots σ (update_one [("slot_id", v)] release_set
                        (slots_collection σ)).1).
Proof.
  intros [[Hs Hnd] Hu]. split; [split|done]; simpl.
  - apply update_one_Forall; [done|].
    intros d [[sid Hsid] _]. split.
    + exists sid. by rewrite release_lookup.
    + left. apply release_reservation_time.
  - rewrite update_one_ids; [done|]. intros d. apply release_get. decide_keys.
Qed.

Lemma slots_status_db_ok (now : Z) (s : db) :
  db_ok s -> db_ok (slots_status now s).1.
Proof.
  intros Hok. apply slots_status_keeps; [|done].
  intros σ v. apply db_ok_one_release.
Qed.

Lemma esp32_reserve_status_db_ok (now : Z) (host : string) (s : db) :
  db_ok s -> db_ok (esp32_reserve_status now host s).1.
Proof.
  intros Hok. apply esp32_reserve_status_keeps; [|done].
  intros σ v. apply db_ok_one_release.
Qed.

Lemma hardware_sensor_db_ok (now : Z) (data : doc) (s : db) :
  db_ok s -> db_ok (hardware_sensor now data s).1.
Proof.
  intros [[Hs Hnd] Hu]. unfold hardware_sensor. destruct (negb _); [done|].
  rewrite run_bind. unfold slots_update_one at 1. rewrite run_ret.
  split; [split|done]; simpl.
  - apply update_one_Forall; [done|]. intros d. apply slot_ok_sensor.
  - rewrite update_one_ids; [done|]. intros d. apply sensor_set_id.
Qed.

(** X1.  Well-formedness of the store (every slot has a string slot_id and a
    lease start that is null, missing or a datetime, slot ids are pairwise
    distinct, every account has an email) is kept by every reservation
    endpoint, whatever the request and whatever the outcome: reserve_slot,
    slots_status, esp32_reserve_status, hardware_sensor and my_bookings. *)
Theorem db_ok_kept (s : db) :
  db_ok s ->
  (forall now data, db_ok (reserve_slot now data s).1) /\
  (forall now, db_ok (slots_status now s).1) /\
  (forall now host, db_ok (esp32_reserve_status now host s).1) /\
  (forall now data, db_ok (hardware_sensor now data s).1) /\
  (forall staff_id, db_ok (my_bookings staff_id s).1).
Proof.
  intros Hok. split; [|split; [|split; [|split]]].
  - intros. by apply reserve_slot_db_ok.
  - intros. by apply slots_status_db_ok.
  - intros. by apply esp32_reserve_status_db_ok.
  - intros. by apply hardware_sensor_db_ok.
  - done.
Qed.

Lemma db_ok_kept_witness :
  (forall now data, db_ok (reserve_slot now data pool_reserved).1) /\
  (forall now, db_ok (slots_status now pool_reserved).1) /\
  (forall now host, db_ok (esp32_reserve_status now host pool_reserved).1) /\
  (forall now data, db_ok (hardware_sensor now data pool_reserved).1) /\
  (forall staff_id, db_ok (my_bookings staff_id pool_reserved).1).
Proof.
  apply (db_ok_kept pool_reserved).
  apply db_okb_sound. vm_compute. reflexivity.
Defined.

Lemma init_slots_empty (s : db) :
  slots_collection s = [] ->
  slots_collection (init_slots s).1 =
    [<["_id" := VOid (next_oid s)]> (initial_slot 1);
     <["_id" := VOid (N.succ (next_oid s))]> (initial_slot 2);
     <["_id" := VOid (N.succ (N.succ (next_oid s)))]> (initial_slot 3);
     <["_id" := VOid (N.succ (N.succ (N.succ (next_oid s))))]> (initial_slot 4);
     <["_id" := VOid (N.succ (N.succ (N.succ (N.succ (next_oid s)))))]>
       (initial_slot 5)].
Proof.
  intros Hempty. unfold init_slots. rewrite run_bind.
  unfold slots_count_documents at 1. rewrite Hempty. simpl. by rewrite Hempty.
Qed.

Lemma init_slots_nonempty (s : db) :
  slots_collection s <> [] -> init_slots s = (s, inr tt).
Proof.
  intros Hne. unfold init_slots. rewrite run_bind.
  unfold slots_count_documents at 1.
  destruct (slots_collection s) as [|d c]; [done|]. reflexivity.
Qed.

(** X2.  init_slots on an empty slot collection creates exactly the five slots
    S1..S5 in that order, each free (available, reserved_by null, no
    reservation_time) and well formed; on a non-empty collection it changes
    nothing; and running it a second time never changes anything. *)
Theorem init_slots_once (s : db) :
  (slots_collection s = [] ->
     (fun d => d !! "slot_id") <$> slots_collection (init_slots s).1 =
       [Some (VStr "S1"); Some (VStr "S2"); Some (VStr "S3");
        Some (VStr "S4"); Some (VStr "S5")] /\
     Forall (fun d => matches free_slot_query d = true /\
                      d !! "reservation_time" = None)
            (slots_collection (init_slots s).1) /\
     slots_ok (slots_collection (init_slots s).1)) /\
  (slots_collection s <> [] -> init_slots s = (s, inr tt)) /\
  init_slots (init_slots s).1 = ((init_slots s).1, inr tt).
Proof.
  split; [|split; [apply init_slots_nonempty|]].
  - intros Hempty. rewrite (init_slots_empty s Hempty).
    split; [reflexivity|]. split.
    + repeat (constructor; [split; reflexivity|]). constructor.
    + split.
      * repeat (constructor;
                [split; [eexists; reflexivity|left; reflexivity]|]).
        constructor.
      * by_computation.
  - apply init_slots_nonempty.
    destruct (slots_collection s) as [|d c] eqn:Hc.
    + by rewrite (init_slots_empty s Hc).
    + rewrite init_slots_nonempty by (by rewrite Hc). simpl. by rewrite Hc.
Qed.

Lemma slot_has_id (c : list doc) (d : doc) :
  Forall slot_ok c -> d ∈ c -> exists sid, d !! "slot_id" = Some (VStr sid).
Proof. rewrite Forall_forall. intros H Hd. by destruct (H d Hd). Qed.

Lemma user_has_email (q : list (string * value)) (c : list doc) (user : doc) :
  users_ok c -> find_one q c = Some user -> is_Some (user !! "email").
Proof.
  unfold users_ok. rewrite Forall_forall. intros H Hf.
  apply find_one_elem in Hf as [Hin _]. by apply H.
Qed.

Lemma reserve_slot_denied (now : Z) (data : doc) (s : db) :
  find_one (staff_query (get data "staff_id")) (users_collection s) = None ->
  reserve_slot now data s =
    (s, inr (jsonify [("success", VBool false);
                      ("error", VStr "❌ Staff access only")] [] 403)).
Proof.
  intros Hu. unfold reserve_slot. rewrite run_bind. unfold users_find_one at 1.
  fold (staff_query (get data "staff_id")). by rewrite Hu.
Qed.

Lemma reserve_slot_full (now : Z) (data : doc) (s : db) (user : doc) :
  users_ok (users_collection s) ->
  find_one (staff_query (get data "staff_id")) (users_collection s) = Some user ->
  existsb (matches free_slot_query) (slots_collection s) = false ->
  reserve_slot now data s =
    (s, inr (jsonify [("success", VBool false);
                      ("error", VStr "❌ No slots available")] [] 404)).
Proof.
  intros Hok Hu Hnone. destruct (user_has_email _ _ _ Hok Hu) as [email He].
  unfold reserve_slot. rewrite run_bind. unfold users_find_one at 1.
  fold (staff_query (get data "staff_id")). rewrite Hu.
  rewrite run_bind, item_run, He, run_bind.
  unfold slots_find_one_and_update at 1. fold free_slot_query.
  rewrite find_one_and_update_none by (by apply no_match_existsb).
  cbn [fst snd]. by rewrite set_slots_same, run_ret.
Qed.



Lemma free_slots_app (c1 c2 : list doc) :
  free_slots (c1 ++ c2) = free_slots c1 ++ free_slots c2.
Proof. unfold free_slots. apply List.filter_app. Qed.

Lemma free_slots_none (c : list doc) :
  Forall (fun x => matches free_slot_query x = false) c -> free_slots c = [].
Proof.
  unfold free_slots. induction 1 as [|x c Hx Hc IH]; [done|].
  cbn [List.filter]. by rewrite Hx.
Qed.

Lemma reserved_not_free (staff_id email dept : value) (now : Z) (d : doc) :
  matches free_slot_query
    (apply_set (reserve_set staff_id email dept now) d) = false.
Proof.
  apply not_true_is_false. intros H. apply matches_free_slot in H as [H _].
  unfold get, apply_set, reserve_set in H; simpl in H.
  by simplify_map_eq.
Qed.

Lemma free_slots_after_reserve (staff_id email dept : value) (now : Z)
    (pre : list doc) (d : doc) (post : list doc) :
  matches free_slot_query d = true ->
  S (length (free_slots
               (pre ++ apply_set (reserve_set staff_id email dept now) d
                    :: post))) =
  length (free_slots (pre ++ d :: post)).
Proof.
  intros Hd. rewrite !free_slots_app, !length_app. unfold free_slots at 2 4.
  cbn [List.filter]. rewrite Hd, reserved_not_free. simpl. lia.
Qed.

(** X4.  A reservation that answers 201 takes the first free slot in store
    order: the slots before it are not free, every other slot is untouched,
    the chosen slot changes only in available, reserved_by, staff_email,
    department, reservation_time and last_updated (available becomes false,
    reserved_by the staff id, reservation_time the request time), the
    response names that slot, the number of free slots drops by exactly one
    and the accounts are unchanged. *)
Theorem reserve_slot_takes_first_free
    (now : Z) (data : doc) (s s' : db) (r : response) :
  reserve_slot now data s = (s', inr r) -> status_code r = 201 ->
  exists pre d d' post,
    slots_collection s = pre ++ d :: post /\
    slots_collection s' = pre ++ d' :: post /\
    Forall (fun x => matches free_slot_query x = false) pre /\
    matches free_slot_query d = true /\
    (forall k, k ∉ ["available"; "reserved_by"; "staff_email"; "department";
                    "reservation_time"; "last_updated"] -> d' !! k = d !! k) /\
    d' !! "available" = Some (VBool false) /\
    d' !! "reserved_by" = Some (get data "staff_id") /\
    d' !! "reservation_time" = Some (VTime now) /\
    body r !! "slot_id" = d !! "slot_id" /\
    S (length (free_slots (slots_collection s'))) =
      length (free_slots (slots_collection s)) /\
    users_collection s' = users_collection s.
Proof.
  unfold reserve_slot. rewrite run_bind. unfold users_find_one at 1.
  destruct (find_one _ (users_collection s)) as [user|]; [|by intros [= <- <-]].
  rewrite run_bind, item_run.
  destruct (user !! "email") as [email|]; [|done].
  rewrite run_bind. unfold slots_find_one_and_update at 1.
  fold free_slot_query.
  fold (reserve_set (get data "staff_id") email (get user "department") now).
  destruct (find_one_and_update _ _ (slots_collection s)) as [c' [slot|]] eqn:E;
    cbn [fst snd]; [|by intros [= <- <-]].
  apply find_one_and_update_split in E
    as (pre & d & post & Hc & Hpre & Hd & -> & ->).
  rewrite run_bind, item_run, reserve_set_lookup by decide_keys.
  destruct (d !! "slot_id") as [sid|] eqn:Hsid; [|done].
  rewrite run_bind. unfold bookings_insert_one at 1. rewrite run_ret.
  intros [= <- <-] _.
  pose proof (free_slots_after_reserve (get data "staff_id") email
                (get user "department") now pre d post Hd) as Hcount.
  eexists pre, d, _, post. split; [exact Hc|]. split; [reflexivity|].
  split; [exact Hpre|]. split; [exact Hd|].
  split; [intros k Hk; by apply reserve_set_lookup|].
  split; [unfold apply_set, reserve_set; simpl; by simplify_map_eq|].
  split; [unfold apply_set, reserve_set; simpl; by simplify_map_eq|].
  split; [unfold apply_set, reserve_set; simpl; by simplify_map_eq|].
  split; [cbn [body jsonify]; by simplify_map_eq|].
  split; [|done].
  cbn [slots_collection set_slots]. rewrite Hc. exact Hcount.
Qed.

Lemma reserve_slot_takes_first_free_witness :
  exists pre d d' post,
    slots_collection pool_reserved = pre ++ d :: post /\
    slots_collection (reserve_slot 7 reserve_request pool_reserved).1 =
      pre ++ d' :: post /\
    Forall (fun x => matches free_slot_query x = false) pre /\
    matches free_slot_query d = true /\
    (forall k, k ∉ ["available"; "reserved_by"; "staff_email"; "department";
                    "reservation_time"; "last_updated"] -> d' !! k = d !! k) /\
    d' !! "available" = Some (VBool false) /\
    d' !! "reserved_by" = Some (get reserve_request "staff_id") /\
    d' !! "reservation_time" = Some (VTime 7) /\
    body (response_of (reserve_slot 7 reserve_request pool_reserved))
      !! "slot_id" = d !! "slot_id" /\
    S (length (free_slots
                 (slots_collection
                    (reserve_slot 7 reserve_request pool_reserved).1))) =
      length (free_slots (slots_collection pool_reserved)) /\
    users_collection (reserve_slot 7 reserve_request pool_reserved).1 =
      users_collection pool_reserved.
Proof.
  apply (reserve_slot_takes_first_free 7 reserve_request pool_reserved).
  - vm_compute. reflexivity.
  - vm_compute. reflexivity.
Defined.

Lemma no_free_slot (c : list doc) :
  existsb (matches free_slot_query) c = false <-> length (free_slots c) = 0%nat.
Proof.
  unfold free_slots. induction c as [|x c IH]; [done|].
  cbn [existsb List.filter]. destruct (matches free_slot_query x); simpl.
  - split; intros; discriminate.
  - exact IH.
Qed.

(** X5.  For a known staff id on a well-formed store, a sequence of reservation
    requests with no status read in between is answered 201 exactly as many
    times as there are free slots (or requests, if fewer) and 404 for every
    request after that. *)
Theorem reserve_until_full (data : doc) (ts : list Z) (s : db) (user : doc) :
  db_ok s ->
  find_one (staff_query (get data "staff_id")) (users_collection s) = Some user ->
  reserve_codes data ts s =
    replicate (min (length (free_slots (slots_collection s))) (length ts)) 201 ++
    replicate (length ts - length (free_slots (slots_collection s))) 404.
Proof.
  revert s. induction ts as [|t ts IH]; intros s Hok Hu.
  - simpl. by rewrite Nat.min_0_r.
  - cbn [reserve_codes length].
    destruct (existsb (matches free_slot_query) (slots_collection s)) eqn:Hfree.
    + destruct (first_match_split _ _ Hfree) as (pre & d & post & Hc & Hpre & Hd).
      destruct (user_has_email _ _ _ (proj2 Hok) Hu) as [email He].
      destruct (slot_has_id _ d (proj1 (proj1 Hok))) as [sid Hsid].
      { rewrite Hc. apply elem_of_app. right. by left. }
      pose proof (reserve_slot_db_ok t data s Hok) as Hok'.
      destruct (reserve_slot_success t data s user email (VStr sid) pre post d
                  Hu He Hc Hpre Hd Hsid) as (r & Hrun & Hcode & _).
      rewrite Hrun in Hok' |- *. cbn [fst snd] in Hok' |- *.
      rewrite (IH _ Hok') by exact Hu.
      cbn [slots_collection]. unfold response_of. cbn [snd]. rewrite Hcode.
      pose proof (free_slots_after_reserve (get data "staff_id") email
                    (get user "department") t pre d post Hd) as Hcount.
      rewrite Hc, <- Hcount. simpl. done.
    + rewrite (reserve_slot_full t data s user (proj2 Hok) Hu Hfree).
      cbn [fst snd]. rewrite (IH s Hok Hu).
      apply no_free_slot in Hfree. rewrite Hfree. simpl.
      by rewrite Nat.sub_0_r.
Qed.

Lemma reserve_until_full_witness :
  reserve_codes reserve_request [10; 20; 30; 40; 50; 60] pool_reserved =
    replicate (min (length (free_slots (slots_collection pool_reserved)))
                   (length [10; 20; 30; 40; 50; 60])) 201 ++
    replicate (length [10; 20; 30; 40; 50; 60] -
               length (free_slots (slots_collection pool_reserved))) 404.
Proof.
  apply (reserve_until_full reserve_request [10; 20; 30; 40; 50; 60]
           pool_reserved staff_cse101).
  - apply db_okb_sound. vm_compute. reflexivity.
  - vm_compute. reflexivity.
Defined.

Lemma release_keeps_bookings (σ : db) (v : value) :
  bookings_collection
    (set_slots σ (update_one [("slot_id", v)] release_set
                    (slots_collection σ)).1) = bookings_collection σ.
Proof. reflexivity. Qed.

(** X6.  The booking ledger is append-only: reserve_slot either leaves it
    unchanged or appends exactly one booking, and then it answers 201;
    slots_status, esp32_reserve_status, hardware_sensor and my_bookings
    never change it. No endpoint removes or rewrites a booking, also not
    when a lease is released. *)
Theorem ledger_append_only (s : db) :
  (forall now data,
     bookings_collection (reserve_slot now data s).1 = bookings_collection s \/
     exists b r,
       bookings_collection (reserve_slot now data s).1 =
         bookings_collection s ++ [b] /\
       (reserve_slot now data s).2 = inr r /\ status_code r = 201) /\
  (forall now,
     bookings_collection (slots_status now s).1 = bookings_collection s) /\
  (forall now host,
     bookings_collection (esp32_reserve_status now host s).1 =
     bookings_collection s) /\
  (forall now data,
     bookings_collection (hardware_sensor now data s).1 =
     bookings_collection s) /\
  (forall staff_id,
     bookings_collection (my_bookings staff_id s).1 = bookings_collection s).
Proof.
  split; [|split; [|split; [|split]]].
  - intros now data. by destruct (reserve_slot_state now data s) as (_ & _ & H).
  - intros now.
    apply (slots_status_keeps
             (fun σ => bookings_collection σ = bookings_collection s)); [|done].
    intros σ v Hσ. by rewrite release_keeps_bookings.
  - intros now host.
    apply (esp32_reserve_status_keeps
             (fun σ => bookings_collection σ = bookings_collection s)); [|done].
    intros σ v Hσ. by rewrite release_keeps_bookings.
  - intros now data. unfold hardware_sensor. destruct (negb _); [done|].
    rewrite run_bind. unfold slots_update_one at 1. by rewrite run_ret.
  - done.
Qed.

(** ** The status views: totals, store effect, presentation and composition *)

Lemma slots_status_response (now : Z) (s : db) :
  tz_aware s = true -> db_ok s ->
  exists ys,
    slots_status now s =
      (set_slots s (release_if_expired now <$> slots_collection s),
       inr (jsonify
              [("success", VBool true);
               ("total_slots", VInt (Z.of_nat (length ys)));
               ("total_available", VInt (count_status "AVAILABLE" ys));
               ("total_reserved", VInt (count_status "RESERVED" ys));
               ("timestamp", VTime now);
               ("auto_refresh", VBool true);
               ("refresh_interval", VInt 1000)] ys 200)) /\
    Forall2 (status_row_spec now) (snapshot (slots_collection s)) ys.
Proof.
  intros Haware [[Hok Hnd] Hu].
  destruct (mapM_run (slots_status_slot now) (release_step now)
              (status_row_spec now)
              (fun σ => users_ok (users_collection σ) /\ tz_aware σ = true)
              (snapshot (slots_collection s)) s (conj Hu Haware))
    as [ys [Hrun [HF _]]].
  { intros x σ Hx [Hσ Hσa].
    split; [by rewrite release_step_users, release_step_aware|].
    apply status_slot_run; [done| |done].
    apply elem_of_snapshot in Hx as [d [Hd ->]].
    apply slot_ok_delete_id. rewrite Forall_forall in Hok. by apply Hok. }
  exists ys. split; [|exact HF].
  unfold slots_status. rewrite run_bind. unfold slots_find at 1.
  rewrite run_bind, Hrun, run_ret.
  rewrite fold_release by done. by rewrite release_snapshot by done.
Qed.

Lemma status_row_reserved (now : Z) (x e : doc) :
  status_row_spec now x e ->
  (get e "status" = VStr "RESERVED" <-> lease_active now x = true) /\
  (get e "status" = VStr "AVAILABLE" <-> lease_active now x = false).
Proof.
  intros [_ H]. unfold lease_active, get.
  destruct (remaining_seconds now x) as [r|].
  - destruct (0 <? r).
    + destruct H as [-> _]. simpl. split; split; done.
    + destruct H as [-> _]. simpl. split; split; done.
  - rewrite H. simpl. split; split; done.
Qed.

Lemma count_status_rows (now : Z) (xs ys : list doc) :
  Forall2 (status_row_spec now) xs ys ->
  count_status "RESERVED" ys =
    Z.of_nat (length (List.filter (lease_active now) xs)) /\
  count_status "AVAILABLE" ys =
    Z.of_nat (length xs) - Z.of_nat (length (List.filter (lease_active now) xs)).
Proof.
  unfold count_status. induction 1 as [|x y xs ys Hxy HF [IH1 IH2]]; [done|].
  destruct (status_row_reserved now x y Hxy) as [Hres Hav].
  cbn [List.filter length].
  destruct (lease_active now x) eqn:E.
  - rewrite (bool_decide_eq_true_2 _ (proj2 Hres eq_refl)).
    rewrite bool_decide_eq_false_2.
    2: { intros Ha. apply Hav in Ha. congruence. }
    cbn [length]. split; lia.
  - rewrite (bool_decide_eq_true_2 _ (proj2 Hav eq_refl)).
    rewrite bool_decide_eq_false_2.
    2: { intros Ha. apply Hres in Ha. congruence. }
    cbn [length]. split; lia.
Qed.

Lemma filter_length_Permutation {A} (P : A -> bool) (l l' : list A) :
  l ≡ₚ l' -> length (List.filter P l) = length (List.filter P l').
Proof.
  induction 1 as [|x l l' _ IH|x y l|l l' l'' _ IH1 _ IH2]; simpl.
  - done.
  - destruct (P x); simpl; by rewrite IH.
  - by destruct (P x), (P y).
  - by rewrite IH1.
Qed.

Lemma filter_length_fmap {A B} (f : A -> B) (P : B -> bool) (l : list A) :
  length (List.filter P (f <$> l)) = length (List.filter (fun x => P (f x)) l).
Proof.
  induction l as [|x l IH]; [done|]. rewrite fmap_cons. simpl.
  destruct (P (f x)); simpl; by rewrite IH.
Qed.

Lemma lease_active_delete_id (now : Z) (d : doc) :
  lease_active now (delete "_id" d) = lease_active now d.
Proof. unfold lease_active. by rewrite remaining_seconds_delete_id. Qed.

Lemma snapshot_length (c : list doc) : length (snapshot c) = length c.
Proof.
  unfold snapshot, project_out. rewrite length_fmap, find_all.
  apply Permutation_length, merge_sort_Permutation.
Qed.

Lemma snapshot_active (now : Z) (c : list doc) :
  length (List.filter (lease_active now) (snapshot c)) =
  length (List.filter (lease_active now) c).
Proof.
  unfold snapshot, project_out. rewrite filter_length_fmap, find_all.
  erewrite filter_length_Permutation by apply merge_sort_Permutation.
  f_equal. apply List.filter_ext. intros d. apply lease_active_delete_id.
Qed.

(** X7.  Where stored dates come back aware (a tz_aware connection), on a
    well-formed store slots_status returns one row per stored slot,
    total_slots is the number of slots, total_reserved is the number of
    slots whose lease is still active at the request time, and
    total_available is the difference of the two. *)
Theorem slots_status_totals (now : Z) (s : db) :
  tz_aware s = true -> db_ok s ->
  exists r,
    (slots_status now s).2 = inr r /\
    length (rows r) = length (slots_collection s) /\
    body r !! "total_slots" =
      Some (VInt (Z.of_nat (length (slots_collection s)))) /\
    body r !! "total_reserved" =
      Some (VInt (Z.of_nat (length (List.filter (lease_active now)
                                      (slots_collection s))))) /\
    body r !! "total_available" =
      Some (VInt (Z.of_nat (length (slots_collection s)) -
                  Z.of_nat (length (List.filter (lease_active now)
                                      (slots_collection s))))).
Proof.
  intros Haware Hok.
  destruct (slots_status_response now s Haware Hok) as [ys [-> HF]].
  destruct (count_status_rows now _ _ HF) as [Hres Hav].
  assert (length ys = length (slots_collection s)) as Hlen.
  { rewrite <- (Forall2_length _ _ _ HF). apply snapshot_length. }
  rewrite snapshot_active, snapshot_length in *.
  eexists. split; [reflexivity|]. cbn [rows body jsonify].
  split; [done|].
  split; [simplify_map_eq; by rewrite Hlen|].
  split; simplify_map_eq; congruence.
Qed.

Lemma slots_status_totals_witness :
  exists r,
    (slots_status 475000000 (aware pool_reserved)).2 = inr r /\
    length (rows r) = length (slots_collection (aware pool_reserved)) /\
    body r !! "total_slots" =
      Some (VInt (Z.of_nat (length (slots_collection (aware pool_reserved))))) /\
    body r !! "total_reserved" =
      Some (VInt (Z.of_nat (length (List.filter (lease_active 475000000)
                                      (slots_collection (aware pool_reserved)))))) /\
    body r !! "total_available" =
      Some (VInt (Z.of_nat (length (slots_collection (aware pool_reserved))) -
                  Z.of_nat (length (List.filter (lease_active 475000000)
                                      (slots_collection (aware pool_reserved)))))).
Proof.
  apply (slots_status_totals 475000000 (aware pool_reserved)).
  - reflexivity.
  - apply db_okb_sound. vm_compute. reflexivity.
Defined.

Lemma release_nothing (now : Z) (c : list doc) :
  (forall d, d ∈ c -> lease_expired now d = false) ->
  release_if_expired now <$> c = c.
Proof.
  intros H. etrans; [|apply list_fmap_id]. apply list_fmap_ext.
  intros i d Hd. unfold release_if_expired.
  by rewrite (H d) by (by eapply list_elem_of_lookup_2).
Qed.

(** X8.  A status read writes to the store only where it can evaluate the
    leases. On a well-formed store, where stored dates come back aware (a
    tz_aware connection), slots_status leaves exactly the store in which
    every slot whose lease has expired is released and every other slot is
    untouched, esp32_reserve_status leaves the same store, and when no lease
    has expired the read changes nothing. Where stored dates come back
    naive, as over the connection the code builds, neither view writes
    anything: the store after the read is the store before it. *)
Theorem status_read_effect (now : Z) (host : string) (s : db) :
  db_ok s ->
  (tz_aware s = true ->
   (slots_status now s).1 =
     set_slots s (release_if_expired now <$> slots_collection s) /\
   (esp32_reserve_status now host s).1 = (slots_status now s).1 /\
   (forall d, d ∈ slots_collection s -> lease_expired now d = false ->
              d ∈ slots_collection (slots_status now s).1) /\
   (forall d, d ∈ slots_collection s -> lease_expired now d = true ->
              apply_set release_set d
                ∈ slots_collection (slots_status now s).1) /\
   ((forall d, d ∈ slots_collection s -> lease_expired now d = false) ->
    (slots_status now s).1 = s)) /\
  (tz_aware s = false ->
   (slots_status now s).1 = s /\
   (esp32_reserve_status now host s).1 = s).
Proof.
  intros Hok. split; last first.
  { intros Hnaive. split.
    - by apply slots_status_naive_same.
    - by apply esp32_reserve_status_naive_same. }
  intros Haware.
  destruct (slots_status_run now s Haware Hok) as [r [-> _]].
  destruct (esp32_reserve_status_run now host s Haware (proj1 Hok))
    as [r' [-> _]].
  cbn [fst slots_collection set_slots].
  split; [done|]. split; [done|]. split; [|split].
  - intros d Hd He. apply list_elem_of_fmap. exists d. split; [|done].
    unfold release_if_expired. by rewrite He.
  - intros d Hd He. apply list_elem_of_fmap. exists d. split; [|done].
    unfold release_if_expired. by rewrite He.
  - intros H. rewrite release_nothing by done. apply set_slots_same.
Qed.

Lemma status_read_effect_witness :
  (tz_aware (aware pool_reserved) = true ->
   (slots_status 600000000 (aware pool_reserved)).1 =
     set_slots (aware pool_reserved)
       (release_if_expired 600000000
          <$> slots_collection (aware pool_reserved)) /\
   (esp32_reserve_status 600000000 "esp32" (aware pool_reserved)).1 =
     (slots_status 600000000 (aware pool_reserved)).1 /\
   (forall d, d ∈ slots_collection (aware pool_reserved) ->
              lease_expired 600000000 d = false ->
              d ∈ slots_collection
                    (slots_status 600000000 (aware pool_reserved)).1) /\
   (forall d, d ∈ slots_collection (aware pool_reserved) ->
              lease_expired 600000000 d = true ->
              apply_set release_set d
                ∈ slots_collection
                    (slots_status 600000000 (aware pool_reserved)).1) /\
   ((forall d, d ∈ slots_collection (aware pool_reserved) ->
               lease_expired 600000000 d = false) ->
    (slots_status 600000000 (aware pool_reserved)).1 = aware pool_reserved)) /\
  (tz_aware (aware pool_reserved) = false ->
   (slots_status 600000000 (aware pool_reserved)).1 = aware pool_reserved /\
   (esp32_reserve_status 600000000 "esp32" (aware pool_reserved)).1
     = aware pool_reserved).
Proof.
  apply (status_read_effect 600000000 "esp32" (aware pool_reserved)).
  apply db_okb_sound. vm_compute. reflexivity.
Defined.

Lemma signal_row_presentation (now : Z) (x e : doc) :
  signal_row_spec now x e ->
  e !! "buzzer" = Some (VBool false) /\
  ((e !! "status" = Some (VStr "RESERVED") /\
    e !! "led_color" = Some (VStr "GREEN") /\ lease_active now x = true) \/
   (e !! "status" = Some (VStr "AVAILABLE") /\
    e !! "led_color" = Some (VStr "OFF") /\ lease_active now x = false)).
Proof.
  intros (_ & _ & _ & Hb & H). split; [done|]. unfold lease_active.
  destruct (remaining_seconds now x) as [r|].
  - destruct (0 <? r); [left|right]; tauto.
  - right. tauto.
Qed.

(** X9.  Where stored dates come back aware (a tz_aware connection), with
    well-formed slots the hardware feed returns one entry per slot; every
    entry has buzzer false and is either RESERVED with led_color GREEN or
    AVAILABLE with led_color OFF. *)
Theorem signal_feed_presentation (now : Z) (host : string) (s : db) :
  tz_aware s = true -> slots_ok (slots_collection s) ->
  exists r,
    (esp32_reserve_status now host s).2 = inr r /\
    length (rows r) = length (slots_collection s) /\
    Forall (fun e =>
              e !! "buzzer" = Some (VBool false) /\
              ((e !! "status" = Some (VStr "RESERVED") /\
                e !! "led_color" = Some (VStr "GREEN")) \/
               (e !! "status" = Some (VStr "AVAILABLE") /\
                e !! "led_color" = Some (VStr "OFF")))) (rows r).
Proof.
  intros Haware Hok.
  destruct (esp32_reserve_status_run now host s Haware Hok) as [r [Hr [_ HF]]].
  exists r. split; [by rewrite Hr|]. split.
  - rewrite <- (Forall2_length _ _ _ HF). apply snapshot_length.
  - apply Forall_forall. intros e He.
    apply list_elem_of_lookup in He as [i Hi].
    destruct (Forall2_lookup_r _ _ _ _ _ HF Hi) as [x [_ Hx]].
    destruct (signal_row_presentation now x e Hx) as [Hb H].
    split; [done|]. tauto.
Qed.

Lemma signal_feed_presentation_witness :
  exists r,
    (esp32_reserve_status 475000000 "esp32" (aware pool_reserved)).2 = inr r /\
    length (rows r) = length (slots_collection (aware pool_reserved)) /\
    Forall (fun e =>
              e !! "buzzer" = Some (VBool false) /\
              ((e !! "status" = Some (VStr "RESERVED") /\
                e !! "led_color" = Some (VStr "GREEN")) \/
               (e !! "status" = Some (VStr "AVAILABLE") /\
                e !! "led_color" = Some (VStr "OFF")))) (rows r).
Proof.
  apply (signal_feed_presentation 475000000 "esp32" (aware pool_reserved)).
  - reflexivity.
  - refine (proj1 (db_okb_sound (aware pool_reserved) _)).
    vm_compute. reflexivity.
Defined.

(** X10.  Where stored dates come back aware (a tz_aware connection), for every
    slot of a well-formed store the human status view and the hardware feed,
    asked at the same instant, both have an entry for the slot and agree on
    its status; when the lease is active both say RESERVED and show the same
    countdown, minutes and seconds left; when it is not, both say AVAILABLE. *)
Theorem views_agree (now : Z) (host : string) (s : db) (d : doc) :
  tz_aware s = true -> db_ok s -> d ∈ slots_collection s ->
  exists rs rh,
    (slots_status now s).2 = inr rs /\
    (esp32_reserve_status now host s).2 = inr rh /\
    (exists e, row_of rs d e) /\ (exists e, row_of rh d e) /\
    forall e e', row_of rs d e -> row_of rh d e' ->
      e !! "status" = e' !! "status" /\
      (lease_active now d = true ->
       e !! "status" = Some (VStr "RESERVED") /\
       e !! "countdown" = e' !! "countdown" /\
       e !! "time_left_min" = e' !! "time_left_min" /\
       e !! "time_left_sec" = e' !! "time_left_sec") /\
      (lease_active now d = false ->
       e !! "status" = Some (VStr "AVAILABLE")).
Proof.
  intros Haware Hok Hd.
  destruct (slots_status_run now s Haware Hok) as [rs [Hrs [_ HF]]].
  destruct (esp32_reserve_status_run now host s Haware (proj1 Hok))
    as [rh [Hrh [_ HF']]].
  destruct (rows_of_slot _ _ _ d (status_row_id now) (proj1 Hok) Hd HF) as [Hex Hall].
  destruct (rows_of_slot _ _ _ d (signal_row_id now) (proj1 Hok) Hd HF') as [Hex' Hall'].
  exists rs, rh. split; [by rewrite Hrs|]. split; [by rewrite Hrh|].
  split; [done|]. split; [done|].
  intros e e' [He Hid] [He' Hid'].
  destruct (Hall e He Hid) as [_ H].
  destruct (Hall' e' He' Hid') as (_ & _ & _ & _ & H').
  unfold lease_active. rewrite <- remaining_seconds_delete_id.
  destruct (remaining_seconds now (delete "_id" d)) as [r|].
  - destruct (0 <? r).
    + destruct H as (-> & -> & -> & ->). destruct H' as (-> & _ & -> & -> & ->).
      split; [done|]. split; [done|]. intros; discriminate.
    + destruct H as (-> & _). destruct H' as (-> & _).
      split; [done|]. split; [intros; discriminate|done].
  - rewrite H. destruct H' as (-> & _).
    split; [done|]. split; [intros; discriminate|done].
Qed.

Lemma views_agree_witness :
  exists rs rh,
    (slots_status 475000000 (aware pool_reserved)).2 = inr rs /\
    (esp32_reserve_status 475000000 "esp32" (aware pool_reserved)).2 = inr rh /\
    (exists e, row_of rs (slot_S1 (aware pool_reserved)) e) /\
    (exists e, row_of rh (slot_S1 (aware pool_reserved)) e) /\
    forall e e', row_of rs (slot_S1 (aware pool_reserved)) e ->
                 row_of rh (slot_S1 (aware pool_reserved)) e' ->
      e !! "status" = e' !! "status" /\
      (lease_active 475000000 (slot_S1 (aware pool_reserved)) = true ->
       e !! "status" = Some (VStr "RESERVED") /\
       e !! "countdown" = e' !! "countdown" /\
       e !! "time_left_min" = e' !! "time_left_min" /\
       e !! "time_left_sec" = e' !! "time_left_sec") /\
      (lease_active 475000000 (slot_S1 (aware pool_reserved)) = false ->
       e !! "status" = Some (VStr "AVAILABLE")).
Proof.
  apply (views_agree 475000000 "esp32" (aware pool_reserved)
           (slot_S1 (aware pool_reserved))).
  - reflexivity.
  - apply db_okb_sound. vm_compute. reflexivity.
  - by_computation.
Defined.

Lemma hardware_sensor_slots (now : Z) (data : doc) (s : db) :
  truthy (get data "slot_id") = true ->
  NoDup ((fun d => get d "slot_id") <$> slots_collection s) ->
  (hardware_sensor now data s).1 =
    set_slots s
      ((fun d => if bool_decide (get d "slot_id" = get data "slot_id")
                 then apply_set
                        (sensor_set (get_or data "occupied" (VBool false)) now) d
                 else d) <$> slots_collection s).
Proof.
  intros Ht Hnd. unfold hardware_sensor. rewrite Ht. cbn [negb].
  rewrite run_bind. unfold slots_update_one at 1. rewrite run_ret.
  cbn [fst]. f_equal.
  exact (update_one_by_id (get data "slot_id")
           (sensor_set (get_or data "occupied" (VBool false)) now)
           (slots_collection s) Hnd).
Qed.

Lemma remaining_seconds_sensor (occupied : value) (t now : Z) (d : doc) :
  remaining_seconds now (apply_set (sensor_set occupied t) d) =
  remaining_seconds now d.
Proof.
  unfold remaining_seconds, get. by rewrite sensor_set_lookup.
Qed.

(** X11.  Where stored dates come back aware (a tz_aware connection), a sensor
    report for an existing slot shows in the hardware feed as
    hardware_occupied (the reported value, false when the request has none)
    and changes nothing else the feed says about the slot: status, led_color
    and available are the same as without the report, so an occupied sensor
    never makes a slot unavailable. *)
Theorem sensor_report_in_signal_feed
    (now1 now2 : Z) (host : string) (data : doc) (s : db) (d : doc) :
  tz_aware s = true ->
  db_ok s -> truthy (get data "slot_id") = true ->
  d ∈ slots_collection s -> get d "slot_id" = get data "slot_id" ->
  exists r0 r1,
    (esp32_reserve_status now2 host s).2 = inr r0 /\
    (esp32_reserve_status now2 host (hardware_sensor now1 data s).1).2 = inr r1 /\
    (exists e1, row_of r1 d e1) /\
    forall e0 e1, row_of r0 d e0 -> row_of r1 d e1 ->
      e1 !! "hardware_occupied" = Some (get_or data "occupied" (VBool false)) /\
      e1 !! "status" = e0 !! "status" /\
      e1 !! "led_color" = e0 !! "led_color" /\
      e1 !! "available" = e0 !! "available".
Proof.
  intros Haware Hok Ht Hd Hid.
  set (occupied := get_or data "occupied" (VBool false)).
  set (d1 := apply_set (sensor_set occupied now1) d).
  pose proof (hardware_sensor_db_ok now1 data s Hok) as Hok1.
  pose proof (hardware_sensor_slots now1 data s Ht (proj2 (proj1 Hok))) as Hs1.
  fold occupied in Hs1.
  assert (d1 ∈ slots_collection (hardware_sensor now1 data s).1) as Hd1.
  { rewrite Hs1. cbn [slots_collection set_slots]. apply list_elem_of_fmap.
    exists d. split; [|done]. by rewrite bool_decide_eq_true_2. }
  assert (d1 !! "slot_id" = d !! "slot_id") as Hid1
    by (unfold d1; by rewrite sensor_set_lookup).
  assert (tz_aware (hardware_sensor now1 data s).1 = true) as Haware1
    by (by rewrite Hs1).
  destruct (esp32_reserve_status_run now2 host s Haware (proj1 Hok))
    as [r0 [Hr0 [_ HF0]]].
  destruct (esp32_reserve_status_run now2 host _ Haware1 (proj1 Hok1))
    as [r1 [Hr1 [_ HF1]]].
  destruct (rows_of_slot _ _ _ d (signal_row_id now2) (proj1 Hok) Hd HF0)
    as [_ Hall0].
  destruct (rows_of_slot _ _ _ d1 (signal_row_id now2) (proj1 Hok1) Hd1 HF1)
    as [[e1 [He1 Hide1]] Hall1].
  exists r0, r1. split; [by rewrite Hr0|]. split; [by rewrite Hr1|].
  split. { exists e1. split; [done|congruence]. }
  intros e0 e [He0 Hid0] [He Hide].
  destruct (Hall0 e0 He0 Hid0) as (_ & Ha0 & _ & _ & H0).
  destruct (Hall1 e He ltac:(congruence)) as (_ & Ha & Hh & _ & H).
  rewrite remaining_seconds_delete_id in H0, H.
  unfold d1 in H. rewrite remaining_seconds_sensor in H.
  split.
  { rewrite Hh. unfold get_or. rewrite lookup_delete_ne by done.
    unfold d1, apply_set, sensor_set; simpl. by simplify_map_eq. }
  assert (e !! "available" = e0 !! "available") as Hav.
  { rewrite Ha, Ha0. unfold get_or. rewrite !lookup_delete_ne by done.
    unfold d1. by rewrite sensor_set_lookup. }
  destruct (remaining_seconds now2 d) as [r|].
  - destruct (0 <? r).
    + destruct H0 as (-> & -> & _). by destruct H as (-> & -> & _).
    + destruct H0 as (-> & -> & _). by destruct H as (-> & -> & _).
  - destruct H0 as (-> & ->). by destruct H as (-> & ->).
Qed.

Lemma sensor_report_in_signal_feed_witness :
  exists r0 r1,
    (esp32_reserve_status 200 "esp32" (aware pool_reserved)).2 = inr r0 /\
    (esp32_reserve_status 200 "esp32"
       (hardware_sensor 100 (sensor_request "S1" true) (aware pool_reserved)).1).2
      = inr r1 /\
    (exists e1, row_of r1 (slot_S1 (aware pool_reserved)) e1) /\
    forall e0 e1, row_of r0 (slot_S1 (aware pool_reserved)) e0 ->
                  row_of r1 (slot_S1 (aware pool_reserved)) e1 ->
      e1 !! "hardware_occupied" =
        Some (get_or (sensor_request "S1" true) "occupied" (VBool false)) /\
      e1 !! "status" = e0 !! "status" /\
      e1 !! "led_color" = e0 !! "led_color" /\
      e1 !! "available" = e0 !! "available".
Proof.
  apply (sensor_report_in_signal_feed 100 200 "esp32"
           (sensor_request "S1" true) (aware pool_reserved)
           (slot_S1 (aware pool_reserved))).
  - reflexivity.
  - apply db_okb_sound. vm_compute. reflexivity.
  - vm_compute. reflexivity.
  - by_computation.
  - vm_compute. reflexivity.
Defined.

Lemma reserve_slot_created (now : Z) (data : doc) (s : db) (user : doc) :
  db_ok s ->
  find_one (staff_query (get data "staff_id")) (users_collection s) = Some user ->
  existsb (matches free_slot_query) (slots_collection s) = true ->
  status_code (response_of (reserve_slot now data s)) = 201.
Proof.
  intros [[Hs Hnd] Hu] Huser Hfree.
  destruct (first_match_split _ _ Hfree) as (pre & d & post & Hc & Hpre & Hd).
  destruct (user_has_email _ _ _ Hu Huser) as [email He].
  destruct (slot_has_id _ d Hs) as [sid Hsid].
  { rewrite Hc. apply elem_of_app. right. by left. }
  destruct (reserve_slot_success now data s user email (VStr sid) pre post d
              Huser He Hc Hpre Hd Hsid) as (r & -> & Hcode & _).
  done.
Qed.

Lemma released_is_free (d : doc) :
  matches free_slot_query (apply_set release_set d) = true.
Proof.
  apply matches_free_slot. unfold get. by rewrite !release_lookup.
Qed.

(** X12.  Expired leases are released only by a status read that evaluates them:
    when every slot is taken and one lease has already expired, reserve_slot
    for a known staff id answers 404 and changes nothing. Where stored dates
    come back aware (a tz_aware connection), the same request made after one
    slots_status read is answered 201. Where they come back naive, as over
    the connection the code builds, that read ends in a TypeError and
    releases nothing, and the request made after it is still answered 404. *)
Theorem expired_lease_held_until_a_read
    (now : Z) (data : doc) (s : db) (user d : doc) :
  db_ok s ->
  find_one (staff_query (get data "staff_id")) (users_collection s) = Some user ->
  existsb (matches free_slot_query) (slots_collection s) = false ->
  d ∈ slots_collection s -> lease_expired now d = true ->
  status_code (response_of (reserve_slot now data s)) = 404 /\
  (reserve_slot now data s).1 = s /\
  (tz_aware s = true ->
   status_code (response_of (reserve_slot now data (slots_status now s).1))
     = 201) /\
  (tz_aware s = false ->
   slots_status now s = (s, inl TypeError) /\
   status_code (response_of (reserve_slot now data (slots_status now s).1))
     = 404).
Proof.
  intros Hok Huser Hfull Hd Hexp.
  rewrite (reserve_slot_full now data s user (proj2 Hok) Huser Hfull).
  split; [done|]. split; [done|]. split; last first.
  { intros Hnaive.
    rewrite (slots_status_naive now s d Hnaive Hd
               (lease_expired_truthy now d Hexp)).
    split; [done|]. cbn [fst].
    by rewrite (reserve_slot_full now data s user (proj2 Hok) Huser Hfull). }
  intros Haware.
  pose proof (slots_status_db_ok now s Hok) as Hok1.
  destruct (slots_status_run now s Haware Hok) as [r [Hr _]].
  rewrite Hr in Hok1 |- *. cbn [fst] in Hok1 |- *.
  apply (reserve_slot_created now data _ user Hok1); [exact Huser|].
  apply existsb_exists. exists (apply_set release_set d). split.
  - apply list_elem_of_In. cbn [slots_collection set_slots].
    apply list_elem_of_fmap. exists d. split; [|done].
    unfold release_if_expired. by rewrite Hexp.
  - apply released_is_free.
Qed.

Lemma expired_lease_held_until_a_read_witness :
  status_code
    (response_of (reserve_slot 900000000 reserve_request (aware pool_full)))
    = 404 /\
  (reserve_slot 900000000 reserve_request (aware pool_full)).1
    = aware pool_full /\
  (tz_aware (aware pool_full) = true ->
   status_code
     (response_of (reserve_slot 900000000 reserve_request
                     (slots_status 900000000 (aware pool_full)).1)) = 201) /\
  (tz_aware (aware pool_full) = false ->
   slots_status 900000000 (aware pool_full)
     = (aware pool_full, inl TypeError) /\
   status_code
     (response_of (reserve_slot 900000000 reserve_request
                     (slots_status 900000000 (aware pool_full)).1)) = 404).
Proof.
  apply (expired_lease_held_until_a_read 900000000 reserve_request
           (aware pool_full) staff_cse101 (slot_S1 (aware pool_full))).
  - apply db_okb_sound. vm_compute. reflexivity.
  - vm_compute. reflexivity.
  - vm_compute. reflexivity.
  - by_computation.
  - vm_compute. reflexivity.
Defined.

Lemma find_staff_none (staff_id : string) (c : list doc) :
  Forall (fun b => get b "staff_id" <> VStr staff_id) c ->
  find [("staff_id", VStr staff_id)] c = [].
Proof.
  unfold find. induction 1 as [|b c Hb Hc IH]; [done|].
  cbn [List.filter]. rewrite IH.
  destruct (matches _ b) eqn:E; [|done].
  apply matches_staff_id in E. by destruct Hb.
Qed.

(** X13.  my_bookings never changes the store; its total_bookings and the number
    of rows it returns both equal the number of stored bookings of the staff
    id capped at 20, so the total is not the size of the whole history; a
    staff id without bookings gets an empty list. *)
Theorem my_bookings_total (staff_id : string) (s : db) :
  exists r,
    my_bookings staff_id s = (s, inr r) /\
    body r !! "total_bookings" =
      Some (VInt (Z.of_nat
                    (min 20 (length (find [("staff_id", VStr staff_id)]
                                       (bookings_collection s)))))) /\
    length (rows r) =
      min 20 (length (find [("staff_id", VStr staff_id)]
                        (bookings_collection s))) /\
    (Forall (fun b => get b "staff_id" <> VStr staff_id)
            (bookings_collection s) -> rows r = []).
Proof.
  eexists. split; [reflexivity|]. cbn [body rows jsonify].
  assert (length (project_out "_id"
                    (take 20 (merge_sort (desc_by "reserved_at")
                                (find [("staff_id", VStr staff_id)]
                                   (bookings_collection s))))) =
          min 20 (length (find [("staff_id", VStr staff_id)]
                            (bookings_collection s)))) as Hlen.
  { unfold project_out. rewrite length_fmap, length_take.
    f_equal. apply Permutation_length, merge_sort_Permutation. }
  split; [simplify_map_eq; by rewrite Hlen|]. split; [exact Hlen|].
  intros Hnone.
  by rewrite (find_staff_none staff_id _ Hnone).
Qed.

(** * Properties of the accounts part *)

(** A registration run on the sample rosters: the id is stored as typed
    and marked under its lower-case form. *)
Example register_run :
  let x := register toy_hash toy_oid 5 "salt"
             (register_request " ece101@campus.edu " "123456" "staff" "ECE101")
             campus in
  status_code (match x.2 with inr r => r | inl _ => jsonify [] [] 500 end) = 201 /\
  (fun u => (get u "email", get u "staff_id", get u "department",
             get u "password")) <$> users_collection (store x.1) =
    [(VStr "cse101@campus.edu", VStr "cse101", VStr "CSE", VNull);
     (VStr "ece101@campus.edu", VStr "ECE101", VStr "ECE",
      VStr "salt$123456")] /\
  check_in "ece101" (content Staff x.1) = (true, VStr "ECE", VBool true).
Proof. vm_compute. repeat split; reflexivity. Qed.

(** ** Strings *)

Lemma contains_char_cons (c a : Ascii.ascii) (s : string) :
  contains_char c (String a s) = Ascii.eqb c a || contains_char c s.
Proof. reflexivity. Qed.

Lemma contains_char_app (c : Ascii.ascii) (s t : string) :
  contains_char c (s +:+ t) = contains_char c s || contains_char c t.
Proof.
  induction s as [|a s IH]; [done|].
  change (String a s +:+ t) with (String a (s +:+ t)).
  rewrite !contains_char_cons, IH. by rewrite orb_assoc.
Qed.

Lemma split_char_no_sep (sep : Ascii.ascii) (s : string) :
  contains_char sep s = false -> split_char sep s = [s].
Proof.
  induction s as [|a s IH]; [done|].
  rewrite contains_char_cons. intros H.
  apply orb_false_elim in H as [Ha Hs].
  cbn [split_char]. rewrite Ascii.eqb_sym, Ha. by rewrite (IH Hs).
Qed.

Lemma split_char_app (sep : Ascii.ascii) (s t : string) :
  contains_char sep s = false ->
  split_char sep (s +:+ String sep t) = s :: split_char sep t.
Proof.
  induction s as [|a s IH]; intros H.
  - simpl. by rewrite Ascii.eqb_refl.
  - rewrite contains_char_cons in H. apply orb_false_elim in H as [Ha Hs].
    change (String a s +:+ String sep t) with (String a (s +:+ String sep t)).
    cbn [split_char]. rewrite Ascii.eqb_sym, Ha.
    by rewrite (IH Hs).
Qed.

Lemma split_char_nonempty (sep : Ascii.ascii) (s : string) :
  split_char sep s <> [].
Proof.
  destruct s as [|a s]; [done|]. cbn [split_char].
  destruct (Ascii.eqb a sep); [done|]. by destruct (split_char sep s).
Qed.

Lemma split_char_head (sep : Ascii.ascii) (s h : string) (t : list string) :
  split_char sep s = h :: t -> contains_char sep h = false.
Proof.
  revert h t. induction s as [|a s IH]; intros h t H.
  - by inversion H.
  - cbn [split_char] in H. destruct (Ascii.eqb a sep) eqn:E.
    + by inversion H.
    + destruct (split_char sep s) as [|h' t'] eqn:Es.
      * inversion H; subst. rewrite contains_char_cons.
        by rewrite Ascii.eqb_sym, E.
      * inversion H; subst. rewrite contains_char_cons.
        rewrite Ascii.eqb_sym, E. simpl. by eapply IH.
Qed.

Lemma split_char_one (sep : Ascii.ascii) (s b : string) :
  split_char sep s = [b] -> s = b /\ contains_char sep b = false.
Proof.
  revert b. induction s as [|c s IH]; intros b H.
  - by inversion H.
  - cbn [split_char] in H. destruct (Ascii.eqb c sep) eqn:E.
    + inversion H as [[Hb Hs]]. by destruct (split_char_nonempty sep s).
    + destruct (split_char sep s) as [|h t] eqn:Es.
      * by destruct (split_char_nonempty sep s).
      * inversion H; subst. destruct (IH h eq_refl) as [-> Hh].
        split; [done|]. by rewrite contains_char_cons, Ascii.eqb_sym, E.
Qed.

Lemma split_char_two (sep : Ascii.ascii) (s a b : string) :
  split_char sep s = [a; b] <->
  s = a +:+ String sep b /\ contains_char sep a = false /\
  contains_char sep b = false.
Proof.
  split.
  - revert a. induction s as [|c s IH]; intros a H; [done|].
    cbn [split_char] in H. destruct (Ascii.eqb c sep) eqn:E.
    + apply Ascii.eqb_eq in E. subst c. inversion H as [[Ha Hs]]. subst.
      apply split_char_one in Hs as [-> Hb]. by repeat split.
    + destruct (split_char sep s) as [|h t] eqn:Es; [done|].
      inversion H; subst.
      destruct (IH h eq_refl) as (-> & Hh & Hb).
      split; [reflexivity|]. split; [|done].
      rewrite contains_char_cons, Ascii.eqb_sym, E. done.
  - intros (-> & Ha & Hb). rewrite split_char_app by done.
    by rewrite split_char_no_sep.
Qed.

Lemma length_append (s t : string) :
  String.length (s +:+ t) = (String.length s + String.length t)%nat.
Proof.
  induction s as [|a s IH]; [done|].
  change (String a s +:+ t) with (String a (s +:+ t)). simpl. by rewrite IH.
Qed.

(** X14.  validate_email accepts a string exactly when it has between 7 and 99
    characters and is of the form local@domain with no further '@' in either
    part and at least one '.' in the domain; nothing else is checked (the
    local part may be empty, the dot may be first or last). *)
Theorem validate_email_accepts (email : string) :
  validate_email email = true <->
  (7 <= String.length email <= 99)%nat /\
  exists local domain,
    email = local +:+ String at_sign domain /\
    contains_char at_sign local = false /\
    contains_char at_sign domain = false /\
    contains_char full_stop domain = true.
Proof.
  unfold validate_email. split.
  - destruct (String.eqb email "" || _ || _) eqn:E; [done|].
    apply orb_false_elim in E as [E E3]. apply orb_false_elim in E as [_ E2].
    apply Nat.ltb_ge in E2, E3.
    destruct (split_char at_sign email) as [|a [|b [|c t]]] eqn:Es; try done.
    intros Hdot. apply split_char_two in Es as (-> & Ha & Hb).
    split; [lia|]. by exists a, b.
  - intros ([H7 H99] & a & b & -> & Ha & Hb & Hdot).
    assert (String.eqb (a +:+ String at_sign b) "" = false) as ->.
    { apply String.eqb_neq. intros H. rewrite H in H7. simpl in H7. lia. }
    rewrite (proj2 (Nat.ltb_ge _ _) H7), (proj2 (Nat.ltb_ge _ _) H99). simpl.
    rewrite (proj2 (split_char_two at_sign _ a b)); [done|]. by repeat split.
Qed.

(** ** The handler monad over the world *)

Lemma wrun_bind {A B} (m : W A) (f : A -> W B) (w : world) :
  (m ≫= f) w = match m w with
               | (w', inr a) => f a w'
               | (w', inl e) => (w', inl e)
               end.
Proof. reflexivity. Qed.

Lemma wrun_ret {A} (a : A) (w : world) : (mret a : W A) w = (w, inr a).
Proof. reflexivity. Qed.

Lemma set_store_same (w : world) : set_store w (store w) = w.
Proof. by destruct w. Qed.

Lemma lower_char_idemp (c : Ascii.ascii) :
  lower_char (lower_char c) = lower_char c.
Proof. by destruct c as [[] [] [] [] [] [] [] []]. Qed.

Lemma lower_idemp (s : string) : lower (lower s) = lower s.
Proof.
  induction s as [|c s IH]; [done|]. simpl. by rewrite lower_char_idemp, IH.
Qed.

Lemma check_id_present (k : roster) (id : string) (w : world) :
  file_of k w <> FileMissing ->
  check_id k id w = (w, inr (check_in (lower id) (content k w))).
Proof.
  intros Hf. unfold check_id, content. rewrite wrun_bind.
  unfold load_database at 1. by destruct (file_of k w).
Qed.

Lemma mark_registered_present (k : roster) (id : string) (w : world) :
  file_of k w <> FileMissing ->
  mark_registered k id w =
    match mark_in (lower id) (content k w) with
    | Some d' => if fs_writable w
                 then (set_file k (FileContent d') w, inr true)
                 else (w, inr false)
    | None => (w, inr false)
    end.
Proof.
  intros Hf. unfold mark_registered, content. rewrite wrun_bind.
  unfold load_database at 1.
  destruct (file_of k w) as [| |d]; [done|done|].
  destruct (mark_in (lower id) d); [|done]. reflexivity.
Qed.

Lemma check_in_found (id : string) (d : list (string * gmap string doc))
    (dept reg : value) :
  check_in id d = (true, dept, reg) ->
  exists pre department id_list record post,
    d = pre ++ (department, id_list) :: post /\
    Forall (fun e => e.2 !! id = None) pre /\
    id_list !! id = Some record /\
    dept = VStr department /\
    reg = get_or record "registered" (VBool false).
Proof.
  induction d as [|[department id_list] d IH]; [done|].
  cbn [check_in]. destruct (id_list !! id) as [record|] eqn:E.
  - intros [= <- <-]. by exists [], department, id_list, record, d.
  - intros H. destruct (IH H) as (pre & dp & il & rc & post & -> & Hpre & Hl & -> & ->).
    exists ((department, id_list) :: pre), dp, il, rc, post.
    repeat split; try done. by constructor.
Qed.

Lemma check_in_split (id : string) (pre post : list (string * gmap string doc))
    (department : string) (id_list : gmap string doc) (record : doc) :
  Forall (fun e => e.2 !! id = None) pre ->
  id_list !! id = Some record ->
  check_in id (pre ++ (department, id_list) :: post) =
    (true, VStr department, get_or record "registered" (VBool false)).
Proof.
  intros Hpre Hl. induction Hpre as [|[dp il] pre Hx Hpre IH]; simpl.
  - by rewrite Hl.
  - simpl in Hx. by rewrite Hx.
Qed.

Lemma mark_in_split (id : string) (pre post : list (string * gmap string doc))
    (department : string) (id_list : gmap string doc) (record : doc) :
  Forall (fun e => e.2 !! id = None) pre ->
  id_list !! id = Some record ->
  mark_in id (pre ++ (department, id_list) :: post) =
    Some (pre ++ (department,
                  <[id := <["registered" := VBool true]> record]> id_list)
              :: post).
Proof.
  intros Hpre Hl. induction Hpre as [|[dp il] pre Hx Hpre IH]; simpl.
  - by rewrite Hl.
  - simpl in Hx. by rewrite Hx, IH.
Qed.

Lemma check_in_not_found (id : string) (d : list (string * gmap string doc)) :
  (check_in id d).1.1 = false ->
  check_in id d = (false, VNull, VBool false) /\ mark_in id d = None.
Proof.
  induction d as [|[department id_list] d IH]; [done|].
  cbn [check_in mark_in]. destruct (id_list !! id); [done|].
  intros H. destruct (IH H) as [-> ->]. done.
Qed.

Lemma check_in_other (id id' : string) (pre post : list (string * gmap string doc))
    (department : string) (id_list : gmap string doc) (record : doc) :
  id' <> id ->
  check_in id' (pre ++ (department, <[id := record]> id_list) :: post) =
  check_in id' (pre ++ (department, id_list) :: post).
Proof.
  intros Hne. induction pre as [|[dp il] pre IH]; simpl.
  - by rewrite lookup_insert_ne.
  - by rewrite IH.
Qed.

(** X15.  The id lookup in the JSON files is case-insensitive on the query only:
    looking up an id and looking up its lower-case form give the same
    result; a found entry is one stored in the file under the lower-cased
    id, reported with its department and its registered flag (false when
    absent); and no query ever reaches an entry whose key in the file is not
    in lower case. *)
Theorem check_id_lower_case (k : roster) (id : string) (w : world) :
  check_id k (lower id) w = check_id k id w /\
  (forall w' dept reg,
     check_id k id w = (w', inr (true, dept, reg)) ->
     exists department id_list record,
       (department, id_list) ∈ content k w' /\
       dept = VStr department /\
       id_list !! lower id = Some record /\
       reg = get_or record "registered" (VBool false)) /\
  (forall key, lower key <> key ->
     forall id', lower id' <> key).
Proof.
  split; [|split].
  - unfold check_id. rewrite !wrun_bind.
    destruct (load_database k w) as [w' [e|d]]; [done|].
    by rewrite lower_idemp.
  - intros w' dept reg. unfold check_id. rewrite wrun_bind.
    unfold load_database at 1.
    assert (forall d, check_in (lower id) d = (true, dept, reg) ->
              exists department id_list record,
                (department, id_list) ∈ d /\ dept = VStr department /\
                id_list !! lower id = Some record /\
                reg = get_or record "registered" (VBool false)) as Hin.
    { intros d Hd.
      apply check_in_found in Hd
        as (pre & dp & il & rc & post & -> & _ & Hl & -> & ->).
      exists dp, il, rc. split; [|done].
      apply elem_of_app. right. by left. }
    destruct (file_of k w) as [| |d] eqn:Hf.
    + destruct (fs_writable w); [|done].
      rewrite wrun_ret. intros [= <- H].
      unfold content. destruct k; simpl; by apply Hin.
    + rewrite wrun_ret. by intros [= <- H].
    + rewrite wrun_ret. intros [= <- H]. unfold content. rewrite Hf.
      by apply Hin.
  - intros key Hkey id' <-. by rewrite lower_idemp in Hkey.
Qed.

Lemma file_of_set_file (k : roster) (f : json_file) (w : world) :
  file_of k (set_file k f w) = f.
Proof. by destruct k. Qed.

Lemma content_set_file (k : roster) (d : list (string * gmap string doc))
    (w : world) :
  content k (set_file k (FileContent d) w) = d.
Proof. unfold content. by rewrite file_of_set_file. Qed.

Lemma store_set_file (k : roster) (f : json_file) (w : world) :
  store (set_file k f w) = store w.
Proof. by destruct k. Qed.

Lemma writable_set_file (k : roster) (f : json_file) (w : world) :
  fs_writable (set_file k f w) = fs_writable w.
Proof. by destruct k. Qed.

Lemma file_of_set_other (k : roster) (f : json_file) (w : world) :
  file_of (other k) (set_file k f w) = file_of (other k) w.
Proof. by destruct k. Qed.

Lemma mark_registered_found (k : roster) (id : string) (w : world)
    (dept reg : value) :
  file_of k w <> FileMissing -> fs_writable w = true ->
  check_in (lower id) (content k w) = (true, dept, reg) ->
  exists w',
    mark_registered k id w = (w', inr true) /\
    file_of k w' <> FileMissing /\
    check_in (lower id) (content k w') = (true, dept, VBool true) /\
    (forall id', lower id' <> lower id ->
                 check_in (lower id') (content k w') =
                 check_in (lower id') (content k w)) /\
    store w' = store w /\
    file_of (other k) w' = file_of (other k) w.
Proof.
  intros Hf Hw Hc.
  apply check_in_found in Hc
    as (pre & dp & il & rc & post & Hd & Hpre & Hl & -> & ->).
  rewrite mark_registered_present by done. rewrite Hd, Hw.
  rewrite (mark_in_split _ pre post dp il rc Hpre Hl).
  eexists. split; [reflexivity|].
  split; [by rewrite file_of_set_file|].
  rewrite content_set_file.
  split.
  { rewrite (check_in_split _ pre post dp _ (<["registered":=VBool true]> rc) Hpre)
      by apply lookup_insert_eq.
    unfold get_or. by rewrite lookup_insert_eq. }
  split; [intros id' Hne; by apply check_in_other|].
  split; [apply store_set_file|apply file_of_set_other].
Qed.

(** X16.  When the file exists and can be written, marking an id that the lookup
    finds succeeds, and afterwards the lookup of that id reports the same
    department with registered = true; the lookup of every id with a
    different lower-case form is unchanged, and neither the database nor the
    other JSON file is touched. *)
Theorem mark_then_check (k : roster) (id : string) (w : world)
    (dept reg : value) :
  file_of k w <> FileMissing -> fs_writable w = true ->
  check_id k id w = (w, inr (true, dept, reg)) ->
  exists w',
    mark_registered k id w = (w', inr true) /\
    check_id k id w' = (w', inr (true, dept, VBool true)) /\
    (forall id', lower id' <> lower id ->
                 (check_id k id' w').2 = (check_id k id' w).2) /\
    store w' = store w /\
    file_of (other k) w' = file_of (other k) w.
Proof.
  intros Hf Hw Hc. rewrite check_id_present in Hc by done.
  injection Hc as Hc.
  destruct (mark_registered_found k id w dept reg Hf Hw Hc)
    as (w' & Hm & Hf' & Hc' & Hother & Hs & Ho).
  exists w'. split; [done|].
  split; [by rewrite check_id_present, Hc'|].
  split; [|done].
  intros id' Hne. rewrite !check_id_present by done. cbn [snd].
  by rewrite Hother.
Qed.

Lemma mark_then_check_witness :
  exists w',
    mark_registered Staff "CSE101" campus = (w', inr true) /\
    check_id Staff "CSE101" w' = (w', inr (true, VStr "CSE", VBool true)) /\
    (forall id', lower id' <> lower "CSE101" ->
                 (check_id Staff id' w').2 = (check_id Staff id' campus).2) /\
    store w' = store campus /\
    file_of (other Staff) w' = file_of (other Staff) campus.
Proof.
  apply (mark_then_check Staff "CSE101" campus (VStr "CSE") (VBool false)).
  - discriminate.
  - reflexivity.
  - vm_compute. reflexivity.
Defined.

(** X17.  When the file exists, marking an id returns False and leaves the world
    unchanged if the file cannot be written or the id is in no department. *)
Theorem mark_registered_fails (k : roster) (id : string) (w : world) :
  file_of k w <> FileMissing ->
  (fs_writable w = false \/ (check_in (lower id) (content k w)).1.1 = false) ->
  mark_registered k id w = (w, inr false).
Proof.
  intros Hf H. rewrite mark_registered_present by done.
  destruct H as [->|H].
  - by destruct (mark_in (lower id) (content k w)).
  - by destruct (check_in_not_found _ _ H) as [_ ->].
Qed.

Lemma mark_registered_fails_witness :
  mark_registered Staff "nobody" campus = (campus, inr false).
Proof.
  apply (mark_registered_fails Staff "nobody" campus).
  - discriminate.
  - right. vm_compute. reflexivity.
Defined.

(** ** Registration *)

Lemma check_id_run (k : roster) (id : string) (w w1 : world)
    (o : py_exn + bool * value * value) :
  check_id k id w = (w1, o) ->
  store w1 = store w /\ fs_writable w1 = fs_writable w /\
  file_of (other k) w1 = file_of (other k) w /\
  (file_of k w <> FileMissing -> w1 = w) /\
  match o with
  | inr r => file_of k w1 <> FileMissing /\
             r = check_in (lower id) (content k w1)
  | inl e => e = OSError /\ w1 = w /\ file_of k w = FileMissing /\
             fs_writable w = false
  end.
Proof.
  unfold check_id. rewrite wrun_bind. unfold load_database, content.
  destruct (file_of k w) as [| |d] eqn:Hf.
  - destruct (fs_writable w) eqn:Hw; intros [= <- <-].
    + rewrite store_set_file, writable_set_file, file_of_set_other,
        file_of_set_file. by repeat split.
    + by repeat split.
  - intros [= <- <-]. rewrite Hf. by repeat split.
  - intros [= <- <-]. rewrite Hf. by repeat split.
Qed.

(** X18.  A lookup in a roster file either raises an uncaught OSError, which
    happens exactly when the file is missing and cannot be created and then
    changes nothing, or answers. After an answer the file exists, the
    database is unchanged, a file that existed is untouched, a missing file
    has been created by the lookup itself with the default content, and
    repeating the lookup gives the same answer and changes nothing more. An
    unreadable file is treated as an empty roster: the id is reported not
    found and marking returns False with nothing changed. *)
Theorem check_id_without_file (k : roster) (id : string) (w : world) :
  match (check_id k id w).2 with
  | inr res =>
      file_of k (check_id k id w).1 <> FileMissing /\
      check_id k id (check_id k id w).1 = ((check_id k id w).1, inr res) /\
      store (check_id k id w).1 = store w /\
      (file_of k w <> FileMissing -> (check_id k id w).1 = w) /\
      (file_of k w = FileMissing ->
       fs_writable w = true /\
       file_of k (check_id k id w).1 = FileContent (default_database k)) /\
      (file_of k w = FileCorrupt ->
       res = (false, VNull, VBool false) /\
       mark_registered k id w = (w, inr false))
  | inl e =>
      e = OSError /\ (check_id k id w).1 = w /\
      file_of k w = FileMissing /\ fs_writable w = false
  end.
Proof.
  destruct (check_id k id w) as [w1 o] eqn:Hc. cbn [fst snd].
  destruct (check_id_run _ _ _ _ _ Hc) as (Hs & Hw & Ho & Hsame & Hr).
  destruct o as [e|res]; [done|]. destruct Hr as [Hf ->].
  split; [done|]. split; [by apply check_id_present|].
  split; [done|]. split; [done|].
  revert Hc. unfold check_id, mark_registered. rewrite !wrun_bind.
  unfold load_database. destruct (file_of k w) as [| |d] eqn:Hfile.
  - destruct (fs_writable w); [|done]. intros [= <- _].
    split; [|done]. intros _. by rewrite file_of_set_file.
  - intros [= <- _]. split; [done|]. intros _. unfold content.
    by rewrite Hfile.
  - by intros [= <- _].
Qed.

Lemma mark_registered_run (k : roster) (id : string) (w : world) :
  file_of k w <> FileMissing ->
  exists w1 b,
    mark_registered k id w = (w1, inr b) /\
    store w1 = store w /\ fs_writable w1 = fs_writable w /\
    file_of (other k) w1 = file_of (other k) w /\
    file_of k w1 <> FileMissing /\
    (fs_writable w = false -> w1 = w).
Proof.
  intros Hf. rewrite mark_registered_present by done.
  destruct (mark_in (lower id) (content k w)) as [d'|].
  - destruct (fs_writable w) eqn:Hw.
    + eexists _, _. split; [reflexivity|].
      rewrite store_set_file, writable_set_file, file_of_set_other,
        file_of_set_file. by repeat split.
    + by eexists _, _.
  - by eexists _, _.
Qed.

Lemma store_set_store (w : world) (s : db) : store (set_store w s) = s.
Proof. reflexivity. Qed.

Lemma file_of_set_store (k : roster) (w : world) (s : db) :
  file_of k (set_store w s) = file_of k w.
Proof. by destruct k. Qed.

Lemma content_set_store (k : roster) (w : world) (s : db) :
  content k (set_store w s) = content k w.
Proof. unfold content. by rewrite file_of_set_store. Qed.

Lemma lift_run {A} (m : M A) (w : world) :
  lift m w = match m (store w) with
             | (s', inr a) => (set_store w s', inr a)
             | (s', inl e) => (set_store w s', inl (Py e))
             end.
Proof. reflexivity. Qed.

Lemma str_strip_run (v : value) (w : world) :
  str_strip v w = match stripped v with
                  | Some s => (w, inr s)
                  | None => (w, inl AttributeError)
                  end.
Proof. by destruct v. Qed.

Lemma users_find_one_run (q : list (string * value)) (w : world) :
  lift (users_find_one q) w =
    (w, inr (find_one q (users_collection (store w)))).
Proof. unfold lift, users_find_one. cbn. by rewrite set_store_same. Qed.

Section Registration.

Variable generate_password_hash : string -> string -> string.
Variable str_oid : N -> string.

Lemma create_user_run (now : Z) (salt : string) (k : roster)
    (e p : string) (ut : value) (id : string) (dept : value) (w : world) :
  file_of k w <> FileMissing ->
  exists w' b r,
    create_user generate_password_hash str_oid now salt k e p ut id dept w
      = (w', inr r) /\
    mark_registered k id
      (set_store w (users_insert_one
                      (user_data generate_password_hash now salt k e p ut id dept)
                      (store w)).1) = (w', inr b) /\
    store w' = (users_insert_one
                  (user_data generate_password_hash now salt k e p ut id dept)
                  (store w)).1 /\
    fs_writable w' = fs_writable w /\
    file_of (other k) w' = file_of (other k) w /\
    file_of k w' <> FileMissing /\
    (fs_writable w = false -> file_of k w' = file_of k w) /\
    status_code r = 201 /\ rows r = [] /\
    get (body r) "email" = VStr e /\
    get (body r) "user_id" = VStr (str_oid (next_oid (store w))).
Proof.
  intros Hf. unfold create_user. rewrite wrun_bind, lift_run.
  cbn [users_insert_one fst snd]. rewrite wrun_bind.
  edestruct (mark_registered_run k id) as (w1 & b & Hm & Hs & Hw & Ho & Hf1 & Hu);
    last first.
  - rewrite Hm. eexists _, _, _. split; [reflexivity|].
    split; [reflexivity|]. split; [exact Hs|]. split; [exact Hw|].
    split; [by rewrite Ho, file_of_set_store|]. split; [exact Hf1|].
    split; [|by vm_compute].
    intros Hfalse. rewrite (Hu Hfalse). by rewrite file_of_set_store.
  - by rewrite file_of_set_store.
Qed.

Lemma verify_id_inv (k : roster) (label id : string) (w w1 : world)
    (o : py_exn + (response + value)) :
  verify_id k label id w = (w1, o) ->
  store w1 = store w /\ fs_writable w1 = fs_writable w /\
  file_of (other k) w1 = file_of (other k) w /\
  (file_of k w <> FileMissing -> w1 = w) /\
  match o with
  | inl _ => True
  | inr (inl r) => status_code r = 400
  | inr (inr dept) =>
      id <> "" /\ file_of k w1 <> FileMissing /\
      exists reg, check_id k id w = (w1, inr (true, dept, reg)) /\
                  truthy reg = false
  end.
Proof.
  unfold verify_id. destruct (String.eqb_spec id "") as [->|Hid].
  { intros [= <- <-]. by repeat split. }
  rewrite wrun_bind.
  destruct (check_id k id w) as [w2 [x|[[found dept] reg]]] eqn:Hc;
    destruct (check_id_run _ _ _ _ _ Hc) as (Hs & Hw & Ho & Hsame & Hr).
  { intros [= <- <-]. by repeat split. }
  destruct Hr as [Hf _].
  destruct found; cbn [negb].
  - destruct (truthy reg) eqn:Ht; intros [= <- <-]; repeat split; try done.
    by exists reg.
  - intros [= <- <-]. by repeat split.
Qed.

Lemma register_inv (now : Z) (salt : string) (data : doc) (w w' : world)
    (o : py_exn + response) :
  register generate_password_hash str_oid now salt data w = (w', o) ->
  (store w' = store w /\ fs_writable w' = fs_writable w /\
   (files_present w -> w' = w) /\
   match o with inr r => status_code r = 400 | inl _ => True end) \/
  (exists k e p id dept reg w1,
     stripped (get_or data "email" (VStr "")) = Some e /\
     validate_email e = true /\
     get_or data "password" (VStr "") = VStr p /\
     get_or data "confirm_password" (VStr "") = VStr p /\
     validate_password (VStr p) = inr true /\
     get data "user_type" = VStr (type_name k) /\
     request_id data = Some id /\ id <> "" /\
     find_one [("email", VStr e)] (users_collection (store w)) = None /\
     check_id k id w = (w1, inr (true, dept, reg)) /\ truthy reg = false /\
     file_of k w1 <> FileMissing /\
     create_user generate_password_hash str_oid now salt k e p (VStr (type_name k))
       id dept w1 = (w', o)).
Proof.
  unfold register. rewrite wrun_bind, str_strip_run.
  destruct (stripped (get_or data "email" (VStr ""))) as [e|] eqn:He;
    [|intros [= <- <-]; by left].
  rewrite wrun_bind, str_strip_run.
  assert (forall k,
    get data "user_type" = VStr (type_name k) ->
    forall (id : string) (p : string),
    (verify_id k (match k with Staff => "Staff" | Student => "Student" end) id
       ≫= λ v, match v with
               | inl r => mret r
               | inr dept => create_user generate_password_hash str_oid now salt k e p
                               (get data "user_type") id dept
               end) w = (w', o) ->
    (store w' = store w /\ fs_writable w' = fs_writable w /\
     (files_present w -> w' = w) /\
     match o with inr r => status_code r = 400 | inl _ => True end) \/
    (exists dept reg w1,
       id <> "" /\
       check_id k id w = (w1, inr (true, dept, reg)) /\ truthy reg = false /\
       file_of k w1 <> FileMissing /\
       create_user generate_password_hash str_oid now salt k e p
         (VStr (type_name k)) id dept w1 = (w', o))) as Hbranch.
  { intros k Hk id p. rewrite wrun_bind.
    destruct (verify_id k _ id w) as [w1 [x|[r|dept]]] eqn:Hv;
      destruct (verify_id_inv _ _ _ _ _ _ Hv) as (Hs & Hw & Ho & Hsame & Hr).
    - intros [= <- <-]. left. repeat split; try done.
      intros [H1 H2]. apply Hsame. by destruct k.
    - intros [= <- <-]. left. repeat split; try done.
      intros [H1 H2]. apply Hsame. by destruct k.
    - destruct Hr as (Hid & Hf & reg & Hc & Ht). rewrite Hk. intros Hcu.
      right. exists dept, reg, w1. by repeat split. }
  unfold request_id.
  destruct (stripped (get_or data "staff_id" (VStr ""))) as [sp|];
    [|intros [= <- <-]; by left].
  rewrite wrun_bind.
  assert ((if (sp =? "")%string
           then str_strip (get_or data "student_id" (VStr ""))
           else mret sp) w =
          match (if (sp =? "")%string
                 then stripped (get_or data "student_id" (VStr ""))
                 else Some sp) with
          | Some id => (w, inr id)
          | None => (w, inl AttributeError)
          end) as ->.
  { destruct (sp =? "")%string; [apply str_strip_run|done]. }
  destruct (if (sp =? "")%string
            then stripped (get_or data "student_id" (VStr ""))
            else Some sp) as [id|] eqn:Hrid; [|intros [= <- <-]; by left].
  destruct (validate_email e) eqn:Hve; cbn [negb];
    [|intros [= <- <-]; by left].
  rewrite wrun_bind. unfold lift_pure.
  destruct (get_or data "password" (VStr "")) as [| | |p| |] eqn:Hp;
    cbn [validate_password]; try (intros [= <- <-]; by left).
  destruct ((String.length p =? 6)%nat && str_isdigit p) eqn:Hvp; cbn [negb];
    [|intros [= <- <-]; by left].
  case_bool_decide as Hcp; cbn [negb]; [|intros [= <- <-]; by left].
  rewrite wrun_bind, users_find_one_run.
  destruct (find_one _ _) as [u|] eqn:Hu; [intros [= <- <-]; by left|].
  assert (forall k,
    get data "user_type" = VStr (type_name k) ->
    (verify_id k (match k with Staff => "Staff" | Student => "Student" end) id
       ≫= λ v, match v with
               | inl r => mret r
               | inr dept => create_user generate_password_hash str_oid now salt k e p
                               (get data "user_type") id dept
               end) w = (w', o) ->
    (store w' = store w /\ fs_writable w' = fs_writable w /\
     (files_present w -> w' = w) /\
     match o with inr r => status_code r = 400 | inl _ => True end) \/
    (exists dept reg w1,
       id <> "" /\
       check_id k id w = (w1, inr (true, dept, reg)) /\ truthy reg = false /\
       file_of k w1 <> FileMissing /\
       create_user generate_password_hash str_oid now salt k e p
         (VStr (type_name k)) id dept w1 = (w', o))) as Hfin
    by (intros k Hk; apply (Hbranch k Hk)).
  clear Hbranch.
  case_bool_decide as Hst.
  { intros Hrun.
    destruct (Hfin Staff Hst Hrun)
      as [?|(dept & reg & w1 & Hid & Hc & Ht & Hf & Hcu)]; [by left|].
    right. exists Staff, e, p, id, dept, reg, w1.
    repeat split; try done. by rewrite Hvp. }
  case_bool_decide as Hsd.
  { intros Hrun.
    destruct (Hfin Student Hsd Hrun)
      as [?|(dept & reg & w1 & Hid & Hc & Ht & Hf & Hcu)]; [by left|].
    right. exists Student, e, p, id, dept, reg, w1.
    repeat split; try done. by rewrite Hvp. }
  intros [= <- <-]. by left.
Qed.

Lemma verify_id_accept (k : roster) (label id : string) (w w1 : world)
    (dept reg : value) :
  id <> "" ->
  check_id k id w = (w1, inr (true, dept, reg)) -> truthy reg = false ->
  verify_id k label id w = (w1, inr (inr dept)).
Proof.
  intros Hid Hc Ht. unfold verify_id.
  destruct (String.eqb_spec id "") as [->|_]; [done|].
  rewrite wrun_bind, Hc. cbn [negb]. by rewrite Ht.
Qed.

Lemma register_accept (now : Z) (salt : string) (data : doc) (w w1 : world)
    (k : roster) (e p id : string) (dept reg : value) :
  stripped (get_or data "email" (VStr "")) = Some e ->
  validate_email e = true ->
  get_or data "password" (VStr "") = VStr p ->
  get_or data "confirm_password" (VStr "") = VStr p ->
  validate_password (VStr p) = inr true ->
  get data "user_type" = VStr (type_name k) ->
  request_id data = Some id -> id <> "" ->
  find_one [("email", VStr e)] (users_collection (store w)) = None ->
  check_id k id w = (w1, inr (true, dept, reg)) -> truthy reg = false ->
  register generate_password_hash str_oid now salt data w =
    create_user generate_password_hash str_oid now salt k e p (VStr (type_name k))
      id dept w1.
Proof.
  intros He Hve Hp Hcp Hvp Hk Hrid Hid Hu Hc Ht.
  unfold register. rewrite wrun_bind, str_strip_run, He.
  rewrite wrun_bind, str_strip_run. revert Hrid. unfold request_id.
  destruct (stripped (get_or data "staff_id" (VStr ""))) as [sp|]; [|done].
  intros Hrid. rewrite wrun_bind.
  assert ((if (sp =? "")%string
           then str_strip (get_or data "student_id" (VStr ""))
           else mret sp) w = (w, inr id)) as ->.
  { destruct (sp =? "")%string; [by rewrite str_strip_run, Hrid|].
    by injection Hrid as ->. }
  rewrite Hve. cbn [negb]. rewrite wrun_bind, Hp, Hvp. cbn [lift_pure negb].
  rewrite Hcp. rewrite bool_decide_eq_true_2 by done. cbn [negb].
  rewrite wrun_bind, users_find_one_run, Hu, Hk.
  destruct k; cbn [type_name].
  - rewrite bool_decide_eq_true_2 by done.
    by rewrite wrun_bind, (verify_id_accept _ _ _ _ _ _ _ Hid Hc Ht).
  - rewrite bool_decide_eq_false_2 by done.
    rewrite bool_decide_eq_true_2 by done.
    by rewrite wrun_bind, (verify_id_accept _ _ _ _ _ _ _ Hid Hc Ht).
Qed.

End Registration.

Lemma find_one_none (q : list (string * value)) (c : list doc) :
  find_one q c = None <-> Forall (fun d => matches q d = false) c.
Proof.
  unfold find_one. induction c as [|d c IH]; cbn [List.find].
  - split; [constructor|done].
  - destruct (matches q d) eqn:Hm.
    + split; [done|]. intros H. apply Forall_cons in H as [H _]. congruence.
    + rewrite IH. split; [by constructor|]. intros H.
      by apply Forall_cons in H as [_ H].
Qed.

Lemma matches_email (e : value) (d : doc) :
  matches [("email", e)] d = bool_decide (get d "email" = e).
Proof. unfold matches, cond_holds. cbn. by rewrite andb_true_r. Qed.

Lemma email_not_stored (e : string) (c : list doc) :
  find_one [("email", VStr e)] c = None <-> VStr e ∉ emails c.
Proof.
  rewrite find_one_none. unfold emails. rewrite list_elem_of_fmap.
  rewrite Forall_forall. split.
  - intros H (u & Hu & Hin). specialize (H u Hin).
    rewrite matches_email in H. by apply bool_decide_eq_false_1 in H.
  - intros H u Hin. rewrite matches_email. apply bool_decide_eq_false_2.
    intros Hu. apply H. by exists u.
Qed.

Section Outcomes.

Variable generate_password_hash : string -> string -> string.
Variable str_oid : N -> string.

Lemma user_data_account (now : Z) (salt : string) (k : roster)
    (e p id : string) (dept : value) (n : N) :
  validate_email e = true -> id <> "" ->
  account_ok (<["_id" := VOid n]>
                (user_data generate_password_hash now salt k e p
                           (VStr (type_name k)) id dept)).
Proof.
  intros He Hid. split; [|split; [|split; [|split]]].
  - by exists e.
  - by eexists.
  - by exists n.
  - exists k, id. by destruct k.
  - done.
Qed.

(** X19.  With both JSON files present a registration request ends in exactly
    one of three ways: an uncaught exception with nothing changed, a 400
    with nothing changed, or a 201; a 201 appends exactly one account to the
    users, with the stripped email of the request (valid and not stored
    before), a fresh _id, the requested user_type and the request time as
    created_at, echoes email and id in the response, and leaves slots and
    bookings unchanged. No other status is ever returned. *)
Theorem register_outcomes (now : Z) (salt : string) (data : doc)
    (w w' : world) (o : py_exn + response) :
  files_present w ->
  register generate_password_hash str_oid now salt data w = (w', o) ->
  match o with
  | inl _ => w' = w
  | inr r =>
      (status_code r = 400 /\ w' = w) \/
      (status_code r = 201 /\
       exists e u,
         stripped (get_or data "email" (VStr "")) = Some e /\
         validate_email e = true /\
         (VStr e ∉ emails (users_collection (store w))) /\
         users_collection (store w') = users_collection (store w) ++ [u] /\
         get u "email" = VStr e /\
         get u "_id" = VOid (next_oid (store w)) /\
         get u "user_type" = get data "user_type" /\
         get u "created_at" = VTime now /\
         get (body r) "email" = VStr e /\
         get (body r) "user_id" = VStr (str_oid (next_oid (store w))) /\
         next_oid (store w') = N.succ (next_oid (store w)) /\
         slots_collection (store w') = slots_collection (store w) /\
         bookings_collection (store w') = bookings_collection (store w))
  end.
Proof.
  intros Hfiles Hrun.
  destruct (register_inv _ _ _ _ _ _ _ _ Hrun)
    as [(Hs & Hw & Hsame & Ho)
       |(k & e & p & id & dept & reg & w1 & He & Hve & Hp & Hcp & Hvp & Hk
           & Hrid & Hid & Hu & Hc & Ht & Hf & Hcu)].
  { destruct o as [x|r]; [by apply Hsame|]. left. split; [done|by apply Hsame]. }
  destruct (check_id_run _ _ _ _ _ Hc) as (Hs1 & _).
  destruct (create_user_run generate_password_hash str_oid now salt k e p
              (VStr (type_name k)) id dept w1 Hf)
    as (w2 & b & r & Hcu' & _ & Hs & _ & _ & _ & _ & Hst & _ & Hbe & Hbi).
  rewrite Hcu in Hcu'. injection Hcu' as -> ->.
  right. split; [done|].
  eexists e, _. rewrite Hs. cbn [users_insert_one fst snd users_collection
    next_oid slots_collection bookings_collection]. rewrite !Hs1.
  split; [done|]. split; [done|]. split; [by apply email_not_stored|].
  split; [reflexivity|]. rewrite Hk. repeat split; try done.
  by rewrite <- Hs1.
Qed.

Lemma accounts_ok_snoc (c : list doc) (u : doc) :
  accounts_ok c -> account_ok u -> get u "email" ∉ emails c ->
  accounts_ok (c ++ [u]).
Proof.
  intros [Hall Hnd] Hu Hfresh. split.
  - apply Forall_app. split; [done|by constructor].
  - unfold emails. rewrite fmap_app. apply NoDup_app. split; [done|].
    split; [|apply NoDup_singleton].
    intros x Hx Hx'. apply list_elem_of_singleton in Hx'. by subst x.
Qed.

Lemma register_accounts (now : Z) (salt : string) (data : doc)
    (w w' : world) (o : py_exn + response) :
  register generate_password_hash str_oid now salt data w = (w', o) ->
  accounts_ok (users_collection (store w)) ->
  accounts_ok (users_collection (store w')) /\
  slots_collection (store w') = slots_collection (store w) /\
  bookings_collection (store w') = bookings_collection (store w).
Proof.
  intros Hrun Hok.
  destruct (register_inv _ _ _ _ _ _ _ _ Hrun)
    as [(Hs & _)
       |(k & e & p & id & dept & reg & w1 & He & Hve & Hp & Hcp & Hvp & Hk
           & Hrid & Hid & Hu & Hc & Ht & Hf & Hcu)].
  { by rewrite Hs. }
  destruct (check_id_run _ _ _ _ _ Hc) as (Hs1 & _).
  destruct (create_user_run generate_password_hash str_oid now salt k e p
              (VStr (type_name k)) id dept w1 Hf)
    as (w2 & b & r & Hcu' & _ & Hs & _).
  rewrite Hcu in Hcu'. injection Hcu' as -> _.
  rewrite Hs. cbn [users_insert_one fst snd users_collection
    slots_collection bookings_collection]. rewrite !Hs1.
  split; [|done]. apply accounts_ok_snoc; [done| |].
  - by apply user_data_account.
  - change (get _ "email") with (VStr e). by apply email_not_stored.
Qed.

End Outcomes.

(** ** Signing in and changing the password *)

Lemma find_one_split (q : list (string * value)) (pre post : list doc)
    (d : doc) :
  Forall (fun x => matches q x = false) pre -> matches q d = true ->
  find_one q (pre ++ d :: post) = Some d.
Proof.
  unfold find_one. intros Hpre Hd.
  induction Hpre as [|x pre Hx Hpre IH]; cbn [app List.find].
  - by rewrite Hd.
  - by rewrite Hx.
Qed.

Lemma find_one_some_split (q : list (string * value)) (c : list doc) (d : doc) :
  find_one q c = Some d ->
  exists pre post, c = pre ++ d :: post /\
                   Forall (fun x => matches q x = false) pre /\
                   matches q d = true.
Proof.
  unfold find_one. induction c as [|x c IH]; [done|]. cbn [List.find].
  destruct (matches q x) eqn:E.
  - intros [= ->]. by exists [], c.
  - intros H. destruct (IH H) as (pre & post & -> & Hpre & Hd).
    exists (x :: pre), post. split; [done|]. split; [by constructor|done].
Qed.

Lemma update_one_split (q u : list (string * value)) (pre post : list doc)
    (d : doc) :
  Forall (fun x => matches q x = false) pre -> matches q d = true ->
  update_one q u (pre ++ d :: post) =
    (pre ++ apply_set u d :: post,
     if bool_decide (apply_set u d = d) then 0 else 1).
Proof.
  intros Hpre Hd.
  induction Hpre as [|x pre Hx Hpre IH]; cbn [app update_one].
  - by rewrite Hd.
  - by rewrite Hx, IH.
Qed.

Lemma update_one_find_none (q u : list (string * value)) (c : list doc) :
  find_one q c = None -> update_one q u c = (c, 0).
Proof.
  intros H. apply update_one_none. apply find_one_none in H.
  by apply Forall_forall.
Qed.

Lemma matches_weaken (c : string * value) (q : list (string * value))
    (d : doc) :
  matches [c] d = false -> matches (c :: q) d = false.
Proof.
  unfold matches. cbn [forallb]. rewrite andb_true_r. by intros ->.
Qed.

Lemma matches_active (e : value) (d : doc) :
  matches [("email", e); ("is_active", VBool true)] d =
    bool_decide (get d "email" = e) &&
    bool_decide (get d "is_active" = VBool true).
Proof. unfold matches, cond_holds. cbn. by rewrite andb_true_r. Qed.

Lemma get_lookup (d : doc) (k : string) (v : value) :
  d !! k = Some v -> get d k = v.
Proof. unfold get. by intros ->. Qed.

Lemma users_update_one_run (q u : list (string * value)) (w : world) :
  lift (users_update_one q u) w =
    (set_store w (set_users (store w)
                    (update_one q u (users_collection (store w))).1),
     inr (update_one q u (users_collection (store w))).2).
Proof. reflexivity. Qed.

Lemma set_users_same (s : db) : set_users s (users_collection s) = s.
Proof. by destruct s. Qed.

Section Passwords.

Variable generate_password_hash : string -> string -> string.
Variable check_password_hash : string -> string -> bool.
Variable str_oid : N -> string.

Lemma login_inv (now : Z) (data : doc) (w w' : world)
    (o : py_exn + response) :
  login check_password_hash str_oid now data w = (w', o) ->
  w' = w /\
  match o with
  | inl _ => True
  | inr r =>
      (status_code r = 401 /\ rows r = []) \/
      (status_code r = 200 /\
       exists e u h p n row,
         stripped (get_or data "email" (VStr "")) = Some e /\
         find_one [("email", VStr e); ("is_active", VBool true)]
                  (users_collection (store w)) = Some u /\
         u !! "password" = Some (VStr h) /\
         get data "password" = VStr p /\
         check_password_hash h p = true /\
         u !! "_id" = Some (VOid n) /\
         get (body r) "token" =
           VStr ("jwt_" +:+ str_oid n +:+ "_"
                        +:+ str_int (int_total_seconds now)) /\
         rows r = [row] /\
         get row "email" = VStr e /\
         get row "user_type" = get u "user_type" /\
         get row "staff_id" = get u "staff_id" /\
         get row "student_id" = get u "student_id" /\
         get row "department" = get u "department" /\
         row !! "password" = None)
  end.
Proof.
  unfold login. rewrite wrun_bind, str_strip_run.
  destruct (stripped (get_or data "email" (VStr ""))) as [e|] eqn:He;
    [|by intros [= <- <-]].
  rewrite wrun_bind, users_find_one_run.
  destruct (find_one _ _) as [u|] eqn:Hu;
    [|intros [= <- <-]; split; [done|by left]].
  rewrite wrun_bind, lift_run, item_run.
  destruct (u !! "password") as [pw|] eqn:Hpw;
    rewrite set_store_same; [|by intros [= <- <-]].
  rewrite wrun_bind. unfold check_hash.
  destruct pw as [| | |h| |]; try by intros [= <- <-].
  destruct (get data "password") as [| | |p| |] eqn:Hp;
    try by intros [= <- <-].
  rewrite wrun_ret.
  destruct (check_password_hash h p) eqn:Hck; cbn [negb];
    [|intros [= <- <-]; split; [done|by left]].
  rewrite wrun_bind, lift_run, item_run.
  destruct (u !! "_id") as [oid|] eqn:Hoid;
    rewrite set_store_same; [|by intros [= <- <-]].
  rewrite wrun_bind. unfold str_id.
  destruct oid as [| | | | |n]; try by intros [= <- <-].
  rewrite wrun_ret, wrun_bind, lift_run, item_run.
  destruct (u !! "email") as [ue|] eqn:Hue;
    rewrite set_store_same; [|by intros [= <- <-]].
  rewrite wrun_bind, lift_run, item_run.
  destruct (u !! "user_type") as [ut|] eqn:Hut;
    rewrite set_store_same; [|by intros [= <- <-]].
  rewrite wrun_bind.
  apply find_one_elem in Hu as Hm. destruct Hm as [_ Hm].
  rewrite matches_active in Hm. apply andb_prop in Hm as [Hm _].
  apply bool_decide_eq_true_1 in Hm. rewrite (get_lookup _ _ _ Hue) in Hm.
  subst ue. rewrite wrun_ret, wrun_ret. intros [= <- <-].
  split; [done|]. right. split; [done|].
  eexists e, u, h, p, n, _.
  split; [done|]. split; [done|]. split; [done|]. split; [done|].
  split; [done|]. split; [done|]. split; [reflexivity|].
  split; [reflexivity|].
  split; [reflexivity|]. split; [by rewrite (get_lookup _ _ _ Hut)|].
  by repeat split.
Qed.

Lemma login_run (now : Z) (data : doc) (w : world) (e p : string) :
  stripped (get_or data "email" (VStr "")) = Some e ->
  get data "password" = VStr p ->
  match find_one [("email", VStr e); ("is_active", VBool true)]
                 (users_collection (store w)) with
  | None =>
      exists r, login check_password_hash str_oid now data w = (w, inr r) /\
                status_code r = 401
  | Some u =>
      account_ok u ->
      exists h r,
        u !! "password" = Some (VStr h) /\
        login check_password_hash str_oid now data w = (w, inr r) /\
        status_code r = (if check_password_hash h p then 200 else 401)
  end.
Proof.
  intros He Hp. unfold login. rewrite wrun_bind, str_strip_run, He.
  rewrite wrun_bind, users_find_one_run.
  destruct (find_one _ _) as [u|] eqn:Hu; [|by eexists].
  intros ((e' & Hue & _) & (h & Hh) & (n & Hn) & (k & id & _ & Hut & _) & _).
  exists h. rewrite wrun_bind, lift_run, item_run, Hh, set_store_same.
  rewrite wrun_bind, Hp. cbn [check_hash]. rewrite wrun_ret.
  destruct (check_password_hash h p); cbn [negb]; [|by eexists].
  rewrite wrun_bind, lift_run, item_run, Hn, set_store_same.
  rewrite wrun_bind. cbn [str_id].
  rewrite wrun_ret, wrun_bind, lift_run, item_run, Hue, set_store_same.
  rewrite wrun_bind, lift_run, item_run, Hut, set_store_same.
  by eexists.
Qed.

Lemma reset_password_run (salt : string) (data : doc) (w : world)
    (e p : string) :
  stripped (get_or data "email" (VStr "")) = Some e ->
  validate_email e = true ->
  get_or data "new_password" (VStr "") = VStr p ->
  validate_password (VStr p) = inr true ->
  exists r,
    reset_password generate_password_hash salt data w =
      (set_store w
         (set_users (store w)
            (update_one [("email", VStr e); ("is_active", VBool true)]
               [("password", VStr (generate_password_hash salt p))]
               (users_collection (store w))).1), inr r) /\
    rows r = [] /\
    status_code r =
      (if (update_one [("email", VStr e); ("is_active", VBool true)]
             [("password", VStr (generate_password_hash salt p))]
             (users_collection (store w))).2 =? 0
       then 404 else 200).
Proof.
  intros He Hve Hp Hvp. unfold reset_password.
  rewrite wrun_bind, str_strip_run, He, Hve. cbn [negb].
  rewrite wrun_bind, Hp, Hvp. cbn [lift_pure negb].
  rewrite wrun_bind, users_update_one_run.
  destruct (_ =? 0); by eexists.
Qed.

Lemma reset_password_inv (salt : string) (data : doc) (w w' : world)
    (o : py_exn + response) :
  reset_password generate_password_hash salt data w = (w', o) ->
  (w' = w /\
   match o with
   | inl _ => True
   | inr r => status_code r = 400 \/ status_code r = 404
   end) \/
  (exists e p pre u post r,
     o = inr r /\ status_code r = 200 /\
     stripped (get_or data "email" (VStr "")) = Some e /\
     validate_email e = true /\
     get_or data "new_password" (VStr "") = VStr p /\
     validate_password (VStr p) = inr true /\
     users_collection (store w) = pre ++ u :: post /\
     Forall (fun x => matches [("email", VStr e); ("is_active", VBool true)] x
                      = false) pre /\
     matches [("email", VStr e); ("is_active", VBool true)] u = true /\
     <["password" := VStr (generate_password_hash salt p)]> u <> u /\
     w' = set_store w
            (set_users (store w)
               (pre ++ <["password" := VStr (generate_password_hash salt p)]> u
                    :: post))).
Proof.
  unfold reset_password. rewrite wrun_bind, str_strip_run.
  destruct (stripped (get_or data "email" (VStr ""))) as [e|] eqn:He;
    [|intros [= <- <-]; by left].
  destruct (validate_email e) eqn:Hve; cbn [negb];
    [|intros [= <- <-]; left; split; [done|by left]].
  rewrite wrun_bind.
  destruct (get_or data "new_password" (VStr "")) as [| | |p| |] eqn:Hp;
    cbn [validate_password lift_pure]; try (intros [= <- <-]; by left).
  destruct ((String.length p =? 6)%nat && str_isdigit p) eqn:Hvp; cbn [negb];
    [|intros [= <- <-]; left; split; [done|by left]].
  rewrite wrun_bind, users_update_one_run.
  set (q := [("email", VStr e); ("is_active", VBool true)]) in *.
  set (u := [("password", VStr (generate_password_hash salt p))]) in *.
  destruct (find_one q (users_collection (store w))) as [d|] eqn:Hd.
  - apply find_one_some_split in Hd as (pre & post & Hc & Hpre & Hm).
    rewrite Hc, (update_one_split q u pre post d Hpre Hm). cbn [fst snd].
    change (apply_set u d)
      with (<["password" := VStr (generate_password_hash salt p)]> d).
    case_bool_decide as Hsame.
    + rewrite Hsame, <- Hc, set_users_same, set_store_same.
      intros [= <- <-]. left. split; [done|by right].
    + intros [= <- <-]. right. eexists e, p, pre, d, post, _.
      split; [reflexivity|]. repeat split; try done. by rewrite Hvp.
  - rewrite (update_one_find_none q u _ Hd). cbn [fst snd].
    rewrite set_users_same, set_store_same.
    intros [= <- <-]. left. split; [done|by right].
Qed.

Lemma account_ok_password (u : doc) (h : string) :
  account_ok u -> account_ok (<["password" := VStr h]> u).
Proof.
  intros ((e & He & Hve) & _ & (n & Hn) & (k & id & Hid & Hut & Hs1 & Hs2) & Ha).
  split; [|split; [|split; [|split]]].
  - exists e. by rewrite lookup_insert_ne.
  - exists h. by rewrite lookup_insert_eq.
  - exists n. by rewrite lookup_insert_ne.
  - exists k, id. by rewrite !lookup_insert_ne.
  - by rewrite lookup_insert_ne.
Qed.

Lemma reset_password_accounts (salt : string) (data : doc) (w w' : world)
    (o : py_exn + response) :
  reset_password generate_password_hash salt data w = (w', o) ->
  accounts_ok (users_collection (store w)) ->
  accounts_ok (users_collection (store w')) /\
  emails (users_collection (store w')) = emails (users_collection (store w)) /\
  slots_collection (store w') = slots_collection (store w) /\
  bookings_collection (store w') = bookings_collection (store w).
Proof.
  intros Hrun [Hall Hnd].
  destruct (reset_password_inv _ _ _ _ _ Hrun)
    as [[-> _]|(e & p & pre & u & post & r & _ & _ & _ & _ & _ & _ & Hc
                  & _ & _ & _ & ->)]; [done|].
  cbn [store set_store set_users users_collection slots_collection
       bookings_collection].
  assert (emails (pre ++ <["password" := VStr (generate_password_hash salt p)]> u
                      :: post) = emails (users_collection (store w))) as Hem.
  { rewrite Hc. unfold emails. rewrite !fmap_app, !fmap_cons.
    unfold get. by rewrite lookup_insert_ne. }
  split; [|done]. split; [|by rewrite Hem].
  rewrite Hc in Hall. apply Forall_app in Hall as [H1 H2].
  apply Forall_cons in H2 as [H2 H3].
  apply Forall_app. split; [done|]. constructor; [|done].
  by apply account_ok_password.
Qed.

End Passwords.

Lemma accounts_ok_users (c : list doc) :
  accounts_ok c -> users_ok c /\ staff_registered c.
Proof.
  intros [Hall _]. split.
  - eapply Forall_impl; [exact Hall|]. intros u ((e & He & _) & _). by eexists.
  - eapply Forall_impl; [exact Hall|].
    intros u (_ & _ & _ & (k & id & _ & Hut & Hs & _) & _) Hstaff.
    rewrite (get_lookup _ _ _ Hut) in Hstaff. rewrite (get_lookup _ _ _ Hs).
    by destruct k.
Qed.

Lemma NoDup_fmap_eq {A B} (f : A -> B) (l : list A) (x y : A) :
  NoDup (f <$> l) -> x ∈ l -> y ∈ l -> f x = f y -> x = y.
Proof.
  induction l as [|a l IH]; intros Hnd Hx Hy Hf; [by apply elem_of_nil in Hx|].
  rewrite fmap_cons in Hnd. apply NoDup_cons in Hnd as [Ha Hnd].
  apply elem_of_cons in Hx as [->|Hx]; apply elem_of_cons in Hy as [->|Hy].
  - done.
  - exfalso. apply Ha. rewrite Hf. by apply list_elem_of_fmap_2.
  - exfalso. apply Ha. rewrite <- Hf. by apply list_elem_of_fmap_2.
  - by apply IH.
Qed.

Lemma enrolled_accounts : accounts_ok (users_collection (store enrolled)).
Proof.
  unfold enrolled.
  destruct (register toy_hash toy_oid 5 "salt" enrolment_request first_day)
    as [w' o] eqn:Hrun.
  apply (register_accounts _ _ _ _ _ _ _ _ Hrun).
  split; [constructor|constructor].
Qed.

Section Accounts.

Variable generate_password_hash : string -> string -> string.
Variable check_password_hash : string -> string -> bool.
Variable str_oid : N -> string.

(** X20.  The account invariants (every account has a valid string email, a
    string password hash, an ObjectId, user_type staff or student with a
    non-empty id in the matching field and null in the other, is_active
    true; emails are pairwise distinct) are kept by register and
    reset_password whatever the request and outcome, together with the
    well-formedness of the store; in particular every staff account carries
    a staff id. *)
Theorem accounts_kept (w : world) :
  accounts_ok (users_collection (store w)) -> db_ok (store w) ->
  (forall now salt data w' o,
     register generate_password_hash str_oid now salt data w = (w', o) ->
     accounts_ok (users_collection (store w')) /\ db_ok (store w') /\
     staff_registered (users_collection (store w'))) /\
  (forall salt data w' o,
     reset_password generate_password_hash salt data w = (w', o) ->
     accounts_ok (users_collection (store w')) /\ db_ok (store w') /\
     staff_registered (users_collection (store w'))).
Proof.
  intros Hacc [Hslots _]. split.
  - intros now salt data w' o Hrun.
    destruct (register_accounts _ _ _ _ _ _ _ _ Hrun Hacc) as (Ha & Hs & _).
    destruct (accounts_ok_users _ Ha) as [Hu Hst].
    split; [done|]. split; [|done]. split; [by rewrite Hs|done].
  - intros salt data w' o Hrun.
    destruct (reset_password_accounts _ _ _ _ _ _ Hrun Hacc) as (Ha & _ & Hs & _).
    destruct (accounts_ok_users _ Ha) as [Hu Hst].
    split; [done|]. split; [|done]. split; [by rewrite Hs|done].
Qed.

(** X23.  Under the account invariants login with a string email and a string
    password never raises and never changes anything: it answers 200 exactly
    when some account has the stripped email and its stored hash accepts the
    password, and 401 otherwise. *)
Theorem login_outcomes (now : Z) (data : doc) (w : world) (e p : string) :
  accounts_ok (users_collection (store w)) ->
  stripped (get_or data "email" (VStr "")) = Some e ->
  get data "password" = VStr p ->
  exists r,
    login check_password_hash str_oid now data w = (w, inr r) /\
    ((status_code r = 200 /\
      exists u h, u ∈ users_collection (store w) /\ get u "email" = VStr e /\
                  u !! "password" = Some (VStr h) /\
                  check_password_hash h p = true) \/
     (status_code r = 401 /\
      forall u h, u ∈ users_collection (store w) -> get u "email" = VStr e ->
                  u !! "password" = Some (VStr h) ->
                  check_password_hash h p = false)).
Proof.
  intros [Hall Hnd] He Hp.
  pose proof (login_run check_password_hash str_oid now data w e p He Hp) as Hrun.
  destruct (find_one _ _) as [u|] eqn:Hu.
  - apply find_one_elem in Hu as [Hin Hm].
    rewrite matches_active in Hm. apply andb_prop in Hm as [Hm _].
    apply bool_decide_eq_true_1 in Hm.
    destruct Hrun as (h & r & Hh & Hl & Hst).
    { rewrite Forall_forall in Hall. by apply Hall. }
    exists r. split; [done|].
    destruct (check_password_hash h p) eqn:Hck.
    + left. split; [done|]. by exists u, h.
    + right. split; [done|]. intros u' h' Hin' He' Hh'.
      assert (u' = u) as ->.
      { apply (NoDup_fmap_eq (fun u => get u "email") _ _ _ Hnd Hin' Hin).
        by rewrite He', Hm. }
      rewrite Hh in Hh'. by injection Hh' as <-.
  - destruct Hrun as (r & Hl & Hst). exists r. split; [done|].
    right. split; [done|]. intros u h Hin Hue _. exfalso.
    apply find_one_none in Hu. rewrite Forall_forall in Hu, Hall.
    specialize (Hu u Hin). rewrite matches_active in Hu.
    destruct (Hall u Hin) as (_ & _ & _ & _ & Ha).
    rewrite Hue, (get_lookup _ _ _ Ha) in Hu.
    by rewrite !bool_decide_eq_true_2 in Hu.
Qed.

(** X24.  A registration answered 201 can sign in: provided the hash library
    accepts the registered password against the hash it produced, login with
    the same email (up to surrounding blanks) and password answers 200,
    changes nothing, and returns one user object with the registered email,
    user type and department and without the password. *)
Theorem register_then_login (now : Z) (salt : string) (data : doc)
    (w w' : world) (r : response) (p : string) :
  register generate_password_hash str_oid now salt data w = (w', inr r) ->
  status_code r = 201 ->
  get_or data "password" (VStr "") = VStr p ->
  check_password_hash (generate_password_hash salt p) p = true ->
  forall now' data',
    stripped (get_or data' "email" (VStr ""))
      = stripped (get_or data "email" (VStr "")) ->
    get data' "password" = VStr p ->
    exists r' row,
      login check_password_hash str_oid now' data' w' = (w', inr r') /\
      status_code r' = 200 /\ rows r' = [row] /\
      get row "email" = get (body r) "email" /\
      get row "user_type" = get data "user_type" /\
      get row "department" = get (body r) "department" /\
      row !! "password" = None.
Proof.
  intros Hrun Hst Hp Hhash now' data' He' Hp'.
  destruct (register_inv _ _ _ _ _ _ _ _ Hrun)
    as [(_ & _ & _ & H400)
       |(k & e & p0 & id & dept & reg & w1 & He & Hve & Hp0 & Hcp & Hvp & Hk
           & Hrid & Hid & Hu & Hc & Ht & Hf & Hcu)].
  { rewrite Hst in H400. done. }
  rewrite Hp in Hp0. injection Hp0 as <-.
  destruct (check_id_run _ _ _ _ _ Hc) as (Hs1 & _).
  destruct (create_user_run generate_password_hash str_oid now salt k e p
              (VStr (type_name k)) id dept w1 Hf)
    as (w2 & b & r0 & Hcu' & _ & Hs & _).
  rewrite Hcu in Hcu'. injection Hcu' as <- <-.
  rewrite He in He'.
  pose proof (login_run check_password_hash str_oid now' data' w' e p He' Hp')
    as Hlog.
  set (u := <["_id" := VOid (next_oid (store w1))]>
              (user_data generate_password_hash now salt k e p
                         (VStr (type_name k)) id dept)) in *.
  assert (find_one [("email", VStr e); ("is_active", VBool true)]
                   (users_collection (store w')) = Some u) as Hfind.
  { rewrite Hs. cbn [users_insert_one fst users_collection].
    apply (find_one_split _ _ [] u);
      [|rewrite matches_active; by rewrite !bool_decide_eq_true_2].
    rewrite Hs1.
    apply find_one_none in Hu. eapply Forall_impl; [exact Hu|].
    intros x Hx. by apply matches_weaken. }
  rewrite Hfind in Hlog.
  destruct Hlog as (h & r' & Hh & Hl & Hst').
  { by apply user_data_account. }
  assert (h = generate_password_hash salt p) as -> by (by injection Hh).
  rewrite Hhash in Hst'.
  destruct (login_inv _ _ _ _ _ _ _ Hl) as [_ [[H401 _]|(_ & H200)]].
  { rewrite Hst' in H401. done. }
  destruct H200 as (e2 & u2 & h2 & p2 & n2 & row & He2 & Hu2 & _ & _ & _ & _ & _
                      & Hrows & Hre & Hrt & _ & _ & Hrd & Hrp).
  rewrite He' in He2. injection He2 as <-.
  rewrite Hfind in Hu2. injection Hu2 as <-.
  exists r', row. split; [done|]. split; [done|]. split; [done|].
  unfold create_user in Hcu.
  rewrite Hre, Hrt, Hrd, Hk.
  revert Hcu. rewrite wrun_bind, lift_run. cbn [users_insert_one fst snd].
  rewrite wrun_bind.
  destruct (mark_registered k id _) as [w3 [x|b']]; [done|].
  intros [= _ <-]. by repeat split.
Qed.

End Accounts.

Lemma type_name_inj (k k' : roster) : type_name k = type_name k' -> k = k'.
Proof. by destruct k, k'. Qed.

Lemma fs_writable_set_store (w : world) (s : db) :
  fs_writable (set_store w s) = fs_writable w.
Proof. reflexivity. Qed.

Section Enrolment.

Variable generate_password_hash : string -> string -> string.
Variable check_password_hash : string -> string -> bool.
Variable str_oid : N -> string.

(** X21.  When the JSON file can be written, an id registers once: after a
    registration answered 201, every later registration request of the same
    user type whose id has the same lower-case form is answered 400 (if it
    is answered at all) and changes nothing in the database, whatever email
    and password it carries. *)
Theorem register_once (now : Z) (salt : string) (data : doc) (w w' : world)
    (r : response) (id : string) :
  register generate_password_hash str_oid now salt data w = (w', inr r) ->
  status_code r = 201 ->
  fs_writable w = true ->
  request_id data = Some id ->
  forall now' salt' data' id' w'' r',
    request_id data' = Some id' -> lower id' = lower id ->
    get data' "user_type" = get data "user_type" ->
    register generate_password_hash str_oid now' salt' data' w' = (w'', inr r') ->
    status_code r' = 400 /\ store w'' = store w'.
Proof.
  intros Hrun Hst Hw Hrid now' salt' data' id' w'' r' Hrid' Hlow Hut Hrun'.
  destruct (register_inv _ _ _ _ _ _ _ _ Hrun)
    as [(_ & _ & _ & H400)
       |(k & e & p & id0 & dept & reg & w1 & He & Hve & Hp & Hcp & Hvp & Hk
           & Hrid0 & Hid & Hu & Hc & Ht & Hf & Hcu)].
  { rewrite Hst in H400. done. }
  rewrite Hrid in Hrid0. injection Hrid0 as <-.
  destruct (check_id_run _ _ _ _ _ Hc) as (Hs1 & Hw1 & _ & _ & _ & Hci).
  destruct (create_user_run generate_password_hash str_oid now salt k e p
              (VStr (type_name k)) id dept w1 Hf)
    as (w2 & b & r0 & Hcu' & Hm & _).
  rewrite Hcu in Hcu'. injection Hcu' as <- <-.
  edestruct (mark_registered_found k id) as (w3 & Hm3 & Hf3 & Hc3 & _);
    [| |symmetry; rewrite content_set_store; exact Hci|].
  { by rewrite file_of_set_store. }
  { by rewrite fs_writable_set_store, Hw1. }
  rewrite Hm in Hm3. injection Hm3 as <- _.
  destruct (register_inv _ _ _ _ _ _ _ _ Hrun')
    as [(Hs & _ & _ & H400)
       |(k' & e' & p' & id0 & dept' & reg' & w1' & _ & _ & _ & _ & _ & Hk'
           & Hrid0 & _ & _ & Hc' & Ht' & _)]; [done|].
  exfalso. rewrite Hrid' in Hrid0. injection Hrid0 as <-.
  rewrite Hut, Hk in Hk'. injection Hk' as Hk'. apply type_name_inj in Hk'.
  subst k'. rewrite check_id_present in Hc' by done.
  rewrite Hlow, Hc3 in Hc'. injection Hc' as _ _ <-. done.
Qed.

(** X22.  When the JSON files exist but cannot be written, a registration is
    still answered 201 (the result of marking is ignored), both files stay
    as they were, and the same id registers again: the same request with any
    other valid, unused email is answered 201 too. *)
Theorem register_unwritable (now : Z) (salt : string) (data : doc)
    (w w' : world) (r : response) :
  register generate_password_hash str_oid now salt data w = (w', inr r) ->
  status_code r = 201 ->
  fs_writable w = false -> files_present w ->
  staff_database_json w' = staff_database_json w /\
  student_database_json w' = student_database_json w /\
  forall now' salt' e' data',
    data' = <["email" := VStr e']> data ->
    validate_email (strip e') = true ->
    VStr (strip e') ∉ emails (users_collection (store w')) ->
    exists w'' r',
      register generate_password_hash str_oid now' salt' data' w' = (w'', inr r') /\
      status_code r' = 201.
Proof.
  intros Hrun Hst Hw Hfiles.
  destruct (register_inv _ _ _ _ _ _ _ _ Hrun)
    as [(_ & _ & _ & H400)
       |(k & e & p & id & dept & reg & w1 & He & Hve & Hp & Hcp & Hvp & Hk
           & Hrid & Hid & Hu & Hc & Ht & Hf & Hcu)].
  { rewrite Hst in H400. done. }
  assert (file_of k w <> FileMissing) as Hfk
    by (destruct Hfiles; by destruct k).
  rewrite check_id_present in Hc by done. injection Hc as <- Hc.
  destruct (create_user_run generate_password_hash str_oid now salt k e p
              (VStr (type_name k)) id dept w Hfk)
    as (w2 & b & r0 & Hcu' & _ & Hs & Hw2 & Ho & Hf2 & Hsame & _).
  rewrite Hcu in Hcu'. injection Hcu' as <- <-.
  specialize (Hsame Hw).
  assert (staff_database_json w' = staff_database_json w /\
          student_database_json w' = student_database_json w) as [H1 H2]
    by (by destruct k).
  split; [done|]. split; [done|].
  intros now' salt' e' data' -> Hve' Hfresh.
  assert (check_id k id w' = (w', inr (true, dept, reg))) as Hc'.
  { rewrite check_id_present by done.
    assert (content k w' = content k w) as ->
      by (unfold content; by rewrite Hsame).
    by rewrite Hc. }
  destruct (create_user_run generate_password_hash str_oid now' salt' k (strip e') p
              (VStr (type_name k)) id dept w' Hf2)
    as (w3 & b' & r' & Hcu' & _ & _ & _ & _ & _ & _ & Hst' & _).
  exists w3, r'. split; [|done]. rewrite <- Hcu'.
  apply (register_accept _ _ _ _ _ _ _ _ _ _ _ _ reg); try done.
  - unfold get_or. by rewrite lookup_insert_eq.
  - revert Hp. unfold get_or. by rewrite lookup_insert_ne.
  - revert Hcp. unfold get_or. by rewrite lookup_insert_ne.
  - revert Hk. unfold get. by rewrite lookup_insert_ne.
  - revert Hrid. unfold request_id, get_or. by rewrite !lookup_insert_ne.
  - by apply email_not_stored.
Qed.

(** X25.  reset_password needs only the email: when it answers 200 on a store
    satisfying the account invariants, the emails, slots, bookings and both
    JSON files are unchanged, and (provided the hash library accepts the new
    password against its hash) login with that email and the new password
    answers 200. *)
Theorem reset_password_then_login (salt : string) (data : doc)
    (w w' : world) (r : response) (p : string) :
  accounts_ok (users_collection (store w)) ->
  reset_password generate_password_hash salt data w = (w', inr r) ->
  status_code r = 200 ->
  get_or data "new_password" (VStr "") = VStr p ->
  check_password_hash (generate_password_hash salt p) p = true ->
  emails (users_collection (store w')) = emails (users_collection (store w)) /\
  slots_collection (store w') = slots_collection (store w) /\
  bookings_collection (store w') = bookings_collection (store w) /\
  staff_database_json w' = staff_database_json w /\
  student_database_json w' = student_database_json w /\
  forall now data',
    stripped (get_or data' "email" (VStr ""))
      = stripped (get_or data "email" (VStr "")) ->
    get data' "password" = VStr p ->
    exists r',
      login check_password_hash str_oid now data' w' = (w', inr r') /\
      status_code r' = 200.
Proof.
  intros Hacc Hrun Hst Hp Hhash.
  destruct (reset_password_accounts _ _ _ _ _ _ Hrun Hacc)
    as (Hacc' & Hem & Hsl & Hbk).
  destruct (reset_password_inv _ _ _ _ _ _ Hrun)
    as [[_ [H|H]]|(e & p0 & pre & u & post & r0 & _ & _ & He & Hve & Hp0 & _
                     & Hc & Hpre & Hm & _ & Hw')];
    [rewrite Hst in H; done|rewrite Hst in H; done|].
  rewrite Hp in Hp0. injection Hp0 as <-.
  split; [done|]. split; [done|]. split; [done|].
  split; [by rewrite Hw'|]. split; [by rewrite Hw'|].
  intros now data' He' Hp'. rewrite He in He'.
  pose proof (login_run check_password_hash str_oid now data' w' e p He' Hp')
    as Hlog.
  set (u' := <["password" := VStr (generate_password_hash salt p)]> u) in *.
  assert (find_one [("email", VStr e); ("is_active", VBool true)]
                   (users_collection (store w')) = Some u') as Hfind.
  { rewrite Hw'. cbn [store set_store set_users users_collection].
    apply find_one_split; [done|]. revert Hm. rewrite !matches_active.
    unfold u', get. by rewrite !lookup_insert_ne. }
  rewrite Hfind in Hlog.
  destruct Hlog as (h & r' & Hh & Hl & Hst').
  { destruct Hacc' as [Hall _]. rewrite Forall_forall in Hall. apply Hall.
    apply find_one_elem in Hfind. by destruct Hfind. }
  exists r'. split; [done|].
  unfold u' in Hh. rewrite lookup_insert_eq in Hh. injection Hh as <-.
  by rewrite Hhash in Hst'.
Qed.

End Enrolment.

(** ** The listings *)

Lemma desc_by_delete (k k' : string) (a b : doc) :
  k <> k' -> desc_by k a b -> desc_by k (delete k' a) (delete k' b).
Proof.
  intros Hk. unfold desc_by, get. by rewrite !lookup_delete_ne.
Qed.

Lemma list_users_listing (q : list (string * value)) (c : list doc) :
  listing_of q c (list_users q c).
Proof.
  unfold listing_of, list_users. split; [|split].
  - apply StronglySorted_project; [intros a b; by apply desc_by_delete|].
    apply StronglySorted_project; [intros a b; by apply desc_by_delete|].
    apply StronglySorted_merge_sort; apply _.
  - unfold project_out. rewrite <- list_fmap_compose. rewrite Forall_fmap.
    apply Forall_forall. intros u _. cbn.
    split; [apply lookup_delete_eq|].
    rewrite lookup_delete_ne by done. apply lookup_delete_eq.
  - unfold project_out. rewrite <- list_fmap_compose.
    apply fmap_Permutation. apply merge_sort_Permutation.
Qed.

Lemma filter_filter_length {A} (P Q : A -> bool) (l : list A) :
  length (List.filter P (List.filter Q l)) =
  length (List.filter (fun x => P x && Q x) l).
Proof.
  induction l as [|x l IH]; [done|]. cbn [List.filter].
  destruct (Q x); cbn [List.filter]; rewrite ?andb_false_r, ?andb_true_r;
    [|done].
  destruct (P x); cbn [length]; by rewrite IH.
Qed.

Lemma count_type_list_users (t : string) (q : list (string * value))
    (c : list doc) :
  count_type t (list_users q c) =
    Z.of_nat (length (find (("user_type", VStr t) :: q) c)).
Proof.
  unfold count_type, list_users, project_out. f_equal.
  rewrite <- list_fmap_compose, filter_length_fmap.
  rewrite (filter_length_Permutation _ _ (find q c))
    by apply merge_sort_Permutation.
  unfold find. rewrite filter_filter_length. f_equal.
  apply List.filter_ext. intros u. cbn.
  unfold get. by rewrite !lookup_delete_ne.
Qed.

Lemma length_list_users (q : list (string * value)) (c : list doc) :
  length (list_users q c) = length (find q c).
Proof.
  unfold list_users, project_out. rewrite !length_fmap.
  apply Permutation_length, merge_sort_Permutation.
Qed.

Lemma find_by_type (c : list doc) :
  Forall account_ok c ->
  length (find [("is_active", VBool true)] c) =
    (length (find [("user_type", VStr "staff"); ("is_active", VBool true)] c) +
     length (find [("user_type", VStr "student"); ("is_active", VBool true)] c))%nat.
Proof.
  unfold find. induction 1 as [|u c Hu Hc IH]; [done|]. cbn [List.filter].
  destruct Hu as (_ & _ & _ & (k & id & _ & Hut & _) & Ha).
  assert (matches [("is_active", VBool true)] u = true) as ->.
  { unfold matches, cond_holds. cbn [forallb fst snd].
    by rewrite (get_lookup _ _ _ Ha). }
  assert (matches [("user_type", VStr "staff"); ("is_active", VBool true)] u
          = match k with Staff => true | Student => false end) as ->.
  { unfold matches, cond_holds. cbn [forallb fst snd].
    rewrite (get_lookup _ _ _ Hut), (get_lookup _ _ _ Ha). by destruct k. }
  assert (matches [("user_type", VStr "student"); ("is_active", VBool true)] u
          = match k with Staff => false | Student => true end) as ->.
  { unfold matches, cond_holds. cbn [forallb fst snd].
    rewrite (get_lookup _ _ _ Hut), (get_lookup _ _ _ Ha). by destruct k. }
  destruct k; cbn [length]; rewrite IH; lia.
Qed.

(** X26.  staff_list, student_list and all_users never change the store and
    answer 200; their rows are exactly the active accounts of the kind
    (active staff, active students, all active accounts) sorted newest first
    by created_at, each without password and _id; each total is the number
    of rows returned; the total_staff and total_students of all_users equal
    the totals of the two separate lists; and under the account invariants
    total_users is their sum. *)
Theorem user_listings (s : db) :
  exists staff students everyone,
    staff_list s = (s, inr staff) /\ student_list s = (s, inr students) /\
    all_users s = (s, inr everyone) /\
    status_code staff = 200 /\ status_code students = 200 /\
    status_code everyone = 200 /\
    listing_of [("user_type", VStr "staff"); ("is_active", VBool true)]
               (users_collection s) (rows staff) /\
    listing_of [("user_type", VStr "student"); ("is_active", VBool true)]
               (users_collection s) (rows students) /\
    listing_of [("is_active", VBool true)] (users_collection s)
               (rows everyone) /\
    get (body staff) "total_staff" = VInt (Z.of_nat (length (rows staff))) /\
    get (body students) "total_students"
      = VInt (Z.of_nat (length (rows students))) /\
    get (body everyone) "total_users"
      = VInt (Z.of_nat (length (rows everyone))) /\
    get (body everyone) "total_staff" = get (body staff) "total_staff" /\
    get (body everyone) "total_students"
      = get (body students) "total_students" /\
    (accounts_ok (users_collection s) ->
     length (rows everyone)
       = (length (rows staff) + length (rows students))%nat).
Proof.
  eexists _, _, _.
  split; [reflexivity|]. split; [reflexivity|]. split; [reflexivity|].
  split; [done|]. split; [done|]. split; [done|].
  split; [apply list_users_listing|]. split; [apply list_users_listing|].
  split; [apply list_users_listing|].
  split; [reflexivity|]. split; [reflexivity|]. split; [reflexivity|].
  cbn [rows body jsonify].
  split; [|split].
  - change (get _ "total_staff" = get _ "total_staff")
      with (VInt (count_type "staff"
                    (list_users [("is_active", VBool true)] (users_collection s)))
            = VInt (Z.of_nat
                      (length (list_users [("user_type", VStr "staff");
                                           ("is_active", VBool true)]
                                          (users_collection s))))).
    by rewrite count_type_list_users, length_list_users.
  - change (get _ "total_students" = get _ "total_students")
      with (VInt (count_type "student"
                    (list_users [("is_active", VBool true)] (users_collection s)))
            = VInt (Z.of_nat
                      (length (list_users [("user_type", VStr "student");
                                           ("is_active", VBool true)]
                                          (users_collection s))))).
    by rewrite count_type_list_users, length_list_users.
  - intros [Hall _]. rewrite !length_list_users. by apply find_by_type.
Qed.

(** ** From registration to reservation *)

Lemma find_one_app (q : list (string * value)) (c : list doc) (u : doc) :
  find_one q (c ++ [u]) =
    match find_one q c with
    | Some d => Some d
    | None => if matches q u then Some u else None
    end.
Proof.
  unfold find_one. induction c as [|x c IH]; cbn [app List.find]; [done|].
  by destruct (matches q x).
Qed.

Lemma reserve_slot_status (now : Z) (data : doc) (s : db) (user : doc) :
  db_ok s ->
  find_one (staff_query (get data "staff_id")) (users_collection s) = Some user ->
  exists r,
    (reserve_slot now data s).2 = inr r /\
    status_code r =
      (if existsb (matches free_slot_query) (slots_collection s)
       then 201 else 404).
Proof.
  intros [[Hs Hnd] Hu] Huser.
  destruct (existsb _ (slots_collection s)) eqn:Hfree.
  - destruct (first_match_split _ _ Hfree) as (pre & d & post & Hc & Hpre & Hd).
    destruct (user_has_email _ _ _ Hu Huser) as [email He].
    destruct (slot_has_id _ d Hs) as [sid Hsid].
    { rewrite Hc. apply elem_of_app. right. by left. }
    destruct (reserve_slot_success now data s user email (VStr sid) pre post d
                Huser He Hc Hpre Hd Hsid) as (r & -> & Hcode & _).
    by exists r.
  - rewrite (reserve_slot_full now data s user Hu Huser Hfree). by eexists.
Qed.

Section Parking.

Variable generate_password_hash : string -> string -> string.
Variable str_oid : N -> string.

(** X27.  After a registration answered 201 on a well-formed store that
    satisfies the account invariants, a reservation request carrying the id
    exactly as it was typed at registration is answered 201 when a slot is
    free and 404 otherwise if the account is staff, and rejected with 403
    and no change if the account is a student and no staff account has that
    staff_id. *)
Theorem registration_then_reservation (now : Z) (salt : string) (data : doc)
    (w w' : world) (r : response) (id : string) :
  db_ok (store w) -> accounts_ok (users_collection (store w)) ->
  register generate_password_hash str_oid now salt data w = (w', inr r) ->
  status_code r = 201 ->
  request_id data = Some id ->
  forall now' data',
    get data' "staff_id" = VStr id ->
    (get data "user_type" = VStr "staff" ->
     exists r',
       (reserve_slot now' data' (store w')).2 = inr r' /\
       status_code r' =
         (if existsb (matches free_slot_query) (slots_collection (store w))
          then 201 else 404)) /\
    (get data "user_type" = VStr "student" ->
     (forall u, u ∈ users_collection (store w) -> get u "staff_id" <> VStr id) ->
     exists r',
       reserve_slot now' data' (store w') = (store w', inr r') /\
       status_code r' = 403).
Proof.
  intros Hdb Hacc Hrun Hst Hrid now' data' Hsid.
  destruct (register_accounts _ _ _ _ _ _ _ _ Hrun Hacc) as (Hacc' & Hsl & _).
  destruct (accounts_ok_users _ Hacc') as [Hu' _].
  assert (db_ok (store w')) as Hdb'.
  { destruct Hdb as [Hslots _]. split; [by rewrite Hsl|done]. }
  destruct (register_inv _ _ _ _ _ _ _ _ Hrun)
    as [(_ & _ & _ & H400)
       |(k & e & p & id0 & dept & reg & w1 & He & Hve & Hp & Hcp & Hvp & Hk
           & Hrid0 & Hid & Hu & Hc & Ht & Hf & Hcu)].
  { rewrite Hst in H400. done. }
  rewrite Hrid in Hrid0. injection Hrid0 as <-.
  destruct (check_id_run _ _ _ _ _ Hc) as (Hs1 & _).
  destruct (create_user_run generate_password_hash str_oid now salt k e p
              (VStr (type_name k)) id dept w1 Hf)
    as (w2 & b & r0 & Hcu' & _ & Hs & _).
  rewrite Hcu in Hcu'. injection Hcu' as <- <-.
  assert (users_collection (store w') =
          users_collection (store w) ++
            [<["_id" := VOid (next_oid (store w1))]>
               (user_data generate_password_hash now salt k e p
                          (VStr (type_name k)) id dept)]) as Husers
    by (by rewrite Hs, <- Hs1).
  split.
  - intros Hstaff. rewrite Hk in Hstaff. injection Hstaff as Hstaff.
    apply (type_name_inj k Staff) in Hstaff. subst k.
    assert (exists user,
              find_one (staff_query (get data' "staff_id"))
                       (users_collection (store w')) = Some user)
      as [user Huser].
    { rewrite Husers, find_one_app, Hsid.
      destruct (find_one (staff_query (VStr id)) (users_collection (store w)));
        [by eexists|].
      unfold staff_query, matches, cond_holds. cbn [forallb fst snd].
      rewrite !bool_decide_eq_true_2 by done. by eexists. }
    rewrite <- Hsl. by apply (reserve_slot_status now' data' _ user).
  - intros Hstudent Hnone. rewrite Hk in Hstudent. injection Hstudent as Hstudent.
    apply (type_name_inj k Student) in Hstudent. subst k.
    rewrite (reserve_slot_denied now' data' (store w')); [by eexists|].
    rewrite Husers, find_one_app, Hsid.
    assert (find_one (staff_query (VStr id)) (users_collection (store w)) = None)
      as ->.
    { apply find_one_none. apply Forall_forall. intros u Hin.
      unfold staff_query, matches, cond_holds. cbn [forallb fst snd].
      rewrite bool_decide_eq_false_2; [done|]. by apply Hnone. }
    unfold staff_query, matches, cond_holds. cbn [forallb fst snd].
    by rewrite bool_decide_eq_false_2.
Qed.

End Parking.

(** ** Startup *)

Lemma load_database_run (k : roster) (w : world) :
  (fs_writable w = true \/ file_of k w <> FileMissing) ->
  exists w' d,
    load_database k w = (w', inr d) /\ file_of k w' <> FileMissing /\
    store w' = store w /\ fs_writable w' = fs_writable w /\
    file_of (other k) w' = file_of (other k) w /\
    (file_of k w <> FileMissing -> w' = w).
Proof.
  intros H. unfold load_database.
  destruct (file_of k w) as [| |d] eqn:Hf.
  - destruct H as [Hw|H]; [|done]. rewrite Hw.
    eexists _, _. split; [reflexivity|].
    rewrite file_of_set_file, store_set_file, writable_set_file,
      file_of_set_other. by repeat split.
  - eexists _, _. split; [reflexivity|]. rewrite Hf. by repeat split.
  - eexists _, _. split; [reflexivity|]. rewrite Hf. by repeat split.
Qed.

Lemma init_slots_run (s : db) :
  exists s',
    init_slots s = (s', inr tt) /\ slots_collection s' <> [] /\
    users_collection s' = users_collection s /\
    bookings_collection s' = bookings_collection s /\
    (slots_collection s <> [] -> s' = s).
Proof.
  destruct (slots_collection s) as [|d c] eqn:Hc.
  - unfold init_slots. rewrite run_bind.
    unfold slots_count_documents at 1. rewrite Hc. simpl.
    eexists. split; [reflexivity|]. simpl. rewrite Hc. by repeat split.
  - rewrite init_slots_nonempty by (by rewrite Hc).
    exists s. rewrite Hc. by repeat split.
Qed.

Lemma startup_run (w : world) :
  (fs_writable w = true \/ files_present w) ->
  exists w',
    startup w = (w', inr tt) /\ files_present w' /\
    slots_collection (store w') <> [] /\
    users_collection (store w') = users_collection (store w) /\
    bookings_collection (store w') = bookings_collection (store w) /\
    (slots_collection (store w) <> [] -> store w' = store w) /\
    (files_present w ->
     staff_database_json w' = staff_database_json w /\
     student_database_json w' = student_database_json w) /\
    fs_writable w' = fs_writable w.
Proof.
  intros H. unfold startup. rewrite wrun_bind, lift_run.
  destruct (init_slots_run (store w)) as (s' & -> & Hne & Hu & Hb & Hsame).
  rewrite wrun_bind.
  destruct (load_database_run Staff (set_store w s'))
    as (w1 & d1 & Hl1 & Hf1 & Hs1 & Hw1 & Ho1 & Hp1).
  { destruct H as [H|[H _]]; [by left|by right]. }
  unfold load_staff_database. rewrite Hl1, wrun_bind.
  destruct (load_database_run Student w1)
    as (w2 & d2 & Hl2 & Hf2 & Hs2 & Hw2 & Ho2 & Hp2).
  { destruct H as [H|[_ H]]; [left; by rewrite Hw1|right].
    change (file_of Student w1) with (file_of (other Staff) w1).
    by rewrite Ho1. }
  unfold load_student_database. rewrite Hl2, wrun_ret.
  exists w2. split; [done|].
  cbn [other file_of] in *.
  split; [split; [by rewrite Ho2|done]|].
  rewrite Hs2, Hs1. cbn [store set_store].
  split; [done|]. split; [done|]. split; [done|]. split; [done|].
  split; [|by rewrite Hw2, Hw1].
  intros [Hx Hy]. rewrite (Hp2 ltac:(by rewrite Ho1)).
  by rewrite (Hp1 Hx).
Qed.

(** X28.  The module-level start-up (init_slots, then loading both JSON files)
    succeeds whenever the files can be written or both exist: afterwards
    both files exist, the slot collection is not empty, accounts and
    bookings are unchanged, an already populated store and already present
    files are untouched, and running it again changes nothing. With a
    missing file that cannot be created it ends in an uncaught OSError after
    the slots were already created. *)
Theorem startup_prepares (w : world) :
  ((fs_writable w = true \/ files_present w) ->
   exists w',
     startup w = (w', inr tt) /\ files_present w' /\
     slots_collection (store w') <> [] /\
     users_collection (store w') = users_collection (store w) /\
     bookings_collection (store w') = bookings_collection (store w) /\
     (slots_collection (store w) <> [] -> store w' = store w) /\
     (files_present w ->
      staff_database_json w' = staff_database_json w /\
      student_database_json w' = student_database_json w) /\
     startup w' = (w', inr tt)) /\
  (fs_writable w = false -> ~ files_present w ->
   (startup w).2 = inl OSError /\
   slots_collection (store (startup w).1) <> []).
Proof.
  split.
  - intros H. destruct (startup_run w H)
      as (w' & Hrun & Hfiles & Hne & Hu & Hb & Hsame & Hkeep & _).
    exists w'. repeat (split; [done|]).
    destruct (startup_run w' (or_intror Hfiles))
      as (w'' & Hrun' & _ & _ & _ & _ & Hsame' & Hkeep' & Hw').
    rewrite Hrun'. f_equal.
    destruct (Hkeep' Hfiles) as [H1 H2]. specialize (Hsame' Hne).
    destruct w'', w'. cbn in *. by subst.
  - intros Hw Hfiles. destruct (startup w) as [w' o] eqn:Hrun.
    cbn [fst snd]. revert Hrun. unfold startup. rewrite wrun_bind, lift_run.
    destruct (init_slots_run (store w)) as (s' & -> & Hne & _).
    rewrite wrun_bind. unfold load_staff_database, load_student_database.
    unfold load_database at 1.
    cbn [file_of set_store staff_database_json fs_writable].
    destruct (staff_database_json w) eqn:Hstaff; rewrite ?Hw;
      [by intros [= <- <-]| |].
    all: rewrite wrun_bind; unfold load_database;
      cbn [file_of set_store student_database_json fs_writable];
      destruct (student_database_json w) eqn:Hstudent; rewrite ?Hw;
      [by intros [= <- <-]| |].
    all: exfalso; apply Hfiles; split; congruence.
Qed.

(** ** The lookup endpoints *)

Lemma check_of_run (k : roster) (id : string) (w : world) (dept reg : value) :
  file_of k w <> FileMissing ->
  check_in (lower id) (content k w) = (true, dept, reg) ->
  exists r,
    check_of k id w = (w, inr r) /\ status_code r = 200 /\
    get (body r) "department" = dept /\
    get (body r) "registered" = reg /\
    get (body r) "message" =
      VStr (if truthy reg then "Already registered"
            else "Available for registration").
Proof.
  intros Hf Hc.
  destruct k; unfold check_of, check_staff, check_student, check_endpoint;
    rewrite wrun_bind, check_id_present, Hc by done; cbn [negb];
    eexists; (split; [reflexivity|]); by repeat split.
Qed.

Lemma forgot_password_same (data : doc) (w : world) :
  (forgot_password data w).1 = w.
Proof.
  unfold forgot_password. rewrite wrun_bind, str_strip_run.
  destruct (stripped _) as [e|]; [|done].
  destruct (validate_email e); cbn [negb]; [|done].
  rewrite wrun_bind, users_find_one_run. by destruct (find_one _ _).
Qed.

Lemma check_of_same (k : roster) (id : string) (w : world) :
  file_of k w <> FileMissing -> (check_of k id w).1 = w.
Proof.
  intros Hf.
  destruct k; unfold check_of, check_staff, check_student, check_endpoint;
    rewrite wrun_bind, check_id_present by done;
    destruct (check_in _ _) as [[[] dept] reg]; done.
Qed.

Section Lookups.

Variable generate_password_hash : string -> string -> string.
Variable check_password_hash : string -> string -> bool.
Variable str_oid : N -> string.

(** X29.  With both files present and writable, the lookup endpoint of the
    roster agrees with registration: before a registration that is answered
    201 it answers 200 'Available for registration' for the id without
    changing anything, and afterwards it answers 200 with registered = true,
    'Already registered' and the same department. *)
Theorem check_tracks_registration (now : Z) (salt : string) (data : doc)
    (w w' : world) (r : response) (k : roster) (id : string) :
  files_present w -> fs_writable w = true ->
  register generate_password_hash str_oid now salt data w = (w', inr r) ->
  status_code r = 201 ->
  request_id data = Some id ->
  get data "user_type" = VStr (type_name k) ->
  exists before after,
    check_of k id w = (w, inr before) /\ status_code before = 200 /\
    get (body before) "message" = VStr "Available for registration" /\
    check_of k id w' = (w', inr after) /\ status_code after = 200 /\
    get (body after) "registered" = VBool true /\
    get (body after) "message" = VStr "Already registered" /\
    get (body after) "department" = get (body before) "department".
Proof.
  intros Hfiles Hw Hrun Hst Hrid Hut.
  destruct (register_inv _ _ _ _ _ _ _ _ Hrun)
    as [(_ & _ & _ & H400)
       |(k0 & e & p & id0 & dept & reg & w1 & He & Hve & Hp & Hcp & Hvp & Hk
           & Hrid0 & Hid & Hu & Hc & Ht & Hf & Hcu)].
  { rewrite Hst in H400. done. }
  rewrite Hrid in Hrid0. injection Hrid0 as <-.
  rewrite Hut in Hk. injection Hk as Hk. apply type_name_inj in Hk. subst k0.
  assert (file_of k w <> FileMissing) as Hfk
    by (destruct Hfiles; by destruct k).
  rewrite check_id_present in Hc by done. injection Hc as <- Hc.
  destruct (create_user_run generate_password_hash str_oid now salt k e p
              (VStr (type_name k)) id dept w Hfk)
    as (w2 & b & r0 & Hcu' & Hm & _).
  rewrite Hcu in Hcu'. injection Hcu' as <- <-.
  edestruct (mark_registered_found k id) as (w3 & Hm3 & Hf3 & Hc3 & _);
    [| |rewrite content_set_store; exact Hc|].
  { by rewrite file_of_set_store. }
  { by rewrite fs_writable_set_store. }
  rewrite Hm in Hm3. injection Hm3 as <- _.
  destruct (check_of_run k id w dept reg Hfk Hc)
    as (before & Hb & Hbs & Hbd & _ & Hbm).
  destruct (check_of_run k id w' dept (VBool true) Hf3 Hc3)
    as (after & Ha & Has & Had & Har & Ham).
  exists before, after. rewrite Ht in Hbm. rewrite Hbd, Had.
  by repeat split.
Qed.

(** X30.  With both JSON files present, forgot_password, login, check_staff and
    check_student change neither the database nor the files, whatever the
    request and whatever the outcome (including an uncaught exception). *)
Theorem lookups_change_nothing (w : world) :
  files_present w ->
  (forall data, (forgot_password data w).1 = w) /\
  (forall now data, (login check_password_hash str_oid now data w).1 = w) /\
  (forall id, (check_staff id w).1 = w /\ (check_student id w).1 = w).
Proof.
  intros [H1 H2]. split; [intros data; apply forgot_password_same|].
  split.
  { intros now data.
    destruct (login check_password_hash str_oid now data w) as [w' o] eqn:Hl.
    by destruct (login_inv _ _ _ _ _ _ _ Hl). }
  intros id. split; [by apply (check_of_same Staff)|
                     by apply (check_of_same Student)].
Qed.

End Lookups.

Lemma first_day_files : files_present first_day.
Proof. split; vm_compute; discriminate. Qed.

Lemma enrolled_run :
  register toy_hash toy_oid 5 "salt" enrolment_request first_day
    = (enrolled, inr enrolled_response).
Proof. vm_compute. reflexivity. Qed.

Lemma register_outcomes_witness :
  match (inr enrolled_response : py_exn + response) with
  | inl _ => enrolled = first_day
  | inr r =>
      (status_code r = 400 /\ enrolled = first_day) \/
      (status_code r = 201 /\
       exists e u,
         stripped (get_or enrolment_request "email" (VStr "")) = Some e /\
         validate_email e = true /\
         (VStr e ∉ emails (users_collection (store first_day))) /\
         users_collection (store enrolled)
           = users_collection (store first_day) ++ [u] /\
         get u "email" = VStr e /\
         get u "_id" = VOid (next_oid (store first_day)) /\
         get u "user_type" = get enrolment_request "user_type" /\
         get u "created_at" = VTime 5 /\
         get (body r) "email" = VStr e /\
         get (body r) "user_id" = VStr (toy_oid (next_oid (store first_day))) /\
         next_oid (store enrolled) = N.succ (next_oid (store first_day)) /\
         slots_collection (store enrolled) = slots_collection (store first_day) /\
         bookings_collection (store enrolled)
           = bookings_collection (store first_day))
  end.
Proof.
  apply (register_outcomes toy_hash toy_oid 5 "salt" enrolment_request first_day
           enrolled (inr enrolled_response)).
  - split; vm_compute; discriminate.
  - vm_compute. reflexivity.
Defined.

Lemma accounts_kept_witness :
  (forall now salt data w' o,
     register toy_hash toy_oid now salt data enrolled = (w', o) ->
     accounts_ok (users_collection (store w')) /\ db_ok (store w') /\
     staff_registered (users_collection (store w'))) /\
  (forall salt data w' o,
     reset_password toy_hash salt data enrolled = (w', o) ->
     accounts_ok (users_collection (store w')) /\ db_ok (store w') /\
     staff_registered (users_collection (store w'))).
Proof.
  apply (accounts_kept toy_hash toy_oid enrolled).
  - apply enrolled_accounts.
  - apply db_okb_sound. vm_compute. reflexivity.
Defined.

Lemma register_once_witness :
  status_code enrolled_response = 201 /\
  forall now' salt' data' id' w'' r',
    request_id data' = Some id' -> lower id' = lower "ECE101" ->
    get data' "user_type" = get enrolment_request "user_type" ->
    register toy_hash toy_oid now' salt' data' enrolled = (w'', inr r') ->
    status_code r' = 400 /\ store w'' = store enrolled.
Proof.
  split; [vm_compute; reflexivity|].
  apply (register_once toy_hash toy_oid 5 "salt" enrolment_request first_day enrolled
           enrolled_response "ECE101").
  - vm_compute. reflexivity.
  - vm_compute. reflexivity.
  - vm_compute. reflexivity.
  - vm_compute. reflexivity.
Defined.

Lemma register_unwritable_witness :
  staff_database_json
    (register toy_hash toy_oid 5 "salt" enrolment_request (locked first_day)).1
    = staff_database_json (locked first_day) /\
  student_database_json
    (register toy_hash toy_oid 5 "salt" enrolment_request (locked first_day)).1
    = student_database_json (locked first_day) /\
  forall now' salt' e' data',
    data' = <["email" := VStr e']> enrolment_request ->
    validate_email (strip e') = true ->
    VStr (strip e') ∉
      emails (users_collection
                (store (register toy_hash toy_oid 5 "salt" enrolment_request
                          (locked first_day)).1)) ->
    exists w'' r',
      register toy_hash toy_oid now' salt' data'
        (register toy_hash toy_oid 5 "salt" enrolment_request (locked first_day)).1
        = (w'', inr r') /\
      status_code r' = 201.
Proof.
  apply (register_unwritable toy_hash toy_oid 5 "salt" enrolment_request
           (locked first_day)
           (register toy_hash toy_oid 5 "salt" enrolment_request (locked first_day)).1
           (answer (register toy_hash toy_oid 5 "salt" enrolment_request
                      (locked first_day)))).
  - vm_compute. reflexivity.
  - vm_compute. reflexivity.
  - reflexivity.
  - split; vm_compute; discriminate.
Defined.

Lemma login_outcomes_witness :
  exists r,
    login toy_check toy_oid 9
      (login_request "ece101@campus.edu" "123456") enrolled
      = (enrolled, inr r) /\
    ((status_code r = 200 /\
      exists u h, u ∈ users_collection (store enrolled) /\
                  get u "email" = VStr "ece101@campus.edu" /\
                  u !! "password" = Some (VStr h) /\
                  toy_check h "123456" = true) \/
     (status_code r = 401 /\
      forall u h, u ∈ users_collection (store enrolled) ->
                  get u "email" = VStr "ece101@campus.edu" ->
                  u !! "password" = Some (VStr h) ->
                  toy_check h "123456" = false)).
Proof.
  apply (login_outcomes toy_check toy_oid 9
           (login_request "ece101@campus.edu" "123456") enrolled
           "ece101@campus.edu" "123456").
  - apply enrolled_accounts.
  - vm_compute. reflexivity.
  - vm_compute. reflexivity.
Defined.

Lemma register_then_login_witness :
  toy_check (toy_hash "salt" "123456") "123456" = true /\
  forall now' data',
    stripped (get_or data' "email" (VStr ""))
      = stripped (get_or enrolment_request "email" (VStr "")) ->
    get data' "password" = VStr "123456" ->
    exists r' row,
      login toy_check toy_oid now' data' enrolled = (enrolled, inr r') /\
      status_code r' = 200 /\ rows r' = [row] /\
      get row "email" = get (body enrolled_response) "email" /\
      get row "user_type" = get enrolment_request "user_type" /\
      get row "department" = get (body enrolled_response) "department" /\
      row !! "password" = None.
Proof.
  split; [vm_compute; reflexivity|].
  apply (register_then_login toy_hash toy_check toy_oid 5 "salt"
           enrolment_request first_day enrolled enrolled_response "123456").
  - vm_compute. reflexivity.
  - vm_compute. reflexivity.
  - vm_compute. reflexivity.
  - vm_compute. reflexivity.
Defined.

Lemma reset_password_then_login_witness :
  emails (users_collection
            (store (reset_password toy_hash "pepper"
                      (reset_request "ece101@campus.edu" "654321") enrolled).1))
    = emails (users_collection (store enrolled)) /\
  slots_collection
    (store (reset_password toy_hash "pepper"
              (reset_request "ece101@campus.edu" "654321") enrolled).1)
    = slots_collection (store enrolled) /\
  bookings_collection
    (store (reset_password toy_hash "pepper"
              (reset_request "ece101@campus.edu" "654321") enrolled).1)
    = bookings_collection (store enrolled) /\
  staff_database_json
    (reset_password toy_hash "pepper"
       (reset_request "ece101@campus.edu" "654321") enrolled).1
    = staff_database_json enrolled /\
  student_database_json
    (reset_password toy_hash "pepper"
       (reset_request "ece101@campus.edu" "654321") enrolled).1
    = student_database_json enrolled /\
  forall now data',
    stripped (get_or data' "email" (VStr ""))
      = stripped (get_or (reset_request "ece101@campus.edu" "654321")
                         "email" (VStr "")) ->
    get data' "password" = VStr "654321" ->
    exists r',
      login toy_check toy_oid now data'
        (reset_password toy_hash "pepper"
           (reset_request "ece101@campus.edu" "654321") enrolled).1
        = ((reset_password toy_hash "pepper"
              (reset_request "ece101@campus.edu" "654321") enrolled).1,
           inr r') /\
      status_code r' = 200.
Proof.
  apply (reset_password_then_login toy_hash toy_check toy_oid "pepper"
           (reset_request "ece101@campus.edu" "654321") enrolled
           (reset_password toy_hash "pepper"
              (reset_request "ece101@campus.edu" "654321") enrolled).1
           (answer (reset_password toy_hash "pepper"
                      (reset_request "ece101@campus.edu" "654321") enrolled))
           "654321").
  - apply enrolled_accounts.
  - vm_compute. reflexivity.
  - vm_compute. reflexivity.
  - vm_compute. reflexivity.
  - vm_compute. reflexivity.
Defined.

Lemma registration_then_reservation_witness :
  status_code enrolled_response = 201 /\
  forall now' data',
    get data' "staff_id" = VStr "ECE101" ->
    (get enrolment_request "user_type" = VStr "staff" ->
     exists r',
       (reserve_slot now' data' (store enrolled)).2 = inr r' /\
       status_code r' =
         (if existsb (matches free_slot_query)
               (slots_collection (store first_day))
          then 201 else 404)) /\
    (get enrolment_request "user_type" = VStr "student" ->
     (forall u, u ∈ users_collection (store first_day) ->
                get u "staff_id" <> VStr "ECE101") ->
     exists r',
       reserve_slot now' data' (store enrolled) = (store enrolled, inr r') /\
       status_code r' = 403).
Proof.
  split; [vm_compute; reflexivity|].
  apply (registration_then_reservation toy_hash toy_oid 5 "salt" enrolment_request
           first_day enrolled enrolled_response "ECE101").
  - apply db_okb_sound. vm_compute. reflexivity.
  - split; constructor.
  - vm_compute. reflexivity.
  - vm_compute. reflexivity.
  - vm_compute. reflexivity.
Defined.

Lemma check_tracks_registration_witness :
  exists before after,
    check_of Staff "ECE101" first_day = (first_day, inr before) /\
    status_code before = 200 /\
    get (body before) "message" = VStr "Available for registration" /\
    check_of Staff "ECE101" enrolled = (enrolled, inr after) /\
    status_code after = 200 /\
    get (body after) "registered" = VBool true /\
    get (body after) "message" = VStr "Already registered" /\
    get (body after) "department" = get (body before) "department".
Proof.
  apply (check_tracks_registration toy_hash toy_oid 5 "salt" enrolment_request
           first_day enrolled enrolled_response Staff "ECE101").
  - split; vm_compute; discriminate.
  - vm_compute. reflexivity.
  - vm_compute. reflexivity.
  - vm_compute. reflexivity.
  - vm_compute. reflexivity.
  - vm_compute. reflexivity.
Defined.

Lemma lookups_change_nothing_witness :
  (forall data, (forgot_password data enrolled).1 = enrolled) /\
  (forall now data, (login toy_check toy_oid now data enrolled).1 = enrolled) /\
  (forall id, (check_staff id enrolled).1 = enrolled /\
              (check_student id enrolled).1 = enrolled).
Proof.
  apply (lookups_change_nothing toy_check toy_oid enrolled).
  split; vm_compute; discriminate.
Defined.
